(** * RAN Insight Pro: the numeric analysis pipeline

    A shallow embedding of the backend services
    ([app/services/parser.py], [app/services/anomaly.py],
    [app/services/correlation.py]) and of the comparison router
    ([app/routers/compare.py]).

    Numbers.  Python and numpy floats are idealised as real numbers extended
    with one not-a-number value: rounding and overflow are not modelled, the
    propagation of NaN through arithmetic and comparisons is.  The only
    infinity the code builds, [float('inf')] in the stability score, is kept
    local to that function.  The one exception is the confidence score of
    [app/services/ai_summary.py], a sum of decimal literals whose rounding
    matters: it is computed on binary64 floats.

    Exceptions.  A function that can raise returns an [option], [None] being
    the exception; the two endpoints of the router turn any exception of
    the analyses into HTTP 500. *)

From Stdlib Require Import String.
From Stdlib Require Import Reals Lra Lia List Bool Arith ZArith Sorted.
From Stdlib Require PrimFloat.
Import ListNotations.

Open Scope R_scope.

(** ** Floats *)

Module Float.

Inductive float : Type :=
| Fin (x : R)
| NaN.

Definition is_nan (a : float) : bool :=
  match a with NaN => true | Fin _ => false end.

Definition Rltb (x y : R) : bool := if Rlt_dec x y then true else false.
Definition Rleb (x y : R) : bool := if Rle_dec x y then true else false.
Definition Reqb (x y : R) : bool := if Req_dec_T x y then true else false.

(** Comparisons: every ordered comparison with NaN is false, [!=] with NaN
    is true. *)
Definition lt (a b : float) : bool :=
  match a, b with Fin x, Fin y => Rltb x y | _, _ => false end.
Definition le (a b : float) : bool :=
  match a, b with Fin x, Fin y => Rleb x y | _, _ => false end.
Definition gt (a b : float) : bool := lt b a.
Definition ge (a b : float) : bool := le b a.
Definition eq (a b : float) : bool :=
  match a, b with Fin x, Fin y => Reqb x y | _, _ => false end.
Definition ne (a b : float) : bool := negb (eq a b).

Definition lift2 (f : R -> R -> R) (a b : float) : float :=
  match a, b with Fin x, Fin y => Fin (f x y) | _, _ => NaN end.

Definition add : float -> float -> float := lift2 Rplus.
Definition sub : float -> float -> float := lift2 Rminus.
Definition mul : float -> float -> float := lift2 Rmult.
(** Every division of the modelled code is guarded against a zero divisor;
    the quotient of reals is used as it is. *)
Definition div : float -> float -> float := lift2 Rdiv.
Definition abs (a : float) : float :=
  match a with Fin x => Fin (Rabs x) | NaN => NaN end.

End Float.

Import Float.

Declare Scope fl_scope.
Delimit Scope fl_scope with fl.
Infix "+" := add : fl_scope.
Infix "-" := sub : fl_scope.
Infix "*" := mul : fl_scope.
Infix "/" := div : fl_scope.
Infix "<?" := lt : fl_scope.
Infix "<=?" := le : fl_scope.
Infix ">?" := gt : fl_scope.
Infix ">=?" := ge : fl_scope.

(** ** The pandas operations the services call *)

Module Pandas.

Definition Series : Type := list float.

(** [Series.dropna()], as the list of the values that remain. *)
Fixpoint dropna (s : Series) : list R :=
  match s with
  | [] => []
  | Fin x :: t => x :: dropna t
  | NaN :: t => dropna t
  end.

Definition Rsum (l : list R) : R := fold_right Rplus 0 l.

Definition Rmean (v : list R) : R := Rsum v / INR (length v).

(** Sum of the squared deviations from the mean. *)
Definition ssd (v : list R) : R :=
  Rsum (map (fun x => (x - Rmean v) * (x - Rmean v)) v).

(** [Series.mean()]: missing values are skipped; NaN when nothing is left. *)
Definition mean (s : Series) : float :=
  match dropna s with
  | [] => NaN
  | v => Fin (Rmean v)
  end.

(** [Series.std()]: sample standard deviation, [ddof = 1], missing values
    skipped; NaN with fewer than two values. *)
Definition std (s : Series) : float :=
  let v := dropna s in
  if (length v <? 2)%nat then NaN
  else Fin (sqrt (ssd v / (INR (length v) - 1))).

Fixpoint insert_sorted (x : R) (l : list R) : list R :=
  match l with
  | [] => [x]
  | y :: t => if Rle_dec x y then x :: l else y :: insert_sorted x t
  end.

Definition sort_values (l : list R) : list R := fold_right insert_sorted [] l.

(** [Series.median()]: missing values skipped, NaN when nothing is left,
    the mean of the two middle values for an even count. *)
Definition median (s : Series) : float :=
  let v := sort_values (dropna s) in
  let n := length v in
  if (n =? 0)%nat then NaN
  else if Nat.even n
       then Fin ((nth (n / 2 - 1) v 0 + nth (n / 2) v 0) / 2)
       else Fin (nth (n / 2) v 0).

(** [Series.fillna(value)]. *)
Definition fillna (value : float) (s : Series) : Series :=
  map (fun a => if is_nan a then value else a) s.

(** The rows at which both series hold a value ([Series.corr] works on
    pairwise complete observations). *)
Fixpoint valid_pairs (a b : Series) : list (R * R) :=
  match a, b with
  | Fin x :: a', Fin y :: b' => (x, y) :: valid_pairs a' b'
  | _ :: a', _ :: b' => valid_pairs a' b'
  | _, _ => []
  end.

Definition sxy (p : list (R * R)) : R :=
  let xs := map fst p in
  let ys := map snd p in
  Rsum (map (fun q => (fst q - Rmean xs) * (snd q - Rmean ys)) p).

(** [a.corr(b)]: Pearson's coefficient over the complete pairs; NaN with
    fewer than two of them or when one side has no variance (0/0). *)
Definition corr (a b : Series) : float :=
  let p := valid_pairs a b in
  let d := ssd (map fst p) * ssd (map snd p) in
  if (length p <? 2)%nat then NaN
  else if Reqb d 0 then NaN
  else Fin (sxy p / sqrt d).

(** [Series.shift(k)]: values move [k] places towards the end for a
    positive [k], towards the start for a negative one; the vacated places
    hold NaN and the length is kept. *)
Definition shift (k : Z) (s : Series) : Series :=
  let n := length s in
  if (0 <=? k)%Z
  then firstn n (repeat NaN (Z.to_nat k) ++ s)
  else skipn (Z.to_nat (- k)) s ++ repeat NaN (Nat.min n (Z.to_nat (- k))).

(** The [w] values that end at position [i]. *)
Definition window (w i : nat) (s : Series) : Series :=
  firstn w (skipn (i + 1 - w) s).

(** [a.rolling(window=w).corr(b)]: NaN until the window is full and
    wherever the window holds a missing value. *)
Definition rolling_corr (w : nat) (a b : Series) : Series :=
  map (fun i =>
         if (i + 1 <? w)%nat then NaN
         else
           let wa := window w i a in
           let wb := window w i b in
           if (length (valid_pairs wa wb) =? w)%nat then corr wa wb else NaN)
      (seq 0 (length a)).

(** [s.rolling(window=w).mean()]. *)
Definition rolling_mean (w : nat) (s : Series) : Series :=
  map (fun i =>
         if (i + 1 <? w)%nat then NaN
         else
           let ws := window w i s in
           if (length (dropna ws) =? w)%nat then mean ws else NaN)
      (seq 0 (length s)).

(** [df[mask].index.tolist()] on a frame with a [RangeIndex]: the positions
    at which the mask holds. *)
Fixpoint mask_index_from (i : nat) (mask : list bool) : list nat :=
  match mask with
  | [] => []
  | true :: t => i :: mask_index_from (S i) t
  | false :: t => mask_index_from (S i) t
  end.

Definition mask_index (mask : list bool) : list nat := mask_index_from 0 mask.

End Pandas.

Import Pandas.

(** ** Data frames of KPI samples *)

Inductive metric : Type := RTWP | SINR | PRB.

Definition metric_eqb (a b : metric) : bool :=
  match a, b with
  | RTWP, RTWP | SINR, SINR | PRB, PRB => true
  | _, _ => false
  end.

Record Row : Type := mkRow {
  rtwp : float;
  sinr : float;
  prb : float
}.

(** A frame records which of the three KPI columns it has; the cells of an
    absent column are never read. *)
Record DataFrame : Type := mkDF {
  has_RTWP : bool;
  has_SINR : bool;
  has_PRB : bool;
  rows : list Row
}.

Definition in_columns (m : metric) (df : DataFrame) : bool :=
  match m with
  | RTWP => has_RTWP df
  | SINR => has_SINR df
  | PRB => has_PRB df
  end.

Definition cell (m : metric) (r : Row) : float :=
  match m with
  | RTWP => rtwp r
  | SINR => sinr r
  | PRB => prb r
  end.

(** [df[m]] *)
Definition col (df : DataFrame) (m : metric) : Series := map (cell m) (rows df).

(** [len(df)] *)
Definition len (df : DataFrame) : nat := length (rows df).

(** ** [app/services/anomaly.py]: class [AnomalyDetector] *)

Module Anomaly.

(** [self.anomaly_thresholds] *)
Definition rtwp_std_multiplier : float := Fin 2.5.
Definition sinr_std_multiplier : float := Fin 2.
Definition prb_std_multiplier : float := Fin 2.
Definition rtwp_absolute_max : float := Fin (-70).
Definition rtwp_absolute_min : float := Fin (-120).
Definition sinr_absolute_min : float := Fin 0.
Definition prb_absolute_max : float := Fin 100.
Definition prb_absolute_min : float := Fin 0.

Inductive anomaly_type : Type := statistical | high_absolute | low_absolute.

(** The dictionary returned for one metric; [mean] and [std] are absent
    from it when the column is. *)
Record MetricReport : Type := mkMetricReport {
  count : nat;
  indices : list nat;
  types : list anomaly_type;
  report_mean : option float;
  report_std : option float
}.

Definition seen_has (idx : nat) (seen : list nat) : bool :=
  existsb (Nat.eqb idx) seen.

(** The loop "remove duplicates while preserving order", over
    [enumerate(anomalies)] paired with [anomaly_types[i]]; the state is
    [unique_anomalies], [unique_types] and the set [seen]. *)
Fixpoint unique_loop (todo : list (nat * anomaly_type))
         (unique_anomalies : list nat) (unique_types : list anomaly_type)
         (seen : list nat) : list nat * list anomaly_type :=
  match todo with
  | [] => (unique_anomalies, unique_types)
  | (idx, ty) :: rest =>
      if seen_has idx seen
      then unique_loop rest unique_anomalies unique_types seen
      else unique_loop rest (unique_anomalies ++ [idx]) (unique_types ++ [ty])
                       (idx :: seen)
  end.

Definition remove_duplicates (anomalies : list nat)
           (anomaly_types : list anomaly_type) : list nat * list anomaly_type :=
  unique_loop (combine anomalies anomaly_types) [] [] [].

Definition tagged (ty : anomaly_type) (l : list nat) : list anomaly_type :=
  repeat ty (length l).

(** The three tests, as boolean masks over the column. *)
Definition statistical_outliers (threshold : float) (s : Series) : list bool :=
  map (fun v => (abs (v - mean s) >? threshold * std s)%fl) s.

Definition above (bound : float) (s : Series) : list bool :=
  map (fun v => (v >? bound)%fl) s.

Definition below (bound : float) (s : Series) : list bool :=
  map (fun v => (v <? bound)%fl) s.

(** The pairs the loop keeps, as a function of the pairs it has left to
    visit and of [seen]. *)
Fixpoint kept (todo : list (nat * anomaly_type)) (seen : list nat)
  : list (nat * anomaly_type) :=
  match todo with
  | [] => []
  | (idx, ty) :: rest =>
      if seen_has idx seen then kept rest seen
      else (idx, ty) :: kept rest (idx :: seen)
  end.

(** The tag of the first pair of [todo] that carries [idx]. *)
Fixpoint first_tag (idx : nat) (todo : list (nat * anomaly_type))
  : option anomaly_type :=
  match todo with
  | [] => None
  | (i, ty) :: rest => if (idx =? i)%nat then Some ty else first_tag idx rest
  end.

(** The position is flagged by the test whose mask this is. *)
Definition flagged (mask : list bool) (idx : nat) : bool := nth idx mask false.

(** The tag of the first test that flags a position, in the order in which
    each detector runs its tests. *)
Definition rtwp_first_tag (df : DataFrame) (idx : nat) : anomaly_type :=
  if flagged (statistical_outliers rtwp_std_multiplier (col df RTWP)) idx
  then statistical
  else if flagged (above rtwp_absolute_max (col df RTWP)) idx
       then high_absolute
       else low_absolute.

Definition sinr_first_tag (df : DataFrame) (idx : nat) : anomaly_type :=
  if flagged (statistical_outliers sinr_std_multiplier (col df SINR)) idx
  then statistical
  else low_absolute.

Definition prb_first_tag (df : DataFrame) (idx : nat) : anomaly_type :=
  if flagged (statistical_outliers prb_std_multiplier (col df PRB)) idx
  then statistical
  else if flagged (above prb_absolute_max (col df PRB)) idx
       then high_absolute
       else low_absolute.

(** The invariant of a per-metric report: no index twice, [count] is the
    number of indices, and the tags run parallel to the indices, each the
    tag of the first test that flagged its index. *)
Definition report_invariant (r : MetricReport) (tag : nat -> anomaly_type)
  : Prop :=
  NoDup (indices r)
  /\ count r = length (indices r)
  /\ types r = map tag (indices r).

Definition absent_report : MetricReport :=
  mkMetricReport 0 [] [] None None.

Definition _detect_rtwp_anomalies (df : DataFrame) : MetricReport :=
  if negb (has_RTWP df) then absent_report
  else
    let mean_rtwp := mean (col df RTWP) in
    let std_rtwp := std (col df RTWP) in
    let anomaly_indices :=
      mask_index (statistical_outliers rtwp_std_multiplier (col df RTWP)) in
    let high_indices := mask_index (above rtwp_absolute_max (col df RTWP)) in
    let low_indices := mask_index (below rtwp_absolute_min (col df RTWP)) in
    let anomalies := anomaly_indices ++ high_indices ++ low_indices in
    let anomaly_types :=
      tagged statistical anomaly_indices ++ tagged high_absolute high_indices
      ++ tagged low_absolute low_indices in
    let '(unique_anomalies, unique_types) :=
      remove_duplicates anomalies anomaly_types in
    mkMetricReport (length unique_anomalies) unique_anomalies unique_types
                   (Some mean_rtwp) (Some std_rtwp).

Definition _detect_sinr_anomalies (df : DataFrame) : MetricReport :=
  if negb (has_SINR df) then absent_report
  else
    let mean_sinr := mean (col df SINR) in
    let std_sinr := std (col df SINR) in
    let anomaly_indices :=
      mask_index (statistical_outliers sinr_std_multiplier (col df SINR)) in
    let low_indices := mask_index (below sinr_absolute_min (col df SINR)) in
    let anomalies := anomaly_indices ++ low_indices in
    let anomaly_types :=
      tagged statistical anomaly_indices ++ tagged low_absolute low_indices in
    let '(unique_anomalies, unique_types) :=
      remove_duplicates anomalies anomaly_types in
    mkMetricReport (length unique_anomalies) unique_anomalies unique_types
                   (Some mean_sinr) (Some std_sinr).

Definition _detect_prb_anomalies (df : DataFrame) : MetricReport :=
  if negb (has_PRB df) then absent_report
  else
    let mean_prb := mean (col df PRB) in
    let std_prb := std (col df PRB) in
    let anomaly_indices :=
      mask_index (statistical_outliers prb_std_multiplier (col df PRB)) in
    let high_indices := mask_index (above prb_absolute_max (col df PRB)) in
    let low_indices := mask_index (below prb_absolute_min (col df PRB)) in
    let anomalies := anomaly_indices ++ high_indices ++ low_indices in
    let anomaly_types :=
      tagged statistical anomaly_indices ++ tagged high_absolute high_indices
      ++ tagged low_absolute low_indices in
    let '(unique_anomalies, unique_types) :=
      remove_duplicates anomalies anomaly_types in
    mkMetricReport (length unique_anomalies) unique_anomalies unique_types
                   (Some mean_prb) (Some std_prb).

(** The dictionaries of the two cross-row detectors: [count] always,
    [description] on the early returns, [indices] (and the three
    whole-column coefficients) otherwise. *)
Record CorrelationReport : Type := mkCorrelationReport {
  corr_count : nat;
  corr_description : option string;
  corr_indices : option (list nat);
  rtwp_sinr_correlation : option float;
  rtwp_prb_correlation : option float;
  sinr_prb_correlation : option float
}.

Record TrendReport : Type := mkTrendReport {
  trend_count : nat;
  trend_description : option string;
  trend_indices : option (list nat)
}.

Definition insufficient_correlation : CorrelationReport :=
  mkCorrelationReport 0 (Some "Insufficient data for correlation analysis"%string)
                      None None None None.

Definition insufficient_trend : TrendReport :=
  mkTrendReport 0 (Some "Insufficient data for trend analysis"%string) None.

(** [min(20, len(df) // 4)] *)
Definition window_size (df : DataFrame) : nat := Nat.min 20 (len df / 4).

(** [(c < -0.8) | (c > 0.8)] *)
Definition outside_band (c : Series) : list bool :=
  map (fun v => (v <? Fin (-0.8))%fl || (v >? Fin 0.8)%fl) c.

(** [set(...)]: the order in which Python lists a set is not specified;
    only membership and size are meaningful. *)
Definition set_of (l : list nat) : list nat := nodup Nat.eq_dec l.

Definition _detect_correlation_anomalies (df : DataFrame) : CorrelationReport :=
  if negb (has_RTWP df && has_SINR df && has_PRB df)
  then insufficient_correlation
  else
    if (window_size df <? 5)%nat then insufficient_correlation
    else
      let rtwp_sinr_corr :=
        rolling_corr (window_size df) (col df RTWP) (col df SINR) in
      let rtwp_prb_corr :=
        rolling_corr (window_size df) (col df RTWP) (col df PRB) in
      let correlation_anomalies :=
        mask_index (outside_band rtwp_sinr_corr)
        ++ mask_index (outside_band rtwp_prb_corr) in
      mkCorrelationReport
        (length (set_of correlation_anomalies)) None
        (Some (set_of correlation_anomalies))
        (Some (corr (col df RTWP) (col df SINR)))
        (Some (corr (col df RTWP) (col df PRB)))
        (Some (corr (col df SINR) (col df PRB))).

(** One turn of the loop over the columns of the trend pass. *)
Definition trend_of_column (df : DataFrame) (m : metric) : list nat :=
  if negb (in_columns m df) then []
  else
    let short_ma := rolling_mean 5 (col df m) in
    let long_ma := rolling_mean 15 (col df m) in
    let deviation := map (fun p => abs (fst p - snd p)%fl) (combine short_ma long_ma) in
    let threshold := (std (col df m) * Fin 2)%fl in
    mask_index (map (fun d => (d >? threshold)%fl) deviation).

Definition _detect_trend_anomalies (df : DataFrame) : TrendReport :=
  if (len df <? 10)%nat then insufficient_trend
  else
    let trend_anomalies :=
      trend_of_column df RTWP ++ trend_of_column df SINR
      ++ trend_of_column df PRB in
    mkTrendReport (length (set_of trend_anomalies)) None
                  (Some (set_of trend_anomalies)).

Inductive severity_level : Type := low | medium | high.

Record Summary : Type := mkSummary {
  total_anomalies : nat;
  severity : severity_level
}.

Record Results : Type := mkResults {
  rtwp_anomalies : MetricReport;
  sinr_anomalies : MetricReport;
  prb_anomalies : MetricReport;
  correlation_anomalies : CorrelationReport;
  trend_anomalies : TrendReport;
  summary : Summary
}.

Definition _generate_anomaly_summary
           (r s p : MetricReport) (c : CorrelationReport) (t : TrendReport)
  : Summary :=
  let total := (count r + count s + count p + corr_count c + trend_count t)%nat in
  mkSummary total
            (if (50 <? total)%nat then high
             else if (20 <? total)%nat then medium
             else low).

Definition detect_anomalies (df : DataFrame) : Results :=
  let r := _detect_rtwp_anomalies df in
  let s := _detect_sinr_anomalies df in
  let p := _detect_prb_anomalies df in
  let c := _detect_correlation_anomalies df in
  let t := _detect_trend_anomalies df in
  mkResults r s p c t (_generate_anomaly_summary r s p c t).

End Anomaly.

(** ** [app/services/correlation.py]: class [CorrelationEngine] *)

Module Correlation.

Inductive strength : Type :=
| strong_positive | strong_negative
| moderate_positive | moderate_negative
| weak | no_correlation.

Inductive significance_level : Type := significant | not_significant.

Inductive stability_class : Type :=
| highly_stable | moderately_stable | somewhat_unstable | highly_unstable.

Definition _classify_correlation_strength (correlation : float) : strength :=
  if is_nan correlation then no_correlation
  else
    let abs_corr := abs correlation in
    if (abs_corr >=? Fin 0.7)%fl
    then (if (correlation >? Fin 0)%fl then strong_positive else strong_negative)
    else if (abs_corr >=? Fin 0.3)%fl
         then (if (correlation >? Fin 0)%fl then moderate_positive
               else moderate_negative)
         else weak.

Definition _classify_stability (stability_score : float) : stability_class :=
  if (stability_score >=? Fin 0.8)%fl then highly_stable
  else if (stability_score >=? Fin 0.6)%fl then moderately_stable
  else if (stability_score >=? Fin 0.4)%fl then somewhat_unstable
  else highly_unstable.

(** [enumerate(l)] *)
Definition enumerate {A : Type} (l : list A) : list (nat * A) :=
  combine (seq 0 (length l)) l.

Definition available_columns (df : DataFrame) : list metric :=
  filter (fun m => in_columns m df) [RTWP; SINR; PRB].

(** The pairs the two nested loops visit under [if i < j], in order. *)
Definition column_pairs (df : DataFrame) : list (metric * metric) :=
  flat_map
    (fun ic1 =>
       flat_map
         (fun jc2 =>
            if (fst ic1 <? fst jc2)%nat then [(snd ic1, snd jc2)] else [])
         (enumerate (available_columns df)))
    (enumerate (available_columns df)).

Record PairEntry : Type := mkPairEntry {
  correlation : float;
  p_value : float;
  pair_strength : strength;
  significance : significance_level
}.

(** [stats.pearsonr(a, b)[1]], the exact two-sided test of scipy, is
    library code: it is a parameter, present when [SCIPY_AVAILABLE]. *)
Definition exact_test : Type := Series -> Series -> float.

(** The p-value of one pair; the [else] branch is the "simple p-value
    approximation without scipy". *)
Definition pair_p_value (scipy : option exact_test) (a b : Series)
           (corr_coef : float) : float :=
  match scipy with
  | Some pearsonr_p => pearsonr_p (map Fin (dropna a)) (map Fin (dropna b))
  | None => if (abs corr_coef >? Fin 0.3)%fl then Fin 0.05 else Fin 0.1
  end.

Definition pair_entry (scipy : option exact_test) (a b : Series) : PairEntry :=
  let corr_coef := corr a b in
  let p := pair_p_value scipy a b corr_coef in
  mkPairEntry
    (if negb (is_nan corr_coef) then corr_coef else Fin 0)
    (if negb (is_nan p) then p else Fin 1)
    (_classify_correlation_strength corr_coef)
    (if (p <? Fin 0.05)%fl then significant else not_significant).

(** The dictionary [correlations], keyed by the pair of column names
    ([f"{col1}_{col2}"]). *)
Definition _calculate_pairwise_correlations (scipy : option exact_test)
           (df : DataFrame) : list ((metric * metric) * PairEntry) :=
  map (fun c => (c, pair_entry scipy (col df (fst c)) (col df (snd c))))
      (column_pairs df).

Definition lookup_pair (c : metric * metric)
           (d : list ((metric * metric) * PairEntry)) : option PairEntry :=
  option_map snd
    (find (fun e => metric_eqb (fst (fst e)) (fst c)
                    && metric_eqb (snd (fst e)) (snd c)) d).

(** The coefficient of variation of the stability score is a float or the
    [float('inf')] of the guard on a zero mean. *)
Inductive variation : Type :=
| Cv (c : float)
| CvInf.

Definition _calculate_correlation_stability (rolling_corr : Series) : float :=
  if match rolling_corr with [] => true | _ => false end
     || eq (std rolling_corr) (Fin 0)
  then Fin 1
  else
    let cv :=
      if ne (mean rolling_corr) (Fin 0)
      then Cv (std rolling_corr / abs (mean rolling_corr))%fl
      else CvInf in
    match cv with
    | Cv c => (Fin 1 / (Fin 1 + c))%fl
    | CvInf => Fin 0
    end.

(** [min(20, len(df) // 4)] *)
Definition window_size (df : DataFrame) : nat := Nat.min 20 (len df / 4).

Record StabilityEntry : Type := mkStabilityEntry {
  stability_score : float;
  stability : stability_class
}.

(** [None] is the dictionary [{'error': 'Insufficient data ...'}]. *)
Definition _analyze_correlation_stability (df : DataFrame)
  : option (list ((metric * metric) * StabilityEntry)) :=
  if (window_size df <? 5)%nat then None
  else
    Some
      (map (fun c =>
              let rolling :=
                rolling_corr (window_size df) (col df (fst c)) (col df (snd c)) in
              let s := _calculate_correlation_stability rolling in
              (c, mkStabilityEntry s (_classify_stability s)))
           (column_pairs df)).

(** [range(-max_lag, max_lag + 1)] *)
Definition lag_range (max_lag : nat) : list Z :=
  map (fun i => (Z.of_nat i - Z.of_nat max_lag)%Z) (seq 0 (2 * max_lag + 1)).

Definition max_lag (df : DataFrame) : nat := Nat.min 10 (len df / 4).

(** The coefficient the loop computes for one lag. *)
Definition lag_corr (df : DataFrame) (lag : Z) : float :=
  if (0 <? lag)%Z
  then corr (shift (- lag) (col df RTWP)) (col df SINR)
  else corr (col df RTWP) (shift lag (col df SINR)).

(** The dictionary [rtwp_sinr_lags], keyed by the lag ([f"lag_{lag}"]), in
    insertion order. *)
Fixpoint collect_lags (df : DataFrame) (lags : list Z) : list (Z * float) :=
  match lags with
  | [] => []
  | lag :: rest =>
      if (lag =? 0)%Z then collect_lags df rest
      else
        let c := lag_corr df lag in
        if negb (is_nan c) then (lag, c) :: collect_lags df rest
        else collect_lags df rest
  end.

Definition rtwp_sinr_lags (df : DataFrame) : list (Z * float) :=
  collect_lags df (lag_range (max_lag df)).

(** [max(d.keys(), key=lambda k: abs(d[k]))]: the first key whose value
    is largest in absolute value. *)
Fixpoint max_by_abs (best : Z * float) (l : list (Z * float)) : Z * float :=
  match l with
  | [] => best
  | e :: rest =>
      if (abs (snd e) >? abs (snd best))%fl then max_by_abs e rest
      else max_by_abs best rest
  end.

Record CrossEntry : Type := mkCrossEntry {
  lags : list (Z * float);
  best_lag : Z;
  max_correlation : float
}.

(** The dictionary [cross_correlations] has at most the key ['rtwp_sinr']:
    [None] is the empty dictionary. *)
Definition _calculate_cross_correlations (df : DataFrame) : option CrossEntry :=
  if has_RTWP df && has_SINR df
  then
    match rtwp_sinr_lags df with
    | [] => None
    | e :: rest =>
        let best := max_by_abs e rest in
        Some (mkCrossEntry (e :: rest) (fst best) (snd best))
    end
  else None.

End Correlation.

(** ** [app/routers/compare.py]: the before/after comparison *)

Module Compare.

Inductive verdict : Type := improved | degraded | stable.

Inductive improvement_level : Type :=
| significant | moderate | minimal | level_degraded.

(** [abs((after - before) / before * 100) if before != 0 else 0] *)
Definition change_percent (before_value after_value : float) : float :=
  if ne before_value (Fin 0)
  then abs ((after_value - before_value) / before_value * Fin 100)%fl
  else Fin 0.

(** The metric is a column name in the source; its last branch, for any
    other name, returns ['stable'] and is never reached by the callers. *)
Definition _assess_kpi_improvement (m : metric)
           (before_value after_value : float) : verdict :=
  if (change_percent before_value after_value <? Fin 5)%fl then stable
  else
    match m with
    | RTWP => if (after_value <? before_value)%fl then improved else degraded
    | SINR => if (after_value >? before_value)%fl then improved else degraded
    | PRB =>
        if (Fin 40 <=? after_value)%fl && (after_value <=? Fin 80)%fl
        then improved
        else if (Fin 40 <=? before_value)%fl && (before_value <=? Fin 80)%fl
             then degraded
             else stable
    end.

Definition _assess_severity_improvement
           (before_severity after_severity : Anomaly.severity_level) : verdict :=
  let level s :=
    match s with
    | Anomaly.low => 1%nat
    | Anomaly.medium => 2%nat
    | Anomaly.high => 3%nat
    end in
  if (level after_severity <? level before_severity)%nat then improved
  else if (level before_severity <? level after_severity)%nat then degraded
  else stable.

Record KpiEntry : Type := mkKpiEntry {
  before_mean : float;
  after_mean : float;
  mean_change : float;
  mean_change_percent : float;
  before_std : float;
  after_std : float;
  std_change : float;
  improvement : verdict
}.

Record AnomalyComparison : Type := mkAnomalyComparison {
  before_total : nat;
  after_total : nat;
  total_change : Z;
  before_severity : Anomaly.severity_level;
  after_severity : Anomaly.severity_level;
  severity_improvement : verdict
}.

Record ComparisonResults : Type := mkComparisonResults {
  kpi_comparison : list (metric * KpiEntry);
  anomaly_comparison : AnomalyComparison;
  total_anomalies_change : Z
}.

Definition kpi_entry (m : metric) (before_df after_df : DataFrame) : KpiEntry :=
  let before_mean := mean (col before_df m) in
  let after_mean := mean (col after_df m) in
  let before_std := std (col before_df m) in
  let after_std := std (col after_df m) in
  mkKpiEntry
    before_mean after_mean
    (after_mean - before_mean)%fl
    (if ne before_mean (Fin 0)
     then ((after_mean - before_mean) / before_mean * Fin 100)%fl
     else Fin 0)
    before_std after_std
    (after_std - before_std)%fl
    (_assess_kpi_improvement m before_mean after_mean).

(** The KPI and anomaly parts of [_calculate_comparison_metrics]; the
    correlation deltas and the textual summary do not enter the score. *)
Definition _calculate_comparison_metrics (before_df after_df : DataFrame)
           (before_anomalies after_anomalies : Anomaly.Results)
  : ComparisonResults :=
  let kpi :=
    flat_map
      (fun m =>
         if in_columns m before_df && in_columns m after_df
         then [(m, kpi_entry m before_df after_df)]
         else [])
      [RTWP; SINR; PRB] in
  let b := Anomaly.summary before_anomalies in
  let a := Anomaly.summary after_anomalies in
  let change :=
    (Z.of_nat (Anomaly.total_anomalies a)
     - Z.of_nat (Anomaly.total_anomalies b))%Z in
  mkComparisonResults
    kpi
    (mkAnomalyComparison
       (Anomaly.total_anomalies b) (Anomaly.total_anomalies a) change
       (Anomaly.severity b) (Anomaly.severity a)
       (_assess_severity_improvement (Anomaly.severity b) (Anomaly.severity a)))
    change.

Record Assessment : Type := mkAssessment {
  improvement_score : R;
  level : improvement_level;
  anomaly_reduction : Z;
  kpi_improvements : Z;
  total_kpis : nat
}.

(** The loop that counts improved metrics up and degraded ones down. *)
Definition count_improvements (kpi : list (metric * KpiEntry)) : Z :=
  fold_left
    (fun acc e =>
       match improvement (snd e) with
       | improved => (acc + 1)%Z
       | degraded => (acc - 1)%Z
       | stable => acc
       end)
    kpi 0%Z.

Definition bucket (normalized_score : R) : improvement_level :=
  if Rleb 80 normalized_score then significant
  else if Rleb 60 normalized_score then moderate
  else if Rleb 40 normalized_score then minimal
  else level_degraded.

Definition _assess_improvements (comparison_results : ComparisonResults)
  : Assessment :=
  let change := total_anomalies_change comparison_results in
  let kpi := kpi_comparison comparison_results in
  let improvement_score0 := if (change <? 0)%Z then 40 else 0 in
  let max_score0 := 40 in
  let improvements := count_improvements kpi in
  let total := length kpi in
  let improvement_score1 :=
    if (0 <? total)%nat
    then improvement_score0 + IZR improvements / INR total * 60
    else improvement_score0 in
  let max_score1 := max_score0 + 60 in
  let normalized_score :=
    if Rltb 0 max_score1 then improvement_score1 / max_score1 * 100 else 0 in
  mkAssessment normalized_score (bucket normalized_score)
               change improvements total.

End Compare.

(** ** [app/services/parser.py]: [KPIParser._clean_data] *)

Module Parser.

(** A cell as [read_csv] leaves it: a number (NaN for an empty cell) in a
    numeric column, or a string in a column of dtype [object], which is
    what a column with a non-numeric cell becomes.  A string carries what
    [pd.to_numeric(..., errors='coerce')] reads in it. *)
Inductive Cell : Type :=
| Num (v : float)
| Str (coerced : float).

(** A row after [_process_time_column]: [TIME] is a timestamp or [NaT]. *)
Record RawRow : Type := mkRawRow {
  TIME : option Z;
  raw_rtwp : Cell;
  raw_sinr : Cell;
  raw_prb : Cell;
  others : list Cell
}.

(** The frame [_clean_data] receives: [parse_csv] has checked that the
    three required columns are there. *)
Definition RawFrame : Type := list RawRow.

Definition raw_cell (m : metric) (r : RawRow) : Cell :=
  match m with
  | RTWP => raw_rtwp r
  | SINR => raw_sinr r
  | PRB => raw_prb r
  end.

Definition set_cell (m : metric) (c : Cell) (r : RawRow) : RawRow :=
  match m with
  | RTWP => mkRawRow (TIME r) c (raw_sinr r) (raw_prb r) (others r)
  | SINR => mkRawRow (TIME r) (raw_rtwp r) c (raw_prb r) (others r)
  | PRB => mkRawRow (TIME r) (raw_rtwp r) (raw_sinr r) c (others r)
  end.

Definition isna (c : Cell) : bool :=
  match c with
  | Num NaN => true
  | _ => false
  end.

(** [df.dropna(how='all')] *)
Definition dropna_all (df : RawFrame) : RawFrame :=
  filter
    (fun r =>
       negb (match TIME r with None => true | Some _ => false end
             && isna (raw_rtwp r) && isna (raw_sinr r) && isna (raw_prb r)
             && forallb isna (others r)))
    df.

(** The column as numbers, when it holds no string.  On a column that
    holds one, [Series.median()] raises [TypeError]. *)
Fixpoint numeric (cells : list Cell) : option Series :=
  match cells with
  | [] => Some []
  | Num v :: t => option_map (cons v) (numeric t)
  | Str _ :: _ => None
  end.

(** One turn of the loop "handle missing values in KPI columns": median
    fill, then the trim beyond three standard deviations.  [None] is the
    exception of [median()]. *)
Definition clean_column (m : metric) (df : RawFrame) : option RawFrame :=
  match numeric (map (raw_cell m) df) with
  | None => None
  | Some s =>
      let median_val := median s in
      let filled := fillna median_val s in
      let df1 := map (fun rv => set_cell m (Num (snd rv)) (fst rv))
                     (combine df filled) in
      let mean_val := mean filled in
      let std_val := std filled in
      if (std_val >? Fin 0)%fl
      then
        Some (map fst
                  (filter
                     (fun rv =>
                        (abs (snd rv - mean_val) <=? Fin 3 * std_val)%fl)
                     (combine df1 filled)))
      else Some df1
  end.

(** [pd.to_numeric(df[col], errors='coerce')] *)
Definition to_numeric (m : metric) (df : RawFrame) : RawFrame :=
  map (fun r =>
         match raw_cell m r with
         | Num _ => r
         | Str v => set_cell m (Num v) r
         end)
      df.

(** [TIME] ascending, [NaT] last. *)
Definition time_le (a b : option Z) : bool :=
  match a, b with
  | Some x, Some y => (x <=? y)%Z
  | _, None => true
  | None, Some _ => false
  end.

Fixpoint insert_by_time (r : RawRow) (l : RawFrame) : RawFrame :=
  match l with
  | [] => [r]
  | h :: t =>
      if time_le (TIME r) (TIME h) then r :: l else h :: insert_by_time r t
  end.

(** [df.sort_values('TIME').reset_index(drop=True)]; positions in the list
    are the new index. *)
Definition sort_values_TIME (df : RawFrame) : RawFrame :=
  fold_right insert_by_time [] df.

Definition bind {A B : Type} (x : option A) (f : A -> option B) : option B :=
  match x with
  | Some a => f a
  | None => None
  end.

Definition _clean_data (df : RawFrame) : option RawFrame :=
  let df0 := dropna_all df in
  bind (clean_column RTWP df0) (fun df1 =>
  bind (clean_column SINR df1) (fun df2 =>
  bind (clean_column PRB df2) (fun df3 =>
  Some (sort_values_TIME
          (to_numeric PRB (to_numeric SINR (to_numeric RTWP df3))))))).

(** A required column holds a missing value. *)
Definition has_missing (m : metric) (df : RawFrame) : bool :=
  existsb (fun r => isna (raw_cell m r)) df.

End Parser.

(** ** Scenarios and concrete inputs *)

Module Scenario.

(** A frame that has the RTWP column only. *)
Definition rtwp_only (values : list R) : DataFrame :=
  mkDF true false false (map (fun x => mkRow (Fin x) NaN NaN) values).

(** A frame with the three columns, one triple (RTWP, SINR, PRB) a row. *)
Definition frame (values : list (R * R * R)) : DataFrame :=
  mkDF true true true
       (map (fun v => mkRow (Fin (fst (fst v))) (Fin (snd (fst v))) (Fin (snd v)))
            values).

(** The six samples of the repository's correlation test. *)
Definition six_samples : DataFrame :=
  frame [(-95, 18, 65); (-96, 19, 68); (-94, 17, 62);
         (-97, 16, 71); (-98, 15, 69); (-99, 14, 66)].

(** A frame with the RTWP and SINR columns only. *)
Definition rtwp_sinr (values : list (R * R)) : DataFrame :=
  mkDF true true false
       (map (fun v => mkRow (Fin (fst v)) (Fin (snd v)) NaN) values).

(** RTWP = [-95,-96,-94,-97,-98,-99], SINR = [18,19,17,16,15,14] *)
Definition paired_samples : DataFrame :=
  rtwp_sinr [(-95, 18); (-96, 19); (-94, 17); (-97, 16); (-98, 15); (-99, 14)].

(** Twenty samples with RTWP constant at -95 and SINR = 0, 1, ..., 19. *)
Definition flat_rtwp : DataFrame :=
  rtwp_sinr (map (fun i => (-95, INR i)) (seq 0 20)).

(** RTWP = [-95, -96, -94, -97, -98, -60] *)
Definition rtwp_spike : DataFrame :=
  rtwp_only [-95; -96; -94; -97; -98; -60].

(** Three rows of a file whose RTWP cells are all empty, with the
    synthetic timestamps 0, 900 and 1800 seconds after the start. *)
Definition empty_rtwp : Parser.RawFrame :=
  [ Parser.mkRawRow (Some 0%Z) (Parser.Num NaN)
                    (Parser.Num (Fin 18)) (Parser.Num (Fin 65)) [];
    Parser.mkRawRow (Some 900%Z) (Parser.Num NaN)
                    (Parser.Num (Fin 17)) (Parser.Num (Fin 68)) [];
    Parser.mkRawRow (Some 1800%Z) (Parser.Num NaN)
                    (Parser.Num (Fin 19)) (Parser.Num (Fin 62)) [] ].

End Scenario.

(** ** Terms of the specification *)

Module Terms.


(** [improved_count] and [degraded_count] of a KPI comparison. *)
Definition count_verdict (v : Compare.verdict)
           (kpi : list (metric * Compare.KpiEntry)) : nat :=
  length
    (filter
       (fun e =>
          match Compare.improvement (snd e), v with
          | Compare.improved, Compare.improved
          | Compare.degraded, Compare.degraded
          | Compare.stable, Compare.stable => true
          | _, _ => false
          end)
       kpi).

Definition improved_count := count_verdict Compare.improved.
Definition degraded_count := count_verdict Compare.degraded.

(** The 40 points of the anomaly part and the points of the KPI part. *)
Definition anomaly_points (total_anomalies_change : Z) : R :=
  if (total_anomalies_change <? 0)%Z then 40 else 0.

Definition kpi_points (kpi : list (metric * Compare.KpiEntry)) : R :=
  match kpi with
  | [] => 0
  | _ =>
      60 * (INR (improved_count kpi) - INR (degraded_count kpi))
      / INR (length kpi)
  end.

(** Timestamps do not decrease along the rows ([NaT] counts as last). *)
Definition time_ordered (df : Parser.RawFrame) : Prop :=
  Sorted (fun a b => Parser.time_le (Parser.TIME a) (Parser.TIME b) = true) df.

End Terms.

(** ** [app/routers/compare.py]: the summary of a comparison *)

Module Summary.

Definition _generate_overall_assessment (anomaly_change : Z)
           (kpi_improvements : nat) : string :=
  if (anomaly_change <? -10)%Z && (2 <=? kpi_improvements)%nat
  then "Significant improvement in network performance"%string
  else if (anomaly_change <? 0)%Z && (1 <=? kpi_improvements)%nat
  then "Moderate improvement in network performance"%string
  else if (anomaly_change =? 0)%Z && (kpi_improvements =? 0)%nat
  then "Network performance remained stable"%string
  else if (0 <? anomaly_change)%Z && (kpi_improvements =? 0)%nat
  then "Network performance may have degraded"%string
  else "Mixed results - some improvements and some degradations"%string.

(** The findings of [_identify_key_improvements] and
    [_identify_areas_of_concern].  The source renders each as a sentence
    with the number formatted into it; the finding keeps the number. *)
Inductive finding : Type :=
| anomalies_reduced_by (n : Z)
| anomalies_increased_by (n : Z)
| metric_improved_by (m : metric) (percent : float)
| metric_degraded_by (m : metric) (percent : float).

Definition _identify_key_improvements
           (kpi_comparison : list (metric * Compare.KpiEntry))
           (anomaly_comparison : Compare.AnomalyComparison) : list finding :=
  (if (Compare.total_change anomaly_comparison <? 0)%Z
   then [anomalies_reduced_by (Z.abs (Compare.total_change anomaly_comparison))]
   else [])
  ++ flat_map
       (fun e =>
          match Compare.improvement (snd e) with
          | Compare.improved =>
              [metric_improved_by (fst e) (Compare.mean_change_percent (snd e))]
          | _ => []
          end)
       kpi_comparison.

Definition _identify_areas_of_concern
           (kpi_comparison : list (metric * Compare.KpiEntry))
           (anomaly_comparison : Compare.AnomalyComparison) : list finding :=
  (if (0 <? Compare.total_change anomaly_comparison)%Z
   then [anomalies_increased_by (Compare.total_change anomaly_comparison)]
   else [])
  ++ flat_map
       (fun e =>
          match Compare.improvement (snd e) with
          | Compare.degraded =>
              [metric_degraded_by (fst e)
                                  (abs (Compare.mean_change_percent (snd e)))]
          | _ => []
          end)
       kpi_comparison.

Record ComparisonSummary : Type := mkComparisonSummary {
  overall_assessment : string;
  key_improvements : list finding;
  areas_of_concern : list finding
}.

(** The [summary] that [_calculate_comparison_metrics] builds from its KPI
    and anomaly parts. *)
Definition summary_of (cr : Compare.ComparisonResults) : ComparisonSummary :=
  let kpi := Compare.kpi_comparison cr in
  let anomaly := Compare.anomaly_comparison cr in
  let total_anomalies_change := Compare.total_change anomaly in
  let kpi_improvements :=
    length (filter
              (fun e =>
                 match Compare.improvement (snd e) with
                 | Compare.improved => true
                 | _ => false
                 end) kpi) in
  mkComparisonSummary
    (_generate_overall_assessment total_anomalies_change kpi_improvements)
    (_identify_key_improvements kpi anomaly)
    (_identify_areas_of_concern kpi anomaly).

End Summary.

(** ** [app/routers/compare.py]: deviation from a baseline *)

Module Baseline.

Inductive deviation_status : Type :=
| within_normal_range | minor_deviation | significant_deviation | major_deviation.

Inductive overall : Type := excellent | good | fair | poor.

(** The metric name is an argument of the source function and is not used
    by it. *)
Definition _assess_deviation_status (m : metric) (deviation_percent : float)
  : deviation_status :=
  let abs_deviation := abs deviation_percent in
  if (abs_deviation <? Fin 5)%fl then within_normal_range
  else if (abs_deviation <? Fin 15)%fl then minor_deviation
  else if (abs_deviation <? Fin 30)%fl then significant_deviation
  else major_deviation.

(** The three means of a metrics dictionary, keyed ['rtwp_mean'],
    ['sinr_mean'], ['prb_mean']; [None] is a key that is absent or holds
    [None], which the source treats alike. *)
Definition Metrics : Type := metric -> option float.

Record Deviation : Type := mkDeviation {
  baseline_value : float;
  current_value : float;
  deviation : float;
  deviation_percent : float;
  status : deviation_status
}.

Definition deviation_entry (m : metric) (baseline_val current_val : float)
  : Deviation :=
  let deviation := (current_val - baseline_val)%fl in
  let deviation_percent :=
    if ne baseline_val (Fin 0)
    then (deviation / baseline_val * Fin 100)%fl
    else Fin 0 in
  mkDeviation baseline_val current_val deviation deviation_percent
              (_assess_deviation_status m deviation_percent).

Definition _calculate_baseline_deviations (baseline_metrics current_metrics : Metrics)
  : list (metric * Deviation) :=
  flat_map
    (fun m =>
       match baseline_metrics m, current_metrics m with
       | Some baseline_val, Some current_val =>
           [(m, deviation_entry m baseline_val current_val)]
       | _, _ => []
       end)
    [RTWP; SINR; PRB].

Definition acceptable (d : Deviation) : bool :=
  match status d with
  | within_normal_range | minor_deviation => true
  | _ => false
  end.

Record Performance : Type := mkPerformance {
  performance_score : R;
  overall_status : overall;
  acceptable_deviations : nat;
  total_deviations : nat;
  anomaly_severity : Anomaly.severity_level
}.

Definition _assess_baseline_performance (deviations : list (metric * Deviation))
           (current_anomalies : Anomaly.Results) : Performance :=
  let total := length deviations in
  let ok := length (filter (fun e => acceptable (snd e)) deviations) in
  let score := if (0 <? total)%nat then INR ok / INR total * 100 else 100 in
  let sev := Anomaly.severity (Anomaly.summary current_anomalies) in
  let st :=
    if Rleb 80 score
       && match sev with Anomaly.low => true | _ => false end
    then excellent
    else if Rleb 60 score
            && match sev with Anomaly.low | Anomaly.medium => true | _ => false end
    then good
    else if Rleb 40 score then fair
    else poor in
  mkPerformance score st ok total sev.

(** The default baseline of the endpoint ("industry standards"). *)
Definition default_baseline : Metrics :=
  fun m =>
    match m with
    | RTWP => Some (Fin (-95))
    | SINR => Some (Fin 15)
    | PRB => Some (Fin 60)
    end.


End Baseline.

(** ** [app/services/ai_summary.py]: the confidence score *)

Module AISummary.

Import PrimFloat.

(** The score adds decimal literals, none of them a binary fraction, so the
    rounding of each sum shows in the result.  This function is therefore
    modelled on binary64 floats, which round as the floats of Python do. *)

(** [min(a, b)] and [max(a, b)] on two floats: the first argument is kept
    unless the second is strictly smaller (strictly larger). *)
Definition min (a b : PrimFloat.float) : PrimFloat.float :=
  if (b <? a)%float then b else a.

Definition max (a b : PrimFloat.float) : PrimFloat.float :=
  if (a <? b)%float then b else a.

(** [kpi_stats.get('total_records', 0)] and
    [anomaly_results.get('summary', {}).get('severity', 'low')]: [None] is a
    missing key. *)
#[warnings="-inexact-float"] Definition _calculate_confidence_score
           (total_records : option nat)
           (anomaly_severity : option Anomaly.severity_level)
  : PrimFloat.float :=
  let total_records := match total_records with Some n => n | None => 0%nat end in
  let anomaly_severity :=
    match anomaly_severity with Some s => s | None => Anomaly.low end in
  let confidence0 := 0.8%float in
  let confidence1 :=
    if (1000 <? total_records)%nat then (confidence0 + 0.1)%float
    else if (total_records <? 100)%nat then (confidence0 - 0.2)%float
    else confidence0 in
  let confidence2 :=
    match anomaly_severity with
    | Anomaly.high => (confidence1 - 0.1)%float
    | Anomaly.low => (confidence1 + 0.05)%float
    | Anomaly.medium => confidence1
    end in
  max 0.0%float (min 1.0%float confidence2).

End AISummary.

(** ** [app/services/parser.py]: headers, time column and metadata *)

Module Headers.

Open Scope string_scope.

(** [column_mapping] of [_clean_headers] *)
Definition column_mapping : list (string * string) :=
  [ ("RTWP_DBM", "RTWP");
    ("SINR_DB", "SINR");
    ("PRB_UTILIZATION", "PRB");
    ("PRB_UTIL", "PRB");
    ("PRB_USAGE", "PRB");
    ("TIMESTAMP", "TIME");
    ("DATETIME", "TIME");
    ("DATE", "TIME") ].

Definition required_columns : list string := ["RTWP"; "SINR"; "PRB"].

Definition time_columns : list string :=
  ["TIME"; "TIMESTAMP"; "DATE"; "DATETIME"].

(** The new name of one column under [df.rename(columns=column_mapping)]. *)
Definition renamed (name : string) : string :=
  match find (fun kv => String.eqb (fst kv) name) column_mapping with
  | Some kv => snd kv
  | None => name
  end.

(** [_clean_headers] on the list of column names.  [normalise] is
    [.str.strip().str.upper()], library code on Unicode text. *)
Definition _clean_headers (normalise : string -> string) (columns : list string)
  : list string :=
  map renamed (map normalise columns).

(** [col in df.columns] *)
Definition has_column (c : string) (columns : list string) : bool :=
  existsb (String.eqb c) columns.

Definition _validate_columns (columns : list string) : list string :=
  filter (fun c => negb (has_column c columns)) required_columns.

(** The loop "find time column" of [_process_time_column]. *)
Definition find_time_column (columns : list string) : option string :=
  find (fun c => has_column c columns) time_columns.

End Headers.

Module TimeColumn.

(** [pd.date_range(start='2024-01-01 00:00:00', periods=n, freq='15min')],
    in seconds after the start. *)
Definition date_range (periods : nat) : list (option Z) :=
  map (fun i => Some (900 * Z.of_nat i)%Z) (seq 0 periods).

(** [df['TIME'] = times] *)
Definition assign_TIME (times : list (option Z)) (df : Parser.RawFrame)
  : Parser.RawFrame :=
  map (fun tr =>
         Parser.mkRawRow (fst tr) (Parser.raw_rtwp (snd tr))
                         (Parser.raw_sinr (snd tr)) (Parser.raw_prb (snd tr))
                         (Parser.others (snd tr)))
      (combine times df).

(** [_process_time_column]: [parsed] is what [pd.to_datetime(df[time_col],
    errors='coerce')] returns when a time column was found, one timestamp
    or [NaT] a row; without a time column the timestamps are synthetic.
    The [except] branch, which falls back to synthetic timestamps when the
    conversion raises, is the first case again. *)
Definition _process_time_column (parsed : option (list (option Z)))
           (df : Parser.RawFrame) : Parser.RawFrame :=
  match parsed with
  | None => assign_TIME (date_range (length df)) df
  | Some times => assign_TIME times df
  end.

(** Timestamps strictly increase along the rows. *)
Definition strictly_increasing (df : Parser.RawFrame) : Prop :=
  Sorted (fun a b =>
            match Parser.TIME a, Parser.TIME b with
            | Some x, Some y => (x < y)%Z
            | _, _ => False
            end) df.

End TimeColumn.

Module Metadata.

(** [df[col].isna().sum()] of [_generate_metadata] *)
Definition missing (m : metric) (df : Parser.RawFrame) : nat :=
  length (filter (fun r => Parser.isna (Parser.raw_cell m r)) df).

(** ['total_records'] *)
Definition total_records (df : Parser.RawFrame) : nat := length df.

(** Every cell of the column is a number cell whose value satisfies [R]. *)
Definition col_all (R : float -> Prop) (m : metric) (df : Parser.RawFrame)
  : Prop :=
  Forall (fun r => exists v, Parser.raw_cell m r = Parser.Num v /\ R v) df.

(** Every cell of the column is a number. *)
Definition all_present (m : metric) (df : Parser.RawFrame) : Prop :=
  Forall (fun r => exists x, Parser.raw_cell m r = Parser.Num (Fin x)) df.

(** Every cell of the column is missing. *)
Definition all_missing (m : metric) (df : Parser.RawFrame) : Prop :=
  Forall (fun r => Parser.raw_cell m r = Parser.Num NaN) df.

End Metadata.

(** ** [app/services/correlation.py]: [_calculate_rolling_correlations] *)

Module Rolling.

(** [Series.min()] and [Series.max()]: missing values skipped, NaN when
    nothing is left. *)
Definition smin (s : Series) : float :=
  match dropna s with
  | [] => NaN
  | x :: t => Fin (fold_left Rmin t x)
  end.

Definition smax (s : Series) : float :=
  match dropna s with
  | [] => NaN
  | x :: t => Fin (fold_left Rmax t x)
  end.

Record RollingEntry : Type := mkRollingEntry {
  rolling_mean_value : float;
  rolling_std : float;
  rolling_min : float;
  rolling_max : float;
  rolling_stability : float
}.

Definition is_empty (s : Series) : bool :=
  match s with [] => true | _ => false end.

Definition rolling_entry (rolling : Series) : RollingEntry :=
  mkRollingEntry
    (if negb (is_empty rolling) then mean rolling else Fin 0)
    (if negb (is_empty rolling) then std rolling else Fin 0)
    (if negb (is_empty rolling) then smin rolling else Fin 0)
    (if negb (is_empty rolling) then smax rolling else Fin 0)
    (Correlation._calculate_correlation_stability rolling).

(** [None] is the dictionary [{'error': 'Insufficient data ...'}]; the keys
    are ['rtwp_sinr'], ['rtwp_prb'] and ['sinr_prb']. *)
Definition _calculate_rolling_correlations (df : DataFrame)
  : option (list ((metric * metric) * RollingEntry)) :=
  let window_size := Nat.min 20 (len df / 4) in
  if (window_size <? 5)%nat then None
  else
    let pair a b :=
      if in_columns a df && in_columns b df
      then [((a, b),
             rolling_entry (rolling_corr window_size (col df a) (col df b)))]
      else [] in
    Some (pair RTWP SINR ++ pair RTWP PRB ++ pair SINR PRB).

End Rolling.

(** ** [app/services/correlation.py]: [analyze_correlations] *)

Module Analysis.

(** The findings of [_generate_correlation_insights].  The source renders
    each as a sentence; the finding keeps the pair and the figures the
    sentence is built from. *)
Inductive insight : Type :=
| strong_correlation (pair : metric * metric) (s : Correlation.strength)
                     (r : float)
| moderate_correlation (pair : metric * metric) (s : Correlation.strength)
                       (r : float)
| unstable_correlation (pair : metric * metric)
| lagged_correlation (best_lag : Z).

(** The dictionary [results]; for ['rolling_correlations'] and
    ['correlation_stability'], [None] is the dictionary
    [{'error': 'Insufficient data ...'}]. *)
Record CorrelationResults : Type := mkCorrelationResults {
  pairwise_correlations : list ((metric * metric) * Correlation.PairEntry);
  rolling_correlations : option (list ((metric * metric) * Rolling.RollingEntry));
  correlation_stability
  : option (list ((metric * metric) * Correlation.StabilityEntry));
  cross_correlations : option Correlation.CrossEntry;
  insights : list insight
}.

(** The three loops of [_generate_correlation_insights]. *)
Definition pairwise_insights
           (pairwise : list ((metric * metric) * Correlation.PairEntry))
  : list insight :=
  flat_map
    (fun e =>
       let data := snd e in
       match Correlation.significance data with
       | Correlation.significant =>
           match Correlation.pair_strength data with
           | Correlation.strong_positive | Correlation.strong_negative =>
               [strong_correlation (fst e) (Correlation.pair_strength data)
                                   (Correlation.correlation data)]
           | Correlation.moderate_positive | Correlation.moderate_negative =>
               [moderate_correlation (fst e) (Correlation.pair_strength data)
                                     (Correlation.correlation data)]
           | _ => []
           end
       | Correlation.not_significant => []
       end)
    pairwise.

Definition stability_insights
           (stability : list ((metric * metric) * Correlation.StabilityEntry))
  : list insight :=
  flat_map
    (fun e =>
       match Correlation.stability (snd e) with
       | Correlation.highly_unstable => [unstable_correlation (fst e)]
       | _ => []
       end)
    stability.

Definition cross_insights (cross_corr : option Correlation.CrossEntry)
  : list insight :=
  match cross_corr with
  | Some data =>
      if (abs (Correlation.max_correlation data) >? Fin 0.5)%fl
      then [lagged_correlation (Correlation.best_lag data)]
      else []
  | None => []
  end.

(** [None] is the [TypeError] of the second loop: on the error dictionary
    [{'error': 'Insufficient data for stability analysis'}] the loop
    variable [data] is that string, and [data['stability_class']] indexes a
    string with a string. *)
Definition _generate_correlation_insights (results : CorrelationResults)
  : option (list insight) :=
  let first := pairwise_insights (pairwise_correlations results) in
  match correlation_stability results with
  | None => None
  | Some stability =>
      Some (first ++ stability_insights stability
                  ++ cross_insights (cross_correlations results))
  end.

(** [stats.pearsonr(x, y)] is library code: it raises [ValueError] unless
    [x] and [y] have the same length, at least 2.  The source passes it the
    two columns after [dropna()]. *)
Definition pearsonr_accepts (a b : Series) : bool :=
  (length (dropna a) =? length (dropna b))%nat
  && (2 <=? length (dropna a))%nat.

(** Whether building ['pairwise_correlations'] raises; without scipy nothing
    in it does. *)
Definition pairwise_raises (scipy : option Correlation.exact_test)
           (df : DataFrame) : bool :=
  match scipy with
  | Some _ =>
      existsb (fun c => negb (pearsonr_accepts (col df (fst c)) (col df (snd c))))
              (Correlation.column_pairs df)
  | None => false
  end.

(** [None] is an exception: [analyze_correlations] logs it and raises it
    again. *)
Definition analyze_correlations (scipy : option Correlation.exact_test)
           (df : DataFrame) : option CorrelationResults :=
  if pairwise_raises scipy df then None
  else
    let results :=
      mkCorrelationResults
        (Correlation._calculate_pairwise_correlations scipy df)
        (Rolling._calculate_rolling_correlations df)
        (Correlation._analyze_correlation_stability df)
        (Correlation._calculate_cross_correlations df)
        [] in
    match _generate_correlation_insights results with
    | None => None
    | Some found =>
        Some (mkCorrelationResults
                (pairwise_correlations results) (rolling_correlations results)
                (correlation_stability results) (cross_correlations results)
                found)
    end.

End Analysis.

(** ** [app/routers/compare.py]: the two endpoints *)

Module Endpoints.

Inductive correlation_change_level : Type :=
| change_stable | moderate_change | significant_change.

Definition _assess_correlation_stability_change (before_corr after_corr : float)
  : correlation_change_level :=
  let change := abs (after_corr - before_corr)%fl in
  if (change <? Fin 0.1)%fl then change_stable
  else if (change <? Fin 0.3)%fl then moderate_change
  else significant_change.

Record CorrelationDelta : Type := mkCorrelationDelta {
  before_correlation : float;
  after_correlation : float;
  correlation_change : float;
  stability_change : correlation_change_level
}.

(** The part ["Correlation comparison"] of [_calculate_comparison_metrics]. *)
Definition correlation_comparison_of
           (before_correlations after_correlations : Analysis.CorrelationResults)
  : list ((metric * metric) * CorrelationDelta) :=
  let before_pairwise := Analysis.pairwise_correlations before_correlations in
  let after_pairwise := Analysis.pairwise_correlations after_correlations in
  flat_map
    (fun pair =>
       match Correlation.lookup_pair pair before_pairwise,
             Correlation.lookup_pair pair after_pairwise with
       | Some b, Some a =>
           let before_corr := Correlation.correlation b in
           let after_corr := Correlation.correlation a in
           [(pair,
             mkCorrelationDelta
               before_corr after_corr (after_corr - before_corr)%fl
               (_assess_correlation_stability_change before_corr after_corr))]
       | _, _ => []
       end)
    [(RTWP, SINR); (RTWP, PRB); (SINR, PRB)].

(** The dictionary [compare_before_after_analysis] returns, without the file
    names and the timestamp of ["comparison_metadata"]. *)
Record ComparisonResponse : Type := mkComparisonResponse {
  before_records : nat;
  after_records : nat;
  kpi_comparison : list (metric * Compare.KpiEntry);
  anomaly_comparison : Compare.AnomalyComparison;
  correlation_comparison : list ((metric * metric) * CorrelationDelta);
  improvement_assessment : Compare.Assessment;
  summary : Summary.ComparisonSummary
}.

(** The endpoint [/compare/before-after] once both files are parsed.  [None]
    is the [except] branch, HTTP 500: an exception of one of the analyses
    ends the request before anything is compared. *)
Definition compare_before_after_analysis (scipy : option Correlation.exact_test)
           (before_df after_df : DataFrame) : option ComparisonResponse :=
  let before_anomalies := Anomaly.detect_anomalies before_df in
  let after_anomalies := Anomaly.detect_anomalies after_df in
  match Analysis.analyze_correlations scipy before_df with
  | None => None
  | Some before_correlations =>
      match Analysis.analyze_correlations scipy after_df with
      | None => None
      | Some after_correlations =>
          let comparison_results :=
            Compare._calculate_comparison_metrics
              before_df after_df before_anomalies after_anomalies in
          let improvement_assessment :=
            Compare._assess_improvements comparison_results in
          Some (mkComparisonResponse
                  (len before_df) (len after_df)
                  (Compare.kpi_comparison comparison_results)
                  (Compare.anomaly_comparison comparison_results)
                  (correlation_comparison_of before_correlations
                                             after_correlations)
                  improvement_assessment
                  (Summary.summary_of comparison_results))
      end
  end.



End Endpoints.

(** ** Further terms used by the properties *)

Module Flags.

(** A position is flagged by one of the tests of a per-metric detector. *)
Definition rtwp_flagged (df : DataFrame) (idx : nat) : bool :=
  has_RTWP df
  && (Anomaly.flagged
        (Anomaly.statistical_outliers Anomaly.rtwp_std_multiplier (col df RTWP)) idx
      || Anomaly.flagged (Anomaly.above Anomaly.rtwp_absolute_max (col df RTWP)) idx
      || Anomaly.flagged (Anomaly.below Anomaly.rtwp_absolute_min (col df RTWP)) idx).

Definition sinr_flagged (df : DataFrame) (idx : nat) : bool :=
  has_SINR df
  && (Anomaly.flagged
        (Anomaly.statistical_outliers Anomaly.sinr_std_multiplier (col df SINR)) idx
      || Anomaly.flagged (Anomaly.below Anomaly.sinr_absolute_min (col df SINR)) idx).

Definition prb_flagged (df : DataFrame) (idx : nat) : bool :=
  has_PRB df
  && (Anomaly.flagged
        (Anomaly.statistical_outliers Anomaly.prb_std_multiplier (col df PRB)) idx
      || Anomaly.flagged (Anomaly.above Anomaly.prb_absolute_max (col df PRB)) idx
      || Anomaly.flagged (Anomaly.below Anomaly.prb_absolute_min (col df PRB)) idx).

(** The number of positions a mask selects. *)
Definition selected (mask : list bool) : nat := length (mask_index mask).

(** The indices a report of the correlation or trend pass lists, none on an
    early return. *)
Definition listed (indices : option (list nat)) : list nat :=
  match indices with
  | Some l => l
  | None => []
  end.

End Flags.

(** ** Further inputs *)

Module Inputs.

(** Twenty samples that all read (RTWP, SINR, PRB) = [(x, y, z)]. *)
Definition steady (x y z : R) : DataFrame :=
  Scenario.frame (repeat (x, y, z) 20).

(** Before and after a change that makes RTWP rise, SINR fall and PRB
    leave the healthy band. *)
Definition steady_before : DataFrame := steady (-95) 15 60.
Definition steady_after : DataFrame := steady (-80) 10 90.


(** Three samples. *)
Definition three_rows : DataFrame :=
  Scenario.frame [(-95, 18, 65); (-96, 19, 68); (-94, 17, 62)].

(** A rolling series with two values behind the leading NaN. *)
Definition short_rolling : Series := [NaN; Fin 0.5; Fin 0.7].

(** A file whose first RTWP cell is text: the column is read as strings. *)
Definition text_rtwp : Parser.RawFrame :=
  [ Parser.mkRawRow (Some 0%Z) (Parser.Str NaN)
                    (Parser.Num (Fin 18)) (Parser.Num (Fin 65)) [];
    Parser.mkRawRow (Some 900%Z) (Parser.Str (Fin (-96)))
                    (Parser.Num (Fin 17)) (Parser.Num (Fin 68)) [] ].

(** The entries of a dictionary that may be the error dictionary. *)
Definition entries {A : Type} (d : option (list A)) : list A :=
  match d with
  | Some l => l
  | None => []
  end.

End Inputs.

(** * Properties *)

(** Comparisons of concrete reals, settled by linear arithmetic. *)
Ltac real_order :=
  unfold Rabs;
  repeat match goal with
         | |- context [Rcase_abs ?x] => destruct (Rcase_abs x)
         end;
  lra.

(** ** Deciding comparisons of reals *)

Section Comparisons.

Lemma Rltb_true (x y : R) : x < y -> Rltb x y = true.
Proof. intros H. unfold Rltb. destruct (Rlt_dec x y); [reflexivity | contradiction]. Qed.

Lemma Rltb_false (x y : R) : y <= x -> Rltb x y = false.
Proof. intros H. unfold Rltb. destruct (Rlt_dec x y); [lra | reflexivity]. Qed.

Lemma Rleb_true (x y : R) : x <= y -> Rleb x y = true.
Proof. intros H. unfold Rleb. destruct (Rle_dec x y); [reflexivity | contradiction]. Qed.

Lemma Rleb_false (x y : R) : y < x -> Rleb x y = false.
Proof. intros H. unfold Rleb. destruct (Rle_dec x y); [lra | reflexivity]. Qed.

Lemma Reqb_true (x y : R) : x = y -> Reqb x y = true.
Proof. intros H. unfold Reqb. destruct (Req_dec_T x y); [reflexivity | contradiction]. Qed.

Lemma Reqb_false (x y : R) : x <> y -> Reqb x y = false.
Proof. intros H. unfold Reqb. destruct (Req_dec_T x y); [contradiction | reflexivity]. Qed.

Lemma Rleb_spec (x y : R) : Rleb x y = true <-> x <= y.
Proof. unfold Rleb. destruct (Rle_dec x y); split; intros; auto; discriminate. Qed.

End Comparisons.

Ltac decide_comparisons :=
  repeat match goal with
         | |- context [Rltb ?a ?b] =>
             first [ rewrite (Rltb_true a b) by real_order
                   | rewrite (Rltb_false a b) by real_order ]
         | |- context [Rleb ?a ?b] =>
             first [ rewrite (Rleb_true a b) by real_order
                   | rewrite (Rleb_false a b) by real_order ]
         | |- context [Reqb ?a ?b] =>
             first [ rewrite (Reqb_true a b) by real_order
                   | rewrite (Reqb_false a b) by real_order ]
         end.

(** ** The duplicate-removal loop of the per-metric detectors *)

Section RemoveDuplicates.

Import Anomaly.

Lemma unique_loop_kept todo : forall ua ut seen,
  unique_loop todo ua ut seen
  = (ua ++ map fst (kept todo seen), ut ++ map snd (kept todo seen)).
Proof.
  induction todo as [|[idx ty] rest IH]; intros ua ut seen; simpl.
  - now rewrite !app_nil_r.
  - destruct (seen_has idx seen); [apply IH|].
    rewrite IH. simpl. now rewrite <- !app_assoc.
Qed.

Lemma seen_has_cons idx i seen :
  seen_has idx (i :: seen) = (idx =? i)%nat || seen_has idx seen.
Proof. reflexivity. Qed.

Lemma seen_has_In idx seen : seen_has idx seen = true <-> In idx seen.
Proof.
  unfold seen_has. rewrite existsb_exists. split.
  - intros [x [Hx Heq]]. apply Nat.eqb_eq in Heq. now subst.
  - intros H. exists idx. split; [assumption | apply Nat.eqb_refl].
Qed.

Lemma kept_sound todo : forall seen idx ty,
  In (idx, ty) (kept todo seen) ->
  seen_has idx seen = false /\ first_tag idx todo = Some ty.
Proof.
  induction todo as [|[i t] rest IH]; intros seen idx ty Hin; simpl in *.
  - contradiction.
  - destruct (seen_has i seen) eqn:Hseen.
    + destruct (IH _ _ _ Hin) as [Hs Hf]. split; [assumption|].
      destruct (Nat.eqb_spec idx i) as [->|Hne]; [congruence | assumption].
    + destruct Hin as [Heq | Hin].
      * inversion Heq; subst. now rewrite Nat.eqb_refl.
      * destruct (IH _ _ _ Hin) as [Hs Hf].
        rewrite seen_has_cons in Hs. apply orb_false_iff in Hs as [Hne Hs].
        now rewrite Hne.
Qed.

Lemma kept_NoDup todo : forall seen, NoDup (map fst (kept todo seen)).
Proof.
  induction todo as [|[i t] rest IH]; intros seen; simpl.
  - constructor.
  - destruct (seen_has i seen); [apply IH|].
    simpl. constructor; [|apply IH].
    intros Hin. apply in_map_iff in Hin as [[i' t'] [Heq Hin]].
    simpl in Heq. subst i'.
    apply kept_sound in Hin as [Hs _].
    rewrite seen_has_cons, Nat.eqb_refl in Hs. discriminate.
Qed.

Lemma kept_complete todo : forall seen idx,
  In idx (map fst todo) -> seen_has idx seen = false ->
  In idx (map fst (kept todo seen)).
Proof.
  induction todo as [|[i t] rest IH]; intros seen idx Hin Hs; simpl in *.
  - contradiction.
  - destruct (seen_has i seen) eqn:Hseen.
    + destruct Hin as [->|Hin]; [congruence | now apply IH].
    + simpl. destruct (Nat.eq_dec i idx) as [->|Hne]; [now left | right].
      destruct Hin as [Heq|Hin]; [contradiction|].
      apply IH; [assumption|].
      rewrite seen_has_cons, Hs, orb_false_r.
      apply Nat.eqb_neq. congruence.
Qed.

Lemma kept_tags todo seen :
  Forall (fun p => first_tag (fst p) todo = Some (snd p)) (kept todo seen).
Proof.
  apply Forall_forall. intros [idx ty] Hin.
  now apply kept_sound in Hin as [_ Hf].
Qed.

Lemma first_tag_app idx l1 l2 :
  first_tag idx (l1 ++ l2)
  = match first_tag idx l1 with
    | Some ty => Some ty
    | None => first_tag idx l2
    end.
Proof.
  induction l1 as [|[i t] l1 IH]; simpl; [reflexivity|].
  now destruct (idx =? i)%nat.
Qed.

Lemma first_tag_tagged idx ty l :
  first_tag idx (combine l (tagged ty l))
  = if seen_has idx l then Some ty else None.
Proof.
  unfold tagged. induction l as [|i l IH]; simpl; [reflexivity|].
  rewrite IH. now destruct (idx =? i)%nat.
Qed.

Lemma combine_tagged_app ty (a b : list nat) (c : list anomaly_type) :
  combine (a ++ b) (tagged ty a ++ c) = combine a (tagged ty a) ++ combine b c.
Proof.
  unfold tagged. induction a as [|i a IH]; simpl; [reflexivity|].
  now rewrite IH.
Qed.

Lemma map_fst_combine_tagged ty (a : list nat) :
  map fst (combine a (tagged ty a)) = a.
Proof.
  unfold tagged. induction a as [|i a IH]; simpl; [reflexivity|].
  now rewrite IH.
Qed.

(** What the loop returns on the concatenation of up to three tagged
    index lists: each index once, with the tag of the first list that
    holds it. *)
Lemma remove_duplicates_three t1 t2 t3 (a1 a2 a3 : list nat) :
  let r := remove_duplicates (a1 ++ a2 ++ a3)
                             (tagged t1 a1 ++ tagged t2 a2 ++ tagged t3 a3) in
  NoDup (fst r)
  /\ snd r = map (fun idx => if seen_has idx a1 then t1
                             else if seen_has idx a2 then t2 else t3) (fst r)
  /\ (forall idx, In idx (fst r) <-> In idx a1 \/ In idx a2 \/ In idx a3).
Proof.
  unfold remove_duplicates. rewrite unique_loop_kept. simpl fst. simpl snd.
  rewrite !combine_tagged_app.
  set (todo := combine a1 (tagged t1 a1) ++ combine a2 (tagged t2 a2)
               ++ combine a3 (tagged t3 a3)).
  assert (Hfst : map fst todo = a1 ++ a2 ++ a3).
  { unfold todo. now rewrite !map_app, !map_fst_combine_tagged. }
  split; [apply kept_NoDup|]. split.
  - pose proof (kept_tags todo []) as Hall.
    assert (Hsub : forall idx, In idx (map fst (kept todo [])) ->
                               In idx (a1 ++ a2 ++ a3)).
    { intros idx Hin. apply in_map_iff in Hin as [[i t] [Heq Hin]].
      simpl in Heq. subst i. apply kept_sound in Hin as [_ Hf].
      rewrite <- Hfst. clear - Hf.
      induction todo as [|[i' t'] l IH]; simpl in *; [discriminate|].
      destruct (Nat.eqb_spec idx i'); [now left | right; auto]. }
    induction (kept todo []) as [|[idx ty] l IH]; simpl; [reflexivity|].
    inversion Hall as [|? ? Hhd Htl]; subst. simpl in Hhd.
    f_equal.
    + unfold todo in Hhd. rewrite !first_tag_app, !first_tag_tagged in Hhd.
      destruct (seen_has idx a1); [congruence|].
      destruct (seen_has idx a2); [congruence|].
      destruct (seen_has idx a3); [congruence | discriminate].
    + apply IH; [assumption|]. intros i Hi. apply Hsub. now right.
  - intros idx. rewrite <- !in_app_iff, <- Hfst. split.
    + intros Hin. apply in_map_iff in Hin as [[i t] [Heq Hin]].
      simpl in Heq. subst i. apply kept_sound in Hin as [_ Hf].
      clear - Hf.
      induction todo as [|[i' t'] l IH]; simpl in *; [discriminate|].
      destruct (Nat.eqb_spec idx i'); [now left | right; auto].
    + intros Hin. now apply kept_complete.
Qed.

End RemoveDuplicates.

(** ** Per-metric anomaly reports *)

Section MetricReports.

Import Anomaly.

Lemma mask_index_from_In mask : forall i idx,
  In idx (mask_index_from i mask)
  <-> (i <= idx)%nat /\ nth (idx - i) mask false = true.
Proof.
  induction mask as [|b mask IH]; intros i idx; simpl.
  - split; [contradiction|]. intros [_ H]. now destruct (idx - i)%nat.
  - assert (Hstep : (i <= idx)%nat /\ nth (idx - i) (b :: mask) false = true
                    <-> (idx = i /\ b = true)
                        \/ ((S i <= idx)%nat
                            /\ nth (idx - S i) mask false = true)).
    { destruct (Nat.eq_dec idx i) as [->|Hne].
      - rewrite Nat.sub_diag. simpl. split.
        + intros [_ H]. now left.
        + intros [[_ H]|[H _]]; [now split | lia].
      - split.
        + intros [Hle H]. right. split; [lia|].
          replace (idx - i)%nat with (S (idx - S i)) in H by lia. exact H.
        + intros [[H _]|[Hle H]]; [contradiction|]. split; [lia|].
          replace (idx - i)%nat with (S (idx - S i)) by lia. exact H. }
    rewrite Hstep. destruct b; simpl; rewrite IH.
    + split.
      * intros [H|H]; [left; now split | now right].
      * intros [[H _]|H]; [now left | now right].
    + split.
      * intros H. now right.
      * intros [[_ H]|H]; [discriminate | exact H].
Qed.

Lemma seen_has_mask_index mask idx :
  seen_has idx (mask_index mask) = flagged mask idx.
Proof.
  unfold flagged, mask_index.
  destruct (nth idx mask false) eqn:Hn.
  - apply seen_has_In, mask_index_from_In. rewrite Nat.sub_0_r. split; [lia | exact Hn].
  - destruct (seen_has idx (mask_index_from 0 mask)) eqn:Hs; [|reflexivity].
    apply seen_has_In, mask_index_from_In in Hs. rewrite Nat.sub_0_r in Hs.
    destruct Hs as [_ Hs]. congruence.
Qed.

Lemma report_invariant_three t1 t2 t3 (m1 m2 m3 : list bool)
      (mean_v std_v : float) :
  let a1 := mask_index m1 in
  let a2 := mask_index m2 in
  let a3 := mask_index m3 in
  report_invariant
    (let '(ua, ut) :=
       remove_duplicates (a1 ++ a2 ++ a3)
                         (tagged t1 a1 ++ tagged t2 a2 ++ tagged t3 a3) in
     mkMetricReport (length ua) ua ut (Some mean_v) (Some std_v))
    (fun idx => if flagged m1 idx then t1
                else if flagged m2 idx then t2 else t3).
Proof.
  intros a1 a2 a3.
  pose proof (remove_duplicates_three t1 t2 t3 a1 a2 a3) as H.
  cbv zeta in H.
  destruct (remove_duplicates _ _) as [ua ut]. simpl in H.
  destruct H as [Hnd [Htags _]].
  unfold report_invariant. simpl. repeat split; [assumption|].
  rewrite Htags. apply map_ext. intros idx.
  unfold a1, a2. now rewrite !seen_has_mask_index.
Qed.

(** C5. Each per-metric anomaly report (RTWP, SINR, PRB) of every frame
    lists no index twice, has [count] equal to the number of listed
    indices, and tags each index with the type of the first test that
    flagged it (statistical before high_absolute before low_absolute). *)
Theorem metric_reports_unique (df : DataFrame) :
  report_invariant (_detect_rtwp_anomalies df) (rtwp_first_tag df)
  /\ report_invariant (_detect_sinr_anomalies df) (sinr_first_tag df)
  /\ report_invariant (_detect_prb_anomalies df) (prb_first_tag df).
Proof.
  assert (Habsent : forall tag, report_invariant absent_report tag).
  { intros tag. unfold report_invariant. simpl. repeat split. constructor. }
  split; [|split].
  - unfold _detect_rtwp_anomalies.
    destruct (has_RTWP df); simpl negb; cbv iota; [|apply Habsent].
    apply (report_invariant_three statistical high_absolute low_absolute).
  - unfold _detect_sinr_anomalies.
    destruct (has_SINR df); simpl negb; cbv iota; [|apply Habsent].
    pose proof (report_invariant_three
                  statistical low_absolute low_absolute
                  (statistical_outliers sinr_std_multiplier (col df SINR))
                  (below sinr_absolute_min (col df SINR)) []
                  (mean (col df SINR)) (std (col df SINR))) as H.
    cbv zeta in H. change (mask_index []) with (@nil nat) in H.
    unfold tagged at 3 in H. simpl repeat in H. rewrite !app_nil_r in H.
    unfold report_invariant in *.
    destruct (remove_duplicates _ _) as [ua ut]. simpl in *.
    destruct H as [Hnd [Hc Ht]]. repeat split; [assumption|].
    rewrite Ht. apply map_ext. intros idx. unfold sinr_first_tag.
    destruct (flagged _ idx); [reflexivity|]. now destruct (flagged _ idx).
  - unfold _detect_prb_anomalies.
    destruct (has_PRB df); simpl negb; cbv iota; [|apply Habsent].
    apply (report_invariant_three statistical high_absolute low_absolute).
Qed.

End MetricReports.

(** ** The RTWP scenario with one value above the absolute bound *)

Section RtwpScenario.

Import Anomaly.

Lemma sqrt_lower (a s : R) : 0 <= s -> s * s <= a -> s <= sqrt a.
Proof.
  intros Hs H. rewrite <- (sqrt_square s Hs). now apply sqrt_le_1_alt.
Qed.

(** C8. On RTWP = [-95, -96, -94, -97, -98, -60] the detector reports
    exactly position 5, the one that holds -60, with type high_absolute:
    the mean is -90, the value lies above -70 and within 2.5 standard
    deviations of the mean, so the absolute test is the first to flag it;
    the count is 1. *)
Theorem rtwp_spike_high_absolute :
  let r := _detect_rtwp_anomalies Scenario.rtwp_spike in
  nth 5 (col Scenario.rtwp_spike RTWP) NaN = Fin (-60)
  /\ report_mean r = Some (Fin (-90))
  /\ indices r = [5%nat]
  /\ types r = [high_absolute]
  /\ count r = 1%nat.
Proof.
  unfold _detect_rtwp_anomalies, Scenario.rtwp_spike, Scenario.rtwp_only.
  cbn [has_RTWP negb col rows map cell rtwp nth].
  set (c := [Fin (-95); Fin (-96); Fin (-94); Fin (-97); Fin (-98); Fin (-60)]).
  assert (Hm : mean c = Fin (-90)).
  { unfold mean, c. cbn [dropna]. f_equal. unfold Rmean.
    cbn [Rsum fold_right length INR]. lra. }
  assert (Hs : exists s, std c = Fin s /\ 14 <= s).
  { eexists. split.
    - unfold std, c. cbn [dropna length Nat.ltb Nat.leb]. reflexivity.
    - apply sqrt_lower; [lra|]. unfold ssd, Rmean.
      cbn [Rsum fold_right length INR map]. lra. }
  destruct Hs as [s [Hs Hbound]].
  unfold statistical_outliers, above, below. rewrite Hm, Hs.
  unfold c. cbn [map].
  unfold rtwp_std_multiplier, rtwp_absolute_max, rtwp_absolute_min.
  cbn [gt lt sub mul abs lift2].
  decide_comparisons.
  cbv. repeat split; reflexivity.
Qed.

End RtwpScenario.

(** ** Too little data for the rolling and trend passes *)

Section InsufficientData.

Import Anomaly.

(** C7. A frame whose adaptive window [min(20, n // 4)] is below 5 gets
    from the correlation-anomaly detector the report with count 0 and the
    note "Insufficient data for correlation analysis"; a frame with fewer
    than 10 rows gets from the trend detector the report with count 0 and
    the note "Insufficient data for trend analysis".  Both are returned
    values: no exception is raised. *)
Theorem insufficient_data_reports (df : DataFrame) :
  ((Nat.min 20 (len df / 4) < 5)%nat ->
   _detect_correlation_anomalies df
   = mkCorrelationReport
       0 (Some "Insufficient data for correlation analysis"%string)
       None None None None)
  /\ ((len df < 10)%nat ->
      _detect_trend_anomalies df
      = mkTrendReport 0 (Some "Insufficient data for trend analysis"%string)
                      None).
Proof.
  split; intros H.
  - unfold _detect_correlation_anomalies, window_size.
    destruct (negb _); [reflexivity|].
    apply Nat.ltb_lt in H. now rewrite H.
  - unfold _detect_trend_anomalies.
    apply Nat.ltb_lt in H. now rewrite H.
Qed.

(** The six samples of the repository's test: window 1, six rows. *)
Lemma insufficient_data_reports_witness :
  corr_count (_detect_correlation_anomalies Scenario.six_samples) = 0%nat
  /\ trend_count (_detect_trend_anomalies Scenario.six_samples) = 0%nat.
Proof.
  destruct (insufficient_data_reports Scenario.six_samples) as [Hc Ht].
  split.
  - rewrite Hc; [reflexivity | vm_compute; lia].
  - rewrite Ht; [reflexivity | vm_compute; lia].
Defined.

End InsufficientData.

(** ** Verdicts of the before/after comparison *)

Section Verdicts.

Import Compare.

Lemma change_percent_finite (b a : R) :
  b <> 0 ->
  change_percent (Fin b) (Fin a) = Fin (Rabs ((a - b) / b * 100)).
Proof.
  intros Hb. unfold change_percent, ne, eq.
  now rewrite (Reqb_false b 0 Hb).
Qed.

Lemma change_percent_zero (a : R) :
  change_percent (Fin 0) (Fin a) = Fin 0.
Proof.
  unfold change_percent, ne, eq. now rewrite (Reqb_true 0 0 eq_refl).
Qed.

(** C9. For PRB, a change of the mean of at least 5 percent with neither
    the before mean nor the after mean inside the band [40, 80] is judged
    stable, whatever the size of the change. *)
Theorem prb_outside_band_stable (b a : R) :
  5 <= Rabs ((a - b) / b * 100) ->
  ~ (40 <= b <= 80) ->
  ~ (40 <= a <= 80) ->
  _assess_kpi_improvement PRB (Fin b) (Fin a) = stable.
Proof.
  intros Hchange Hbefore Hafter.
  unfold _assess_kpi_improvement.
  destruct (Req_dec_T b 0) as [->|Hb].
  { rewrite change_percent_zero. cbn [lt].
    now rewrite (Rltb_true 0 5) by lra. }
  rewrite (change_percent_finite b a Hb). cbn [lt le].
  rewrite (Rltb_false _ 5 Hchange).
  assert (Ha : Rleb 40 a && Rleb a 80 = false).
  { destruct (Rleb 40 a) eqn:H1; [|reflexivity].
    destruct (Rleb a 80) eqn:H2; [|reflexivity].
    apply Rleb_spec in H1, H2. exfalso. apply Hafter. now split. }
  assert (Hb' : Rleb 40 b && Rleb b 80 = false).
  { destruct (Rleb 40 b) eqn:H1; [|reflexivity].
    destruct (Rleb b 80) eqn:H2; [|reflexivity].
    apply Rleb_spec in H1, H2. exfalso. apply Hbefore. now split. }
  now rewrite Ha, Hb'.
Qed.

(** PRB mean 10 before and 20 after: a change of 100 percent, both outside
    the band. *)
Lemma prb_outside_band_stable_witness :
  _assess_kpi_improvement PRB (Fin 10) (Fin 20) = stable.
Proof.
  apply prb_outside_band_stable.
  - replace ((20 - 10) / 10 * 100) with 100 by lra. real_order.
  - lra.
  - lra.
Defined.



Lemma count_improvements_counts kpi : forall acc,
  fold_left
    (fun acc e =>
       match improvement (snd e) with
       | improved => (acc + 1)%Z
       | degraded => (acc - 1)%Z
       | stable => acc
       end) kpi acc
  = (acc + Z.of_nat (Terms.improved_count kpi)
     - Z.of_nat (Terms.degraded_count kpi))%Z.
Proof.
  unfold Terms.improved_count, Terms.degraded_count, Terms.count_verdict.
  induction kpi as [|e kpi IH]; intros acc; simpl.
  - lia.
  - rewrite IH. destruct (improvement (snd e)); simpl; lia.
Qed.

Lemma counts_le_length kpi :
  (Terms.improved_count kpi + Terms.degraded_count kpi <= length kpi)%nat.
Proof.
  unfold Terms.improved_count, Terms.degraded_count, Terms.count_verdict.
  induction kpi as [|e kpi IH]; simpl; [lia|].
  destruct (improvement (snd e)); simpl; lia.
Qed.

Lemma bucket_levels (s : R) :
  (80 <= s -> bucket s = significant)
  /\ (60 <= s < 80 -> bucket s = moderate)
  /\ (40 <= s < 60 -> bucket s = minimal)
  /\ (s < 40 -> bucket s = level_degraded).
Proof.
  unfold bucket. repeat split; intros H; decide_comparisons; reflexivity.
Qed.

Lemma score_formula (cr : ComparisonResults) :
  improvement_score (_assess_improvements cr)
  = Terms.anomaly_points (total_anomalies_change cr)
    + Terms.kpi_points (kpi_comparison cr).
Proof.
  unfold _assess_improvements, Terms.anomaly_points, Terms.kpi_points,
    count_improvements.
  cbn [improvement_score].
  rewrite (Rltb_true 0 (40 + 60)) by lra.
  rewrite count_improvements_counts.
  destruct (kpi_comparison cr) as [|e kpi] eqn:Hk.
  - cbn [length Nat.ltb Nat.leb]. lra.
  - set (l := e :: kpi).
    assert (Hn : 0 < INR (length l)) by (apply lt_0_INR; simpl; lia).
    replace (0 <? length l)%nat with true
      by (symmetry; apply Nat.ltb_lt; simpl; lia).
    rewrite Z.add_0_l, minus_IZR, <- !INR_IZR_INZ.
    field. lra.
Qed.

Lemma score_levels (cr : ComparisonResults) :
  let a := _assess_improvements cr in
  let kpi := kpi_comparison cr in
  let s := improvement_score a in
  s = Terms.anomaly_points (total_anomalies_change cr) + Terms.kpi_points kpi
  /\ -60 <= s <= 100
  /\ ((Terms.degraded_count kpi <= Terms.improved_count kpi)%nat -> 0 <= s)
  /\ (80 <= s -> level a = significant)
  /\ (60 <= s < 80 -> level a = moderate)
  /\ (40 <= s < 60 -> level a = minimal)
  /\ (s < 40 -> level a = level_degraded).
Proof.
  intros a kpi s.
  assert (Hs : s = Terms.anomaly_points (total_anomalies_change cr)
                   + Terms.kpi_points kpi) by apply score_formula.
  assert (Hlevel : level a = bucket s) by reflexivity.
  assert (Hap : Terms.anomaly_points (total_anomalies_change cr) = 0
                \/ Terms.anomaly_points (total_anomalies_change cr) = 40).
  { unfold Terms.anomaly_points.
    destruct (total_anomalies_change cr <? 0)%Z; [now right | now left]. }
  assert (Hkp : -60 <= Terms.kpi_points kpi <= 60
                /\ ((Terms.degraded_count kpi <= Terms.improved_count kpi)%nat
                    -> 0 <= Terms.kpi_points kpi)).
  { unfold Terms.kpi_points.
    pose proof (counts_le_length kpi) as Hle.
    clearbody kpi.
    destruct kpi as [|e l]; [split; [lra | intros _; lra]|].
    set (k := e :: l) in *.
    assert (Hn : 0 < INR (length k)) by (apply lt_0_INR; simpl; lia).
    clearbody k.
    set (n := length k) in *.
    set (i := Terms.improved_count k) in *.
    set (d := Terms.degraded_count k) in *.
    assert (Hi : 0 <= INR i) by apply pos_INR.
    assert (Hd : 0 <= INR d) by apply pos_INR.
    assert (Hsum : INR i + INR d <= INR n).
    { rewrite <- plus_INR. now apply le_INR. }
    assert (Hdiv : forall x, 60 * x / INR n = 60 * (x / INR n))
      by (intros x; unfold Rdiv; ring).
    rewrite Hdiv.
    assert (Hq1 : (INR i - INR d) / INR n <= 1).
    { apply Rmult_le_reg_r with (INR n); [assumption|].
      unfold Rdiv. rewrite Rmult_assoc, Rinv_l by lra. lra. }
    assert (Hq2 : -1 <= (INR i - INR d) / INR n).
    { apply Rmult_le_reg_r with (INR n); [assumption|].
      unfold Rdiv. rewrite Rmult_assoc, Rinv_l by lra. lra. }
    split; [lra|].
    intros Hdi. apply le_INR in Hdi.
    assert (0 <= (INR i - INR d) / INR n).
    { apply Rmult_le_reg_r with (INR n); [assumption|].
      unfold Rdiv. rewrite Rmult_assoc, Rinv_l by lra. lra. }
    lra. }
  destruct Hkp as [Hkp Hpos].
  destruct (bucket_levels s) as [B1 [B2 [B3 B4]]].
  rewrite Hlevel.
  split; [exact Hs|]. split; [destruct Hap; lra|].
  split; [intros H; specialize (Hpos H); destruct Hap; lra|].
  repeat split; assumption.
Qed.

(** The anomaly part of the score, in terms of the two totals the
    comparison is given. *)
Lemma anomaly_points_of_totals (before_df after_df : DataFrame)
      (before_anomalies after_anomalies : Anomaly.Results) :
  Terms.anomaly_points
    (total_anomalies_change
       (_calculate_comparison_metrics before_df after_df
                                      before_anomalies after_anomalies))
  = if (Anomaly.total_anomalies (Anomaly.summary after_anomalies)
        <? Anomaly.total_anomalies (Anomaly.summary before_anomalies))%nat
    then 40 else 0.
Proof.
  unfold _calculate_comparison_metrics, Terms.anomaly_points.
  cbn [total_anomalies_change].
  set (b := Anomaly.total_anomalies (Anomaly.summary before_anomalies)).
  set (a := Anomaly.total_anomalies (Anomaly.summary after_anomalies)).
  destruct (Nat.ltb_spec a b) as [Hlt|Hge].
  - replace (Z.of_nat a - Z.of_nat b <? 0)%Z with true
      by (symmetry; apply Z.ltb_lt; lia).
    reflexivity.
  - replace (Z.of_nat a - Z.of_nat b <? 0)%Z with false
      by (symmetry; apply Z.ltb_ge; lia).
    reflexivity.
Qed.

(** C3, as the code has it. In the comparison of two frames the
    improvement score is the sum of the anomaly part, 40 points exactly
    when the total anomaly count after is strictly below the total before
    and 0 otherwise, and of the KPI part,
    60 * (improved_count - degraded_count) / total_metrics (0 without a
    compared metric), which is negative when more metrics degraded than
    improved.  It lies in [-60, 100], is non-negative when no more metrics
    degraded than improved, and is bucketed significant from 80, moderate
    from 60, minimal from 40, degraded below. *)
Theorem improvement_score_range (before_df after_df : DataFrame)
        (before_anomalies after_anomalies : Anomaly.Results) :
  let cr :=
    _calculate_comparison_metrics before_df after_df
                                  before_anomalies after_anomalies in
  let a := _assess_improvements cr in
  let kpi := kpi_comparison cr in
  let s := improvement_score a in
  let before_total := Anomaly.total_anomalies (Anomaly.summary before_anomalies) in
  let after_total := Anomaly.total_anomalies (Anomaly.summary after_anomalies) in
  total_anomalies_change cr = (Z.of_nat after_total - Z.of_nat before_total)%Z
  /\ s = (if (after_total <? before_total)%nat then 40 else 0)
         + Terms.kpi_points kpi
  /\ -60 <= s <= 100
  /\ ((Terms.degraded_count kpi <= Terms.improved_count kpi)%nat -> 0 <= s)
  /\ (80 <= s -> level a = significant)
  /\ (60 <= s < 80 -> level a = moderate)
  /\ (40 <= s < 60 -> level a = minimal)
  /\ (s < 40 -> level a = level_degraded).
Proof.
  intros cr a kpi s before_total after_total.
  destruct (score_levels cr) as [Hs Hrest].
  split; [reflexivity|].
  split; [|exact Hrest].
  fold a kpi s in Hs. rewrite Hs. f_equal.
  apply anomaly_points_of_totals.
Qed.

End Verdicts.

(** ** Pairwise significance without scipy *)

Section Significance.

Import Correlation.

(** Under the approximation the p-value is 0.05 or 0.1, and neither is
    below 0.05. *)
Lemma approximation_not_significant (a b : Series) :
  significance (pair_entry None a b) = not_significant.
Proof.
  unfold pair_entry, pair_p_value. cbn [significance].
  destruct (abs (corr a b) >? Fin 0.3)%fl; cbn [lt];
    now rewrite Rltb_false by lra.
Qed.

Lemma paired_samples_corr :
  corr (col Scenario.paired_samples RTWP) (col Scenario.paired_samples SINR)
  = Fin (27 / 35).
Proof.
  unfold Scenario.paired_samples, Scenario.rtwp_sinr, col, corr.
  cbn [rows map cell rtwp sinr fst snd valid_pairs length Nat.ltb Nat.leb].
  set (xs := [-95; -96; -94; -97; -98; -99]).
  set (ys := [18; 19; 17; 16; 15; 14]).
  assert (Hx : ssd xs = 35 / 2).
  { unfold ssd, Rmean, xs. cbn [Rsum fold_right length INR map]. lra. }
  assert (Hy : ssd ys = 35 / 2).
  { unfold ssd, Rmean, ys. cbn [Rsum fold_right length INR map]. lra. }
  rewrite Hx, Hy.
  rewrite (Reqb_false (35 / 2 * (35 / 2)) 0) by lra.
  rewrite sqrt_square by lra.
  f_equal. unfold sxy.
  cbn [map fst snd]. fold xs ys.
  unfold Rmean, xs, ys. cbn [Rsum fold_right length INR map fst snd]. lra.
Qed.

(** C1 on the code. For RTWP = [-95,-96,-94,-97,-98,-99],
    SINR = [18,19,17,16,15,14] and no scipy, the RTWP_SINR pair has the
    coefficient 27/35, above 0.3 in absolute value, the p-value 0.05, and
    is reported not_significant, because the test is [p_value < 0.05]. *)
Theorem paired_samples_not_significant :
  exists e,
    lookup_pair (RTWP, SINR)
                (_calculate_pairwise_correlations None Scenario.paired_samples)
    = Some e
    /\ correlation e = Fin (27 / 35)
    /\ 0.3 < Rabs (27 / 35)
    /\ p_value e = Fin 0.05
    /\ significance e = not_significant.
Proof.
  exists (pair_entry None (col Scenario.paired_samples RTWP)
                     (col Scenario.paired_samples SINR)).
  split.
  - reflexivity.
  - unfold pair_entry, pair_p_value. cbn [correlation p_value significance].
    rewrite paired_samples_corr. cbn [is_nan negb abs gt lt].
    assert (H : 0.3 < Rabs (27 / 35)) by real_order.
    rewrite (Rltb_true _ _ H). cbn [is_nan negb lt].
    rewrite (Rltb_false 0.05 0.05) by lra.
    repeat split; [exact H].
Qed.

End Significance.

(** ** The stability score *)

Section Stability.

Import Correlation.

Lemma Rsum_const (c : R) (v : list R) :
  Forall (fun x => x = c) v -> Rsum v = INR (length v) * c.
Proof.
  induction 1 as [|x v Hx _ IH].
  - simpl. lra.
  - change (Rsum (x :: v)) with (x + Rsum v). rewrite IH, Hx.
    change (length (c :: v)) with (S (length v)). rewrite S_INR. lra.
Qed.

Lemma ssd_const (c : R) (v : list R) :
  Forall (fun x => x = c) v -> ssd v = 0.
Proof.
  intros Hall. destruct v as [|x0 v0] eqn:Hv; [reflexivity|].
  rewrite <- Hv in *.
  assert (Hlen : 0 < INR (length v))
    by (apply lt_0_INR; subst v; simpl; lia).
  assert (Hm : Rmean v = c).
  { unfold Rmean. rewrite (Rsum_const c v Hall). field. lra. }
  unfold ssd. rewrite Hm. clear Hm Hlen Hv.
  induction Hall as [|x v Hx _ IH]; [reflexivity|].
  change (Rsum (map (fun y => (y - c) * (y - c)) (x :: v)))
    with ((x - c) * (x - c) + Rsum (map (fun y => (y - c) * (y - c)) v)).
  rewrite IH, Hx. lra.
Qed.

Lemma valid_pairs_fst_const (c : R) (a : Series) : forall b,
  Forall (fun v => v = Fin c \/ v = NaN) a ->
  Forall (fun x => x = c) (map fst (valid_pairs a b)).
Proof.
  induction a as [|v a IH]; intros b Hall; [constructor|].
  inversion Hall as [|? ? Hv Ha]; subst.
  destruct b as [|w b]; [destruct v; constructor|].
  destruct v as [x|], w as [y|]; cbn [valid_pairs map fst]; try now apply IH.
  constructor; [|now apply IH].
  destruct Hv as [Hv|Hv]; [now inversion Hv | discriminate].
Qed.

(** A column that holds one value only has no variance, and its
    coefficient with any other column is NaN. *)
Lemma corr_constant_left (c : R) (a b : Series) :
  Forall (fun v => v = Fin c \/ v = NaN) a -> corr a b = NaN.
Proof.
  intros Hall. unfold corr.
  destruct (length (valid_pairs a b) <? 2)%nat; [reflexivity|].
  rewrite (ssd_const c _ (valid_pairs_fst_const c a b Hall)).
  now rewrite Reqb_true by lra.
Qed.

Lemma Forall_firstn {A : Type} (P : A -> Prop) (n : nat) : forall l,
  Forall P l -> Forall P (firstn n l).
Proof.
  induction n as [|n IH]; intros l Hall; [constructor|].
  destruct Hall; [constructor|]. simpl. constructor; auto.
Qed.

Lemma Forall_skipn {A : Type} (P : A -> Prop) (n : nat) : forall l,
  Forall P l -> Forall P (skipn n l).
Proof.
  induction n as [|n IH]; intros l Hall; [assumption|].
  destruct Hall; [constructor|]. simpl. auto.
Qed.

Lemma rolling_corr_flat (c : R) (w : nat) (a b : Series) :
  Forall (fun v => v = Fin c \/ v = NaN) a ->
  rolling_corr w a b = repeat NaN (length a).
Proof.
  intros Hall. unfold rolling_corr.
  rewrite <- (length_seq (length a) 0) at 2. rewrite <- map_const.
  apply map_ext. intros i.
  destruct (i + 1 <? w)%nat; [reflexivity|].
  rewrite (corr_constant_left c); [now destruct (_ =? _)%nat|].
  unfold window. now apply Forall_firstn, Forall_skipn.
Qed.

Lemma dropna_all_nan (n : nat) : dropna (repeat NaN n) = [].
Proof. induction n; simpl; auto. Qed.

(** A series of missing values only, not empty, has a NaN score. *)
Lemma stability_all_nan (n : nat) :
  _calculate_correlation_stability (repeat NaN (S n)) = NaN.
Proof.
  unfold _calculate_correlation_stability, std, mean.
  rewrite dropna_all_nan. reflexivity.
Qed.

Lemma flat_rtwp_column :
  Forall (fun v => v = Fin (-95) \/ v = NaN) (col Scenario.flat_rtwp RTWP).
Proof.
  unfold Scenario.flat_rtwp, Scenario.rtwp_sinr, col. cbn [rows].
  rewrite !map_map. apply Forall_forall. intros v Hin.
  apply in_map_iff in Hin as [i [Hv _]]. subst v. left. reflexivity.
Qed.

(** C6 on the code. Twenty samples with RTWP constant at -95 give the
    window 5 and a rolling RTWP/SINR correlation that is NaN at all twenty
    positions; the stability score of that series is NaN, and the pair is
    classified highly_unstable. *)
Theorem flat_rtwp_stability_nan :
  let rolling :=
    rolling_corr (window_size Scenario.flat_rtwp)
                 (col Scenario.flat_rtwp RTWP) (col Scenario.flat_rtwp SINR) in
  window_size Scenario.flat_rtwp = 5%nat
  /\ rolling = repeat NaN 20
  /\ _calculate_correlation_stability rolling = NaN
  /\ _classify_stability (_calculate_correlation_stability rolling)
     = highly_unstable.
Proof.
  cbv zeta.
  rewrite (rolling_corr_flat (-95) _ _ _ flat_rtwp_column).
  replace (length (col Scenario.flat_rtwp RTWP)) with 20%nat by reflexivity.
  rewrite (stability_all_nan 19).
  repeat split; reflexivity.
Qed.

Lemma std_nonneg (s : Series) (x : R) : std s = Fin x -> 0 <= x.
Proof.
  unfold std. destruct (_ <? 2)%nat; [discriminate|].
  intros H. inversion H. apply sqrt_pos.
Qed.

(** X22. With at least two values in the series the score is a number of
    [0, 1]: 1 without variation, 0 for a zero mean, and
    1 / (1 + std / |mean|) otherwise. *)
Lemma stability_score_bounds (s : Series) :
  (2 <= length (dropna s))%nat ->
  exists sd m,
    std s = Fin sd /\ mean s = Fin m
    /\ _calculate_correlation_stability s
       = Fin (if Reqb sd 0 then 1
              else if Reqb m 0 then 0
                   else 1 / (1 + sd / Rabs m))
    /\ exists x, _calculate_correlation_stability s = Fin x /\ 0 <= x <= 1.
Proof.
  intros Hlen.
  assert (Hstd : exists sd, std s = Fin sd).
  { unfold std. apply Nat.ltb_ge in Hlen. rewrite Hlen. eauto. }
  assert (Hmean : exists m, mean s = Fin m).
  { unfold mean. destruct (dropna s); [simpl in Hlen; lia | eauto]. }
  destruct Hstd as [sd Hsd], Hmean as [m Hm].
  pose proof (std_nonneg s sd Hsd) as Hpos.
  assert (Hval : _calculate_correlation_stability s
                 = Fin (if Reqb sd 0 then 1
                        else if Reqb m 0 then 0
                             else 1 / (1 + sd / Rabs m))).
  { unfold _calculate_correlation_stability. rewrite Hsd, Hm.
    destruct s as [|v s]; [simpl in Hlen; lia|].
    unfold ne, eq. cbn [orb].
    destruct (Reqb sd 0); [reflexivity|].
    destruct (Reqb m 0); reflexivity. }
  exists sd, m. repeat split; try assumption.
  rewrite Hval. eexists. split; [reflexivity|].
  unfold Reqb.
  destruct (Req_dec_T sd 0); [lra|].
  destruct (Req_dec_T m 0); [lra|].
  assert (Hm0 : 0 < Rabs m) by now apply Rabs_pos_lt.
  assert (Hq : 0 <= sd / Rabs m).
  { unfold Rdiv. apply Rmult_le_pos; [assumption|].
    left. now apply Rinv_0_lt_compat. }
  split.
  - unfold Rdiv at 1. rewrite Rmult_1_l. left. apply Rinv_0_lt_compat. lra.
  - unfold Rdiv at 1. rewrite Rmult_1_l.
    rewrite <- Rinv_1 at 2. apply Rinv_le_contravar; lra.
Qed.

End Stability.

(** ** Cross-correlation with lags *)

Section CrossCorrelation.

Import Correlation.

Lemma lag_range_In (L : nat) (lag : Z) :
  In lag (lag_range L) <-> (- Z.of_nat L <= lag <= Z.of_nat L)%Z.
Proof.
  unfold lag_range. rewrite in_map_iff. split.
  - intros [i [Hi Hin]]. apply in_seq in Hin. lia.
  - intros H. exists (Z.to_nat (lag + Z.of_nat L)). split; [lia|].
    apply in_seq. lia.
Qed.

Lemma collect_lags_In (df : DataFrame) (lags : list Z) (lag : Z) (c : float) :
  In (lag, c) (collect_lags df lags)
  <-> In lag lags /\ lag <> 0%Z /\ lag_corr df lag = c /\ c <> NaN.
Proof.
  induction lags as [|l lags IH]; simpl.
  - tauto.
  - destruct (Z.eqb_spec l 0) as [->|Hl].
    + rewrite IH. intuition congruence.
    + destruct (lag_corr df l) as [x|] eqn:Hc; cbn [is_nan negb].
      * simpl. rewrite IH. split.
        -- intros [Heq|H]; [inversion Heq; subst|]; intuition congruence.
        -- intros [[->|Hin] [H0 [Hcorr Hnan]]].
           ++ left. congruence.
           ++ right. tauto.
      * rewrite IH. split; [tauto|].
        intros [[->|Hin] [H0 [Hcorr Hnan]]]; [congruence | tauto].
Qed.

Lemma collect_lags_nil (df : DataFrame) (lags : list Z) :
  (forall lag, In lag lags -> lag <> 0%Z -> lag_corr df lag = NaN) ->
  collect_lags df lags = [].
Proof.
  intros H. destruct (collect_lags df lags) as [|[lag c] rest] eqn:E;
    [reflexivity|].
  assert (Hin : In (lag, c) (collect_lags df lags)) by (rewrite E; now left).
  apply collect_lags_In in Hin as [Hin [H0 [Hc Hnan]]].
  rewrite (H lag Hin H0) in Hc. congruence.
Qed.

(** C10. The lag-to-coefficient map of the RTWP/SINR cross-correlation
    holds exactly the lags of [-L, L] without 0 whose coefficient is not
    NaN, each with that coefficient; it is the map the result carries;
    and when every such lag gives NaN the result has no RTWP-SINR entry at
    all. *)
Theorem cross_correlation_omits_nan (df : DataFrame) :
  (forall lag c,
      In (lag, c) (rtwp_sinr_lags df)
      <-> (- Z.of_nat (max_lag df) <= lag <= Z.of_nat (max_lag df))%Z
          /\ lag <> 0%Z /\ lag_corr df lag = c /\ c <> NaN)
  /\ (forall e, _calculate_cross_correlations df = Some e ->
                lags e = rtwp_sinr_lags df)
  /\ ((forall lag,
          (- Z.of_nat (max_lag df) <= lag <= Z.of_nat (max_lag df))%Z ->
          lag <> 0%Z -> lag_corr df lag = NaN) ->
      _calculate_cross_correlations df = None).
Proof.
  split; [|split].
  - intros lag c. unfold rtwp_sinr_lags.
    now rewrite collect_lags_In, lag_range_In.
  - intros e. unfold _calculate_cross_correlations.
    destruct (has_RTWP df && has_SINR df); [|discriminate].
    destruct (rtwp_sinr_lags df) as [|p rest]; [discriminate|].
    intros H. inversion H. reflexivity.
  - intros H. unfold _calculate_cross_correlations.
    destruct (has_RTWP df && has_SINR df); [|reflexivity].
    unfold rtwp_sinr_lags. rewrite collect_lags_nil; [reflexivity|].
    intros lag Hin. apply H. now apply lag_range_In.
Qed.

Lemma Forall_repeat {A : Type} (P : A -> Prop) (x : A) (n : nat) :
  P x -> Forall P (repeat x n).
Proof. intros Hx. induction n; simpl; constructor; auto. Qed.

Lemma shift_Forall (P : float -> Prop) (k : Z) (s : Series) :
  P NaN -> Forall P s -> Forall P (shift k s).
Proof.
  intros Hn Hs. unfold shift. destruct (0 <=? k)%Z.
  - apply Forall_firstn, Forall_app. split; [now apply Forall_repeat | exact Hs].
  - apply Forall_app. split; [now apply Forall_skipn | now apply Forall_repeat].
Qed.

(** With RTWP constant every lag of [-5, 5] gives NaN, and the result is
    the empty dictionary. *)
Lemma cross_correlation_omits_nan_witness :
  max_lag Scenario.flat_rtwp = 5%nat
  /\ _calculate_cross_correlations Scenario.flat_rtwp = None.
Proof.
  split; [reflexivity|].
  apply (cross_correlation_omits_nan Scenario.flat_rtwp).
  intros lag _ _. unfold lag_corr.
  destruct (0 <? lag)%Z; apply (corr_constant_left (-95)).
  - apply shift_Forall; [now right | apply flat_rtwp_column].
  - apply flat_rtwp_column.
Defined.

End CrossCorrelation.

(** ** The Normalizer *)

Section Normalizer.

Import Parser.

Lemma time_le_total (a b : option Z) :
  time_le a b = false -> time_le b a = true.
Proof.
  destruct a as [x|], b as [y|]; simpl; try reflexivity; try discriminate.
  intros H. apply Z.leb_gt in H. apply Z.leb_le. lia.
Qed.

Lemma insert_by_time_sorted (r : RawRow) (l : RawFrame) :
  Terms.time_ordered l -> Terms.time_ordered (insert_by_time r l).
Proof.
  unfold Terms.time_ordered.
  induction 1 as [|h t Ht IH Hhd]; simpl.
  - repeat constructor.
  - destruct (time_le (TIME r) (TIME h)) eqn:Hle.
    + constructor; [now constructor | now constructor].
    + constructor; [exact IH|].
      apply time_le_total in Hle.
      destruct t as [|h' t']; simpl.
      * now constructor.
      * destruct (time_le (TIME r) (TIME h')); constructor;
          [assumption | now inversion Hhd].
Qed.

Lemma sort_values_TIME_sorted (df : RawFrame) :
  Terms.time_ordered (sort_values_TIME df).
Proof.
  unfold sort_values_TIME. induction df as [|r df IH]; simpl.
  - constructor.
  - now apply insert_by_time_sorted.
Qed.

(** Every frame the cleaning step returns has non-decreasing timestamps. *)
Lemma clean_data_sorted (df out : RawFrame) :
  _clean_data df = Some out -> Terms.time_ordered out.
Proof.
  unfold _clean_data, bind.
  destruct (clean_column RTWP _) as [df1|]; [|discriminate].
  destruct (clean_column SINR _) as [df2|]; [|discriminate].
  destruct (clean_column PRB _) as [df3|]; [|discriminate].
  intros H. inversion H. apply sort_values_TIME_sorted.
Qed.

(** A string left in the RTWP column makes the cleaning step raise. *)
Lemma clean_column_string (m : metric) (df : RawFrame) :
  existsb (fun r => match raw_cell m r with Str _ => true | Num _ => false end)
          df = true ->
  clean_column m df = None.
Proof.
  intros H. unfold clean_column.
  assert (Hn : numeric (map (raw_cell m) df) = None).
  { induction df as [|r df IH]; simpl in *; [discriminate|].
    destruct (raw_cell m r).
    - simpl in H. now rewrite (IH H).
    - reflexivity. }
  now rewrite Hn.
Qed.

(** C2 on the code. The file whose RTWP cells are all empty is accepted
    and comes back as it went in: the median of the RTWP column is NaN,
    filling with it changes nothing, and every RTWP cell of the cleaned
    frame is still missing. *)
Theorem empty_rtwp_survives :
  _clean_data Scenario.empty_rtwp = Some Scenario.empty_rtwp
  /\ has_missing RTWP Scenario.empty_rtwp = true
  /\ forallb (fun r => isna (raw_cell RTWP r)) Scenario.empty_rtwp = true.
Proof.
  split; [|split; reflexivity].
  unfold _clean_data, Scenario.empty_rtwp.
  cbn [dropna_all filter TIME negb andb].
  (* RTWP: nothing to fill with, no deviation to trim on *)
  assert (Hmed : median [NaN; NaN; NaN] = NaN) by reflexivity.
  unfold clean_column at 1.
  cbn [map raw_cell raw_rtwp numeric option_map]. rewrite Hmed.
  cbn [fillna map is_nan combine set_cell fst snd TIME raw_sinr raw_prb others].
  unfold std at 1. cbn [dropna length Nat.ltb Nat.leb gt lt bind].
  (* SINR: mean 18, standard deviation 1 *)
  unfold clean_column at 1.
  cbn [map raw_cell raw_sinr numeric option_map fillna is_nan combine
       set_cell fst snd TIME raw_rtwp raw_prb others].
  assert (Hm1 : mean [Fin 18; Fin 17; Fin 19] = Fin 18).
  { unfold mean, Rmean. cbn [dropna Rsum fold_right length INR]. f_equal. lra. }
  assert (Hs1 : exists s, std [Fin 18; Fin 17; Fin 19] = Fin s /\ 1 <= s).
  { eexists. split.
    - unfold std. cbn [dropna length Nat.ltb Nat.leb]. reflexivity.
    - apply sqrt_lower; [lra|]. unfold ssd, Rmean.
      cbn [Rsum fold_right length INR map]. lra. }
  destruct Hs1 as [s1 [Hs1 Hb1]]. rewrite Hm1, Hs1.
  cbn [gt lt le sub mul abs lift2 filter fst snd]. decide_comparisons.
  cbn [filter map fst snd bind].
  (* PRB: mean 65, standard deviation 3 *)
  unfold clean_column at 1.
  cbn [map raw_cell raw_prb numeric option_map fillna is_nan combine
       set_cell fst snd TIME raw_rtwp raw_sinr others].
  assert (Hm2 : mean [Fin 65; Fin 68; Fin 62] = Fin 65).
  { unfold mean, Rmean. cbn [dropna Rsum fold_right length INR]. f_equal. lra. }
  assert (Hs2 : exists s, std [Fin 65; Fin 68; Fin 62] = Fin s /\ 3 <= s).
  { eexists. split.
    - unfold std. cbn [dropna length Nat.ltb Nat.leb]. reflexivity.
    - apply sqrt_lower; [lra|]. unfold ssd, Rmean.
      cbn [Rsum fold_right length INR map]. lra. }
  destruct Hs2 as [s2 [Hs2 Hb2]]. rewrite Hm2, Hs2.
  cbn [gt lt le sub mul abs lift2 filter fst snd]. decide_comparisons.
  cbn [filter map fst snd bind].
  reflexivity.
Qed.

End Normalizer.

(** ** Frames whose columns do not vary *)

Section SteadyColumns.

Import Anomaly.

Lemma dropna_repeat (x : R) (n : nat) :
  dropna (repeat (Fin x) n) = repeat x n.
Proof. induction n; simpl; congruence. Qed.

Lemma Rmean_repeat (x : R) (n : nat) : Rmean (repeat x (S n)) = x.
Proof.
  unfold Rmean.
  rewrite (Rsum_const x) by (apply Forall_repeat; reflexivity).
  rewrite repeat_length. field. apply not_0_INR. lia.
Qed.

Lemma mean_repeat (x : R) (n : nat) : mean (repeat (Fin x) (S n)) = Fin x.
Proof.
  unfold mean. rewrite dropna_repeat. cbn [repeat]. f_equal.
  apply (Rmean_repeat x n).
Qed.

Lemma flat_series (x : R) (s : Series) :
  Forall (fun v => v = Fin x) s -> s = repeat (Fin x) (length s).
Proof.
  induction 1 as [|v s Hv _ IH]; [reflexivity|].
  simpl. now rewrite Hv, <- IH.
Qed.

Lemma mean_flat (x : R) (s : Series) :
  Forall (fun v => v = Fin x) s -> mean s = Fin x \/ mean s = NaN.
Proof.
  intros Hall. rewrite (flat_series x s Hall).
  destruct (length s); [now right | left; apply mean_repeat].
Qed.

Lemma mask_index_from_none (n i : nat) :
  mask_index_from i (repeat false n) = [].
Proof. revert i. induction n; intros i; simpl; auto. Qed.

Lemma mask_index_all_false (mask : list bool) :
  Forall (fun b => b = false) mask -> mask_index mask = [].
Proof.
  unfold mask_index. generalize 0%nat.
  induction mask as [|b mask IH]; intros i Hall; [reflexivity|].
  inversion Hall as [|? ? Hb Hrest]; subst. simpl. now apply IH.
Qed.

(** No value of a constant column is a statistical outlier, whatever the
    multiplier. *)
Lemma statistical_flat (t x : R) (n : nat) :
  0 <= t ->
  mask_index (statistical_outliers (Fin t) (repeat (Fin x) n)) = [].
Proof.
  intros Ht. unfold statistical_outliers. rewrite map_repeat.
  destruct n as [|n]; [reflexivity|].
  rewrite mean_repeat.
  assert (H : (abs (Fin x - Fin x) >? Fin t * std (repeat (Fin x) (S n)))%fl
              = false).
  { destruct (std (repeat (Fin x) (S n))) as [d|] eqn:E; [|reflexivity].
    cbn [sub mul lift2 abs gt lt]. apply Rltb_false.
    pose proof (std_nonneg _ _ E) as Hd.
    replace (x - x) with 0 by lra. rewrite Rabs_R0. nra. }
  rewrite H. apply mask_index_from_none.
Qed.

Lemma above_flat (bound x : R) (n : nat) :
  x <= bound -> mask_index (above (Fin bound) (repeat (Fin x) n)) = [].
Proof.
  intros H. unfold above. rewrite map_repeat. cbn [gt lt].
  rewrite Rltb_false by assumption. apply mask_index_from_none.
Qed.

Lemma below_flat (bound x : R) (n : nat) :
  bound <= x -> mask_index (below (Fin bound) (repeat (Fin x) n)) = [].
Proof.
  intros H. unfold below. rewrite map_repeat. cbn [lt].
  rewrite Rltb_false by assumption. apply mask_index_from_none.
Qed.

Lemma rolling_mean_flat (x : R) (w : nat) (s : Series) :
  Forall (fun v => v = Fin x) s ->
  Forall (fun v => v = Fin x \/ v = NaN) (rolling_mean w s).
Proof.
  intros Hall. unfold rolling_mean. apply Forall_forall. intros v Hin.
  apply in_map_iff in Hin as [i [Hv _]]. subst v.
  destruct (i + 1 <? w)%nat; [now right|].
  destruct (_ =? _)%nat; [|now right].
  apply mean_flat. unfold window. now apply Forall_firstn, Forall_skipn.
Qed.

(** The two moving averages of a constant column never part. *)
Lemma trend_of_column_flat (df : DataFrame) (m : metric) (x : R) :
  Forall (fun v => v = Fin x) (col df m) -> trend_of_column df m = [].
Proof.
  intros Hall. unfold trend_of_column.
  destruct (negb (in_columns m df)); [reflexivity|].
  apply mask_index_all_false. rewrite !Forall_map.
  apply Forall_forall. intros [a b] Hin. cbn [fst snd].
  pose proof (rolling_mean_flat x 5 _ Hall) as H5.
  pose proof (rolling_mean_flat x 15 _ Hall) as H15.
  rewrite Forall_forall in H5, H15.
  destruct (std (col df m)) as [d|] eqn:E;
    destruct (H5 a (in_combine_l _ _ _ _ Hin)) as [-> | ->];
    destruct (H15 b (in_combine_r _ _ _ _ Hin)) as [-> | ->];
    try reflexivity.
  cbn [sub mul lift2 abs gt lt]. apply Rltb_false.
  pose proof (std_nonneg _ _ E) as Hd.
  replace (x - x) with 0 by lra. rewrite Rabs_R0. lra.
Qed.

Lemma frame_columns (n : nat) (x y z : R) :
  col (Scenario.frame (repeat (x, y, z) n)) RTWP = repeat (Fin x) n
  /\ col (Scenario.frame (repeat (x, y, z) n)) SINR = repeat (Fin y) n
  /\ col (Scenario.frame (repeat (x, y, z) n)) PRB = repeat (Fin z) n.
Proof.
  unfold col, Scenario.frame. cbn [rows]. rewrite !map_repeat.
  repeat split; reflexivity.
Qed.

(** A frame of identical rows within the absolute bounds has no anomaly of
    any kind. *)
Lemma steady_total (n : nat) (x y z : R) :
  -120 <= x <= -70 -> 0 <= y -> 0 <= z <= 100 ->
  total_anomalies
    (summary (detect_anomalies (Scenario.frame (repeat (x, y, z) n))))
  = 0%nat.
Proof.
  intros Hx Hy Hz.
  destruct (frame_columns n x y z) as [Hr [Hs Hp]].
  set (df := Scenario.frame (repeat (x, y, z) n)) in *.
  assert (Hrtwp : count (_detect_rtwp_anomalies df) = 0%nat).
  { unfold _detect_rtwp_anomalies.
    change (has_RTWP df) with true. cbn [negb]. rewrite Hr.
    unfold rtwp_std_multiplier, rtwp_absolute_max, rtwp_absolute_min.
    rewrite statistical_flat, above_flat, below_flat by lra. reflexivity. }
  assert (Hsinr : count (_detect_sinr_anomalies df) = 0%nat).
  { unfold _detect_sinr_anomalies.
    change (has_SINR df) with true. cbn [negb]. rewrite Hs.
    unfold sinr_std_multiplier, sinr_absolute_min.
    rewrite statistical_flat, below_flat by lra. reflexivity. }
  assert (Hprb : count (_detect_prb_anomalies df) = 0%nat).
  { unfold _detect_prb_anomalies.
    change (has_PRB df) with true. cbn [negb]. rewrite Hp.
    unfold prb_std_multiplier, prb_absolute_max, prb_absolute_min.
    rewrite statistical_flat, above_flat, below_flat by lra. reflexivity. }
  assert (Hcorr : corr_count (_detect_correlation_anomalies df) = 0%nat).
  { unfold _detect_correlation_anomalies.
    destruct (negb _); [reflexivity|].
    destruct (window_size df <? 5)%nat; [reflexivity|].
    cbn [corr_count].
    rewrite !(rolling_corr_flat x)
      by (rewrite Hr; apply Forall_repeat; now left).
    unfold outside_band. rewrite map_repeat. cbn [lt gt orb].
    unfold mask_index. rewrite mask_index_from_none. reflexivity. }
  assert (Htrend : trend_count (_detect_trend_anomalies df) = 0%nat).
  { unfold _detect_trend_anomalies.
    destruct (len df <? 10)%nat; [reflexivity|].
    cbn [trend_count].
    rewrite (trend_of_column_flat df RTWP x)
      by (rewrite Hr; now apply Forall_repeat).
    rewrite (trend_of_column_flat df SINR y)
      by (rewrite Hs; now apply Forall_repeat).
    rewrite (trend_of_column_flat df PRB z)
      by (rewrite Hp; now apply Forall_repeat).
    reflexivity. }
  unfold detect_anomalies, _generate_anomaly_summary.
  cbn [summary total_anomalies].
  now rewrite Hrtwp, Hsinr, Hprb, Hcorr, Htrend.
Qed.

Lemma steady_mean (m : metric) (x y z : R) :
  mean (col (Inputs.steady x y z) m)
  = Fin match m with RTWP => x | SINR => y | PRB => z end.
Proof.
  unfold Inputs.steady.
  destruct (frame_columns 20 x y z) as [Hr [Hs Hp]].
  destruct m; [rewrite Hr | rewrite Hs | rewrite Hp]; apply mean_repeat.
Qed.

End SteadyColumns.

(** ** The before/after endpoint *)

Section BeforeAfter.

Import Compare.

Lemma window_below_five (n : nat) :
  (Nat.min 20 (n / 4) <? 5)%nat = (n <? 20)%nat.
Proof.
  pose proof (Nat.div_mod_eq n 4) as Hdiv.
  pose proof (Nat.mod_upper_bound n 4) as Hmod.
  destruct (Nat.ltb_spec n 20) as [Hn|Hn].
  - apply Nat.ltb_lt. lia.
  - apply Nat.ltb_ge. lia.
Qed.

(** The correlation analysis raises on every frame of fewer than 20 rows:
    the stability analysis hands the error dictionary to the insights. *)
Lemma analysis_needs_twenty_rows (scipy : option Correlation.exact_test)
      (df : DataFrame) :
  (len df < 20)%nat -> Analysis.analyze_correlations scipy df = None.
Proof.
  intros Hlen. unfold Analysis.analyze_correlations.
  destruct (Analysis.pairwise_raises scipy df); [reflexivity|].
  unfold Analysis._generate_correlation_insights.
  cbn [Analysis.correlation_stability].
  unfold Correlation._analyze_correlation_stability, Correlation.window_size.
  rewrite window_below_five.
  now replace (len df <? 20)%nat with true by (symmetry; now apply Nat.ltb_lt).
Qed.

(** From 20 rows on it returns, unless the exact test refuses a pair of
    columns. *)
Lemma analysis_returns (scipy : option Correlation.exact_test)
      (df : DataFrame) :
  Analysis.pairwise_raises scipy df = false -> (20 <= len df)%nat ->
  exists c, Analysis.analyze_correlations scipy df = Some c.
Proof.
  intros Hp Hlen. unfold Analysis.analyze_correlations. rewrite Hp.
  unfold Analysis._generate_correlation_insights.
  cbn [Analysis.correlation_stability].
  unfold Correlation._analyze_correlation_stability, Correlation.window_size.
  rewrite window_below_five.
  replace (len df <? 20)%nat with false by (symmetry; now apply Nat.ltb_ge).
  eexists. reflexivity.
Qed.

(** What the endpoint returns when both analyses do. *)
Lemma comparison_returns (scipy : option Correlation.exact_test)
      (before_df after_df : DataFrame) :
  Analysis.pairwise_raises scipy before_df = false ->
  Analysis.pairwise_raises scipy after_df = false ->
  (20 <= len before_df)%nat -> (20 <= len after_df)%nat ->
  let cr :=
    _calculate_comparison_metrics
      before_df after_df
      (Anomaly.detect_anomalies before_df) (Anomaly.detect_anomalies after_df) in
  exists r,
    Endpoints.compare_before_after_analysis scipy before_df after_df = Some r
    /\ Endpoints.kpi_comparison r = kpi_comparison cr
    /\ Endpoints.anomaly_comparison r = anomaly_comparison cr
    /\ Endpoints.improvement_assessment r = _assess_improvements cr
    /\ Endpoints.summary r = Summary.summary_of cr.
Proof.
  intros Hb Ha Hlb Hla cr.
  destruct (analysis_returns scipy before_df Hb Hlb) as [cb Hcb].
  destruct (analysis_returns scipy after_df Ha Hla) as [ca Hca].
  unfold Endpoints.compare_before_after_analysis. rewrite Hcb, Hca.
  eexists. split; [reflexivity|]. repeat split.
Qed.




Lemma steady_in_columns (m : metric) (x y z : R) :
  in_columns m (Inputs.steady x y z) = true.
Proof. now destruct m. Qed.

Lemma steady_change_verdicts (before_anomalies after_anomalies : Anomaly.Results) :
  map (fun e => (fst e, improvement (snd e)))
      (kpi_comparison
         (_calculate_comparison_metrics Inputs.steady_before Inputs.steady_after
                                        before_anomalies after_anomalies))
  = [(RTWP, degraded); (SINR, degraded); (PRB, degraded)].
Proof.
  unfold _calculate_comparison_metrics, kpi_entry,
    Inputs.steady_before, Inputs.steady_after.
  cbn [kpi_comparison flat_map].
  rewrite !steady_in_columns. cbn [andb app map fst snd improvement].
  rewrite !steady_mean.
  unfold _assess_kpi_improvement.
  rewrite !change_percent_finite by lra.
  cbn [gt lt le].
  decide_comparisons.
  reflexivity.
Qed.

(** Twenty samples (-95, 15, 60) against twenty samples (-80, 10, 90): no
    anomaly on either side and three degraded metrics. *)
Lemma steady_change_score :
  improvement_score
    (_assess_improvements
       (_calculate_comparison_metrics
          Inputs.steady_before Inputs.steady_after
          (Anomaly.detect_anomalies Inputs.steady_before)
          (Anomaly.detect_anomalies Inputs.steady_after)))
  = -60.
Proof.
  pose proof (steady_change_verdicts
                (Anomaly.detect_anomalies Inputs.steady_before)
                (Anomaly.detect_anomalies Inputs.steady_after)) as Hv.
  rewrite score_formula, anomaly_points_of_totals.
  unfold Inputs.steady_before, Inputs.steady_after, Inputs.steady in *.
  rewrite !steady_total by lra.
  set (cr := _calculate_comparison_metrics _ _ _ _) in *.
  unfold Terms.kpi_points, Terms.improved_count,
    Terms.degraded_count, Terms.count_verdict.
  destruct (kpi_comparison cr) as [|[m1 e1] [|[m2 e2] [|[m3 e3] [|? ?]]]];
    try discriminate Hv.
  cbn [map fst snd] in Hv. inversion Hv as [[Hm1 H1 Hm2 H2 Hm3 H3]].
  cbn [filter snd]. rewrite H3, H2, H1.
  cbn [length INR Nat.ltb Nat.leb]. lra.
Qed.

Lemma steady_change_returns :
  exists r,
    Endpoints.compare_before_after_analysis
      None Inputs.steady_before Inputs.steady_after = Some r
    /\ improvement_score (Endpoints.improvement_assessment r) = -60.
Proof.
  destruct (comparison_returns None Inputs.steady_before Inputs.steady_after
                               eq_refl eq_refl)
    as [r [Hr [_ [_ [Ha _]]]]];
    try (apply Nat.eq_le_incl; reflexivity).
  exists r. split; [exact Hr|]. rewrite Ha. apply steady_change_score.
Qed.

(** C3, as stated, fails. Without scipy the endpoint, given twenty samples
    (-95, 15, 60) before and twenty samples (-80, 10, 90) after, returns a
    comparison: no anomaly on either side, three degraded metrics, and the
    improvement score -60, outside [0, 100]. *)
Lemma improvement_score_negative :
  match Endpoints.compare_before_after_analysis
          None Inputs.steady_before Inputs.steady_after with
  | Some r =>
      improvement_score (Endpoints.improvement_assessment r) = -60
      /\ ~ (0 <= improvement_score (Endpoints.improvement_assessment r) <= 100)
  | None => False
  end.
Proof.
  destruct steady_change_returns as [r [-> Hs]].
  rewrite Hs. split; [reflexivity | lra].
Qed.

(** The same comparison falls in the lowest bucket. *)
Lemma improvement_score_range_witness :
  option_map (fun r => level (Endpoints.improvement_assessment r))
             (Endpoints.compare_before_after_analysis
                None Inputs.steady_before Inputs.steady_after)
  = Some level_degraded.
Proof.
  destruct (comparison_returns None Inputs.steady_before Inputs.steady_after
                               eq_refl eq_refl)
    as [r [Hr [_ [_ [Ha _]]]]];
    try (apply Nat.eq_le_incl; reflexivity).
  rewrite Hr. cbn [option_map]. rewrite Ha. f_equal.
  destruct (improvement_score_range
              Inputs.steady_before Inputs.steady_after
              (Anomaly.detect_anomalies Inputs.steady_before)
              (Anomaly.detect_anomalies Inputs.steady_after))
    as [_ [_ [_ [_ [_ [_ [_ Hlow]]]]]]].
  apply Hlow. rewrite steady_change_score. lra.
Defined.






End BeforeAfter.

(** * Further properties of the services *)

(** ** Masks and positions *)

Section Masks.

Lemma mask_index_In (mask : list bool) (idx : nat) :
  In idx (mask_index mask) <-> nth idx mask false = true.
Proof.
  unfold mask_index. rewrite mask_index_from_In, Nat.sub_0_r.
  split; [tauto | intros H; split; [lia | exact H]].
Qed.

Lemma nth_true_lt (mask : list bool) (idx : nat) :
  nth idx mask false = true -> (idx < length mask)%nat.
Proof.
  intros H. destruct (Nat.lt_ge_cases idx (length mask)) as [Hlt|Hge];
    [exact Hlt|].
  rewrite nth_overflow in H by exact Hge. discriminate.
Qed.

Lemma nth_map_true {A : Type} (f : A -> bool) (l : list A) (idx : nat) :
  nth idx (map f l) false = true ->
  exists x, nth_error l idx = Some x /\ f x = true.
Proof.
  revert idx. induction l as [|a l IH]; intros [|idx] H; simpl in *;
    try discriminate.
  - exists a. now split.
  - now apply IH.
Qed.

Lemma nth_error_combine {A B : Type} (a : list A) (b : list B) (idx : nat)
      (x : A) (y : B) :
  nth_error (combine a b) idx = Some (x, y) ->
  nth_error a idx = Some x /\ nth_error b idx = Some y.
Proof.
  revert b idx. induction a as [|h a IH]; intros [|k b] [|idx] H; simpl in *;
    try discriminate.
  - inversion H. now split.
  - now apply IH.
Qed.

Lemma nth_error_map_seq {A : Type} (f : nat -> A) (n idx : nat) (y : A) :
  nth_error (map f (seq 0 n)) idx = Some y -> (idx < n)%nat /\ y = f idx.
Proof.
  intros H. rewrite nth_error_map in H.
  destruct (nth_error (seq 0 n) idx) as [i|] eqn:E; [|discriminate].
  assert (Hlt : (idx < n)%nat).
  { rewrite <- (length_seq n 0). apply nth_error_Some. congruence. }
  rewrite nth_error_nth' with (d := 0%nat) in E by (now rewrite length_seq).
  rewrite seq_nth in E by exact Hlt. simpl in E. inversion E; subst.
  simpl in H. inversion H. now split.
Qed.

End Masks.

(** ** What the anomaly reports list *)

Section ReportContents.

Import Anomaly.

Lemma report_indices_three t1 t2 t3 (m1 m2 m3 : list bool)
      (mean_v std_v : float) (idx : nat) :
  let a1 := mask_index m1 in
  let a2 := mask_index m2 in
  let a3 := mask_index m3 in
  In idx
     (indices
        (let '(ua, ut) :=
           remove_duplicates (a1 ++ a2 ++ a3)
                             (tagged t1 a1 ++ tagged t2 a2 ++ tagged t3 a3) in
         mkMetricReport (length ua) ua ut (Some mean_v) (Some std_v)))
  <-> flagged m1 idx || flagged m2 idx || flagged m3 idx = true.
Proof.
  intros a1 a2 a3.
  pose proof (remove_duplicates_three t1 t2 t3 a1 a2 a3) as H.
  cbv zeta in H. destruct (remove_duplicates _ _) as [ua ut]. simpl in *.
  destruct H as [_ [_ Hin]]. rewrite Hin.
  unfold a1, a2, a3, flagged. rewrite !mask_index_In, !orb_true_iff. tauto.
Qed.

(** X1. A per-metric report lists a position exactly when one of the
    detector's tests flags it, and every listed position is a row of the
    frame. *)
Theorem report_lists_flagged (df : DataFrame) (idx : nat) :
  (In idx (indices (_detect_rtwp_anomalies df))
   <-> Flags.rtwp_flagged df idx = true)
  /\ (In idx (indices (_detect_sinr_anomalies df))
      <-> Flags.sinr_flagged df idx = true)
  /\ (In idx (indices (_detect_prb_anomalies df))
      <-> Flags.prb_flagged df idx = true)
  /\ (Flags.rtwp_flagged df idx || Flags.sinr_flagged df idx
      || Flags.prb_flagged df idx = true -> (idx < len df)%nat).
Proof.
  assert (Hlen : forall m, length (col df m) = len df)
    by (intros m; unfold col, len; apply length_map).
  assert (Hrange : forall (f : float -> bool) m,
             flagged (map f (col df m)) idx = true -> (idx < len df)%nat).
  { intros f m H. apply nth_true_lt in H.
    now rewrite length_map, Hlen in H. }
  split; [|split; [|split]].
  - unfold _detect_rtwp_anomalies, Flags.rtwp_flagged.
    destruct (has_RTWP df); cbn [negb andb]; [|simpl; split; [tauto | discriminate]].
    apply (report_indices_three statistical high_absolute low_absolute).
  - unfold _detect_sinr_anomalies, Flags.sinr_flagged.
    destruct (has_SINR df); cbn [negb andb]; [|simpl; split; [tauto | discriminate]].
    pose proof (report_indices_three
                  statistical low_absolute low_absolute
                  (statistical_outliers sinr_std_multiplier (col df SINR))
                  (below sinr_absolute_min (col df SINR)) []
                  (mean (col df SINR)) (std (col df SINR)) idx) as H.
    cbv zeta in H. change (mask_index []) with (@nil nat) in H.
    unfold tagged at 3 in H. simpl repeat in H. rewrite !app_nil_r in H.
    rewrite H. unfold flagged at 3. destruct idx; simpl; now rewrite orb_false_r.
  - unfold _detect_prb_anomalies, Flags.prb_flagged.
    destruct (has_PRB df); cbn [negb andb]; [|simpl; split; [tauto | discriminate]].
    apply (report_indices_three statistical high_absolute low_absolute).
  - unfold Flags.rtwp_flagged, Flags.sinr_flagged, Flags.prb_flagged.
    unfold statistical_outliers, above, below.
    rewrite !orb_true_iff, !andb_true_iff, !orb_true_iff.
    intros H.
    repeat match goal with
           | H : _ \/ _ |- _ => destruct H as [H|H]
           | H : _ /\ _ |- _ => destruct H as [_ H]
           end; eapply Hrange; exact H.
Qed.

End ReportContents.

(** ** Positions of the trend and correlation passes *)

Section PassPositions.

Import Anomaly.

Lemma sub_nan_r (a : float) : (a - NaN)%fl = NaN.
Proof. now destruct a. Qed.

Lemma lt_nan_r (a : float) : (a <? NaN)%fl = false.
Proof. now destruct a. Qed.

Lemma lt_nan_l (a : float) : (NaN <? a)%fl = false.
Proof. reflexivity. Qed.

Lemma Rltb_lt (x y : R) : Rltb x y = true <-> x < y.
Proof. unfold Rltb. destruct (Rlt_dec x y); split; intros; auto; discriminate. Qed.

Lemma NoDup_range_length (l : list nat) (lo hi : nat) :
  NoDup l -> Forall (fun i => (lo <= i < hi)%nat) l ->
  (length l <= hi - lo)%nat.
Proof.
  intros Hnd Hall.
  rewrite <- (length_seq (hi - lo) lo).
  apply NoDup_incl_length; [exact Hnd|].
  intros i Hi. rewrite Forall_forall in Hall. specialize (Hall i Hi).
  apply in_seq. lia.
Qed.

Lemma set_of_range (l : list nat) (lo hi : nat) :
  Forall (fun i => (lo <= i < hi)%nat) l ->
  Forall (fun i => (lo <= i < hi)%nat) (set_of l)
  /\ (length (set_of l) <= hi - lo)%nat.
Proof.
  intros Hall.
  assert (H : Forall (fun i => (lo <= i < hi)%nat) (set_of l)).
  { apply Forall_forall. intros i Hi. apply nodup_In in Hi.
    rewrite Forall_forall in Hall. now apply Hall. }
  split; [exact H|].
  apply NoDup_range_length; [apply NoDup_nodup | exact H].
Qed.

Lemma rolling_mean_nth (w : nat) (s : Series) (idx : nat) (y : float) :
  nth_error (rolling_mean w s) idx = Some y ->
  (idx < length s)%nat /\ ((idx + 1 < w)%nat -> y = NaN).
Proof.
  unfold rolling_mean. intros H. apply nth_error_map_seq in H as [Hlt Hy].
  split; [exact Hlt|]. intros Hw. apply Nat.ltb_lt in Hw.
  now rewrite Hw in Hy.
Qed.

Lemma rolling_corr_nth (w : nat) (a b : Series) (idx : nat) (y : float) :
  nth_error (rolling_corr w a b) idx = Some y ->
  (idx < length a)%nat /\ ((idx + 1 < w)%nat -> y = NaN).
Proof.
  unfold rolling_corr. intros H. apply nth_error_map_seq in H as [Hlt Hy].
  split; [exact Hlt|]. intros Hw. apply Nat.ltb_lt in Hw.
  now rewrite Hw in Hy.
Qed.

Lemma trend_of_column_range (df : DataFrame) (m : metric) :
  Forall (fun i => (14 <= i < len df)%nat) (trend_of_column df m).
Proof.
  unfold trend_of_column. destruct (in_columns m df); cbn [negb]; [|constructor].
  apply Forall_forall. intros idx Hin.
  apply mask_index_In in Hin.
  apply nth_map_true in Hin as [d [Hd Hgt]].
  rewrite nth_error_map in Hd.
  destruct (nth_error (combine _ _) idx) as [[x y]|] eqn:E; [|discriminate].
  simpl in Hd. inversion Hd; subst d. cbn [fst snd] in Hgt.
  apply nth_error_combine in E as [_ Hy].
  apply rolling_mean_nth in Hy as [Hlt Hnan].
  unfold col in Hlt. rewrite length_map in Hlt. fold (len df) in Hlt.
  split; [|exact Hlt].
  destruct (Nat.lt_ge_cases (idx + 1) 15) as [Hsmall|Hbig]; [|lia].
  rewrite (Hnan Hsmall) in Hgt.
  unfold gt in Hgt. rewrite sub_nan_r in Hgt. cbn [abs] in Hgt.
  now rewrite lt_nan_r in Hgt.
Qed.

(** X2. Every position the trend pass lists is a row from the fifteenth on,
    and the count is at most the number of such rows: a frame of fewer than
    15 rows has no trend anomaly, although the pass runs from 10 rows. *)
Theorem trend_positions (df : DataFrame) :
  Forall (fun i => (14 <= i < len df)%nat)
         (Flags.listed (trend_indices (_detect_trend_anomalies df)))
  /\ (trend_count (_detect_trend_anomalies df) <= len df - 14)%nat.
Proof.
  unfold _detect_trend_anomalies, insufficient_trend.
  destruct (len df <? 10)%nat; cbn [trend_indices trend_count Flags.listed];
    [split; [constructor | lia]|].
  apply set_of_range.
  rewrite !Forall_app. repeat split; apply trend_of_column_range.
Qed.

Lemma outside_band_range (w : nat) (a b : Series) :
  Forall (fun i => (w - 1 <= i < length a)%nat)
         (mask_index (outside_band (rolling_corr w a b))).
Proof.
  apply Forall_forall. intros idx Hin.
  apply mask_index_In in Hin. unfold outside_band in Hin.
  apply nth_map_true in Hin as [y [Hy Hout]].
  apply rolling_corr_nth in Hy as [Hlt Hnan].
  split; [|exact Hlt].
  destruct (Nat.lt_ge_cases (idx + 1) w) as [Hsmall|Hbig]; [|lia].
  rewrite (Hnan Hsmall) in Hout. discriminate.
Qed.

(** X3. Every position the correlation-anomaly pass lists has a full
    window behind it (it is at least [w - 1], for the window [w]) and is a
    row of the frame; the count is at most the number of such rows. *)
Theorem correlation_positions (df : DataFrame) :
  Forall (fun i => (window_size df - 1 <= i < len df)%nat)
         (Flags.listed (corr_indices (_detect_correlation_anomalies df)))
  /\ (corr_count (_detect_correlation_anomalies df)
      <= len df - (window_size df - 1))%nat.
Proof.
  unfold _detect_correlation_anomalies, insufficient_correlation.
  destruct (negb _); cbn [corr_indices corr_count Flags.listed];
    [split; [constructor | lia]|].
  destruct (window_size df <? 5)%nat; cbn [corr_indices corr_count Flags.listed];
    [split; [constructor | lia]|].
  apply set_of_range.
  assert (Hlen : length (col df RTWP) = len df)
    by (unfold col, len; apply length_map).
  rewrite Forall_app. rewrite <- Hlen.
  split; apply outside_band_range.
Qed.

(** X4. The severity verdict of a comparison never contradicts the anomaly
    totals: it is improved only when the total strictly decreased and
    degraded only when it strictly increased. *)
Theorem severity_verdict_follows_totals (before_df after_df : DataFrame) :
  let ac :=
    Compare.anomaly_comparison
      (Compare._calculate_comparison_metrics
         before_df after_df
         (detect_anomalies before_df) (detect_anomalies after_df)) in
  match Compare.severity_improvement ac with
  | Compare.improved => (Compare.total_change ac < 0)%Z
  | Compare.degraded => (0 < Compare.total_change ac)%Z
  | Compare.stable => True
  end.
Proof.
  unfold Compare._calculate_comparison_metrics.
  cbn [Compare.anomaly_comparison Compare.severity_improvement
       Compare.total_change].
  unfold detect_anomalies, _generate_anomaly_summary.
  cbn [summary total_anomalies severity].
  set (b := (count _ + _ + _ + _ + _)%nat).
  set (a := (count _ + _ + _ + _ + _)%nat).
  unfold Compare._assess_severity_improvement.
  destruct (50 <? a)%nat eqn:Ha50, (50 <? b)%nat eqn:Hb50;
    try destruct (20 <? a)%nat eqn:Ha20; try destruct (20 <? b)%nat eqn:Hb20;
    cbn; try exact I;
    repeat match goal with
           | H : (_ <? _)%nat = true |- _ => apply Nat.ltb_lt in H
           | H : (_ <? _)%nat = false |- _ => apply Nat.ltb_ge in H
           end; lia.
Qed.

End PassPositions.

(** ** How many positions the statistical test can flag *)

Section StatisticalBound.

Import Anomaly.

Lemma mask_index_from_length (mask : list bool) : forall i,
  length (mask_index_from i mask) = length (filter (fun b => b) mask).
Proof.
  induction mask as [|b mask IH]; intros i; [reflexivity|].
  destruct b; simpl; now rewrite IH.
Qed.

Lemma filter_map_length {A : Type} (f : A -> bool) (l : list A) :
  length (filter (fun b => b) (map f l)) = length (filter f l).
Proof.
  induction l as [|a l IH]; [reflexivity|].
  simpl. destruct (f a); simpl; now rewrite IH.
Qed.

(** The number of statistical flags, counted over the values present. *)
Lemma selected_statistical (k : R) (s : Series) (m sd : R) :
  mean s = Fin m -> std s = Fin sd ->
  Flags.selected (statistical_outliers (Fin k) s)
  = length (filter (fun x => Rltb (k * sd) (Rabs (x - m))) (dropna s)).
Proof.
  intros Hm Hsd. unfold Flags.selected, mask_index, statistical_outliers.
  rewrite mask_index_from_length, filter_map_length, Hm, Hsd.
  clear Hm Hsd. induction s as [|v s IH]; [reflexivity|].
  destruct v as [x|]; cbn [filter dropna].
  - change ((abs (Fin x - Fin m) >? Fin k * Fin sd)%fl)
      with (Rltb (k * sd) (Rabs (x - m))).
    destruct (Rltb (k * sd) (Rabs (x - m)));
      [cbn [length]; f_equal; exact IH | exact IH].
  - change ((abs (NaN - Fin m) >? Fin k * Fin sd)%fl) with false.
    exact IH.
Qed.

Lemma selected_without_std (k : float) (s : Series) :
  std s = NaN -> Flags.selected (statistical_outliers k s) = 0%nat.
Proof.
  intros Hsd. unfold Flags.selected, mask_index, statistical_outliers.
  rewrite mask_index_from_length, filter_map_length, Hsd.
  replace (k * NaN)%fl with NaN by (now destruct k).
  clear Hsd. generalize (mean s) as mu. intros mu.
  induction s as [|v s IH]; [reflexivity|].
  cbn [filter]. unfold gt at 1. rewrite lt_nan_l. exact IH.
Qed.

Lemma squares_above (m t : R) (v : list R) :
  0 <= t ->
  let c := length (filter (fun x => Rltb t (Rabs (x - m))) v) in
  let S := Rsum (map (fun x => (x - m) * (x - m)) v) in
  INR c * (t * t) <= S /\ ((0 < c)%nat -> INR c * (t * t) < S).
Proof.
  intros Ht. cbv zeta. induction v as [|x v [IH1 IH2]].
  - simpl. split; [lra | lia].
  - change (Rsum (map (fun x => (x - m) * (x - m)) (x :: v)))
      with ((x - m) * (x - m) + Rsum (map (fun x => (x - m) * (x - m)) v)).
    cbn [filter].
    assert (Hsq : 0 <= (x - m) * (x - m)) by apply Rle_0_sqr.
    destruct (Rltb t (Rabs (x - m))) eqn:Hflag.
    + apply Rltb_lt in Hflag.
      assert (Hbig : t * t < (x - m) * (x - m)).
      { assert (Habs : Rabs (x - m) * Rabs (x - m) = (x - m) * (x - m)).
        { unfold Rabs. destruct (Rcase_abs (x - m)); ring. }
        rewrite <- Habs. nra. }
      change (length (x :: filter (fun x => Rltb t (Rabs (x - m))) v))
        with (S (length (filter (fun x => Rltb t (Rabs (x - m))) v))).
      rewrite S_INR. split; [nra | intros _; nra].
    + split; [nra|]. intros Hc. specialize (IH2 Hc). nra.
Qed.

Lemma ssd_nonneg (v : list R) : 0 <= ssd v.
Proof.
  unfold ssd. generalize (Rmean v) as m. intros m.
  induction v as [|x v IH]; [simpl; lra|].
  change (Rsum (map (fun y => (y - m) * (y - m)) (x :: v)))
    with ((x - m) * (x - m) + Rsum (map (fun y => (y - m) * (y - m)) v)).
  pose proof (Rle_0_sqr (x - m)) as Hsq. unfold Rsqr in Hsq. lra.
Qed.

Lemma statistical_flags_general (k : R) (s : Series) :
  0 <= k ->
  Flags.selected (statistical_outliers (Fin k) s) = 0%nat
  \/ INR (Flags.selected (statistical_outliers (Fin k) s)) * (k * k)
     < INR (length (dropna s)) - 1.
Proof.
  intros Hk.
  destruct (std s) as [sd|] eqn:Hsd; [|left; now apply selected_without_std].
  assert (Hn : (2 <= length (dropna s))%nat).
  { unfold std in Hsd. destruct (Nat.ltb_spec (length (dropna s)) 2);
      [discriminate | assumption]. }
  assert (Hm : exists m, mean s = Fin m).
  { unfold mean. destruct (dropna s); [simpl in Hn; lia | eauto]. }
  destruct Hm as [m Hm].
  rewrite (selected_statistical k s m sd Hm Hsd).
  set (v := dropna s) in *.
  assert (Hmv : m = Rmean v).
  { unfold mean in Hm. fold v in Hm. destruct v; [discriminate | now inversion Hm]. }
  assert (Hsdv : sd = sqrt (ssd v / (INR (length v) - 1))).
  { unfold std in Hsd. fold v in Hsd.
    destruct (length v <? 2)%nat; [discriminate | now inversion Hsd]. }
  assert (HN : 0 < INR (length v) - 1).
  { apply le_INR in Hn. simpl in Hn. lra. }
  pose proof (ssd_nonneg v) as Hssd.
  assert (Hvar : 0 <= ssd v / (INR (length v) - 1)).
  { unfold Rdiv. apply Rmult_le_pos; [assumption|].
    left. now apply Rinv_0_lt_compat. }
  assert (Hsd0 : 0 <= sd) by (rewrite Hsdv; apply sqrt_pos).
  assert (Hsd2 : sd * sd = ssd v / (INR (length v) - 1))
    by (rewrite Hsdv; now apply sqrt_sqrt).
  assert (Ht : 0 <= k * sd) by now apply Rmult_le_pos.
  destruct (squares_above m (k * sd) v Ht) as [_ Hstrict].
  set (c := length (filter (fun x => Rltb (k * sd) (Rabs (x - m))) v)) in *.
  destruct c as [|c'] eqn:Hc; [now left | right].
  assert (Hpos : (0 < S c')%nat) by lia.
  specialize (Hstrict Hpos).
  replace (Rsum (map (fun x => (x - m) * (x - m)) v)) with (ssd v) in Hstrict
    by (unfold ssd; now rewrite <- Hmv).
  set (C := INR (S c')) in *.
  set (N := INR (length v) - 1) in *.
  assert (HC : 0 <= C) by apply pos_INR.
  assert (Hk2 : 0 <= k * k) by nra.
  replace (k * sd * (k * sd)) with (k * k * (sd * sd)) in Hstrict by ring.
  rewrite Hsd2 in Hstrict.
  assert (Heq : ssd v = ssd v / N * N) by (field; lra).
  assert (Hq : 0 <= ssd v / N) by exact Hvar.
  destruct (Rlt_le_dec (C * (k * k)) N) as [Hlt|Hge]; [exact Hlt|].
  exfalso.
  assert (C * (k * k * (ssd v / N)) >= ssd v / N * N) by nra.
  lra.
Qed.

(** X5. The statistical test of a detector flags fewer than
    (n - 1) / multiplier^2 of the n values present: fewer than (n - 1) / 6.25
    for RTWP and fewer than (n - 1) / 4 for SINR and PRB.  A column of at
    most 7 values has no statistical RTWP flag. *)
Theorem statistical_flags_bounded (s : Series) :
  let n := INR (length (dropna s)) in
  let rtwp := Flags.selected (statistical_outliers rtwp_std_multiplier s) in
  let sinr := Flags.selected (statistical_outliers sinr_std_multiplier s) in
  let prb := Flags.selected (statistical_outliers prb_std_multiplier s) in
  (rtwp = 0%nat \/ INR rtwp * 6.25 < n - 1)
  /\ (sinr = 0%nat \/ INR sinr * 4 < n - 1)
  /\ (prb = 0%nat \/ INR prb * 4 < n - 1)
  /\ ((length (dropna s) <= 7)%nat -> rtwp = 0%nat).
Proof.
  cbv zeta.
  assert (H25 : 0 <= 2.5) by lra. assert (H2 : 0 <= 2) by lra.
  pose proof (statistical_flags_general 2.5 s H25) as Hr.
  pose proof (statistical_flags_general 2 s H2) as Hs.
  replace (2.5 * 2.5) with 6.25 in Hr by lra.
  replace (2 * 2) with 4 in Hs by lra.
  repeat split; try assumption.
  intros Hlen. destruct Hr as [Hr|Hr]; [exact Hr|].
  unfold rtwp_std_multiplier.
  destruct (Flags.selected (statistical_outliers (Fin 2.5) s)) as [|c];
    [reflexivity | exfalso].
  apply le_INR in Hlen. rewrite S_INR in Hr.
  pose proof (pos_INR c). simpl in Hlen. lra.
Qed.

(** The six RTWP values of the spike scenario: none is a statistical
    outlier. *)
Lemma statistical_flags_bounded_witness :
  Flags.selected
    (statistical_outliers rtwp_std_multiplier (col Scenario.rtwp_spike RTWP))
  = 0%nat.
Proof.
  apply (statistical_flags_bounded (col Scenario.rtwp_spike RTWP)).
  vm_compute. lia.
Defined.

End StatisticalBound.

(** ** Verdicts of single metrics *)

Section MetricVerdicts.

Import Compare.

(** X6. A metric whose before-mean is exactly 0 is judged stable whatever
    its after-mean is: the guard against a zero divisor sets the percent
    change to 0. *)
Theorem zero_before_mean_stable (m : metric) (after_value : float) :
  _assess_kpi_improvement m (Fin 0) after_value = stable.
Proof.
  unfold _assess_kpi_improvement, change_percent, ne, eq.
  rewrite (Reqb_true 0 0 eq_refl). cbn [negb lt].
  now rewrite Rltb_true by lra.
Qed.



(** X8. For PRB a change of at least 5 percent is improved as soon as the
    after-mean lies in [40, 80], also when the before-mean lay there too;
    it is degraded when only the before-mean lies there. *)
Theorem prb_band_verdicts (b a : R) :
  b <> 0 -> 5 <= Rabs ((a - b) / b * 100) ->
  (40 <= a <= 80 -> _assess_kpi_improvement PRB (Fin b) (Fin a) = improved)
  /\ (~ (40 <= a <= 80) -> 40 <= b <= 80 ->
      _assess_kpi_improvement PRB (Fin b) (Fin a) = degraded).
Proof.
  intros Hb Hp. unfold _assess_kpi_improvement.
  rewrite (change_percent_finite b a Hb). cbn [lt le].
  rewrite (Rltb_false _ 5 Hp).
  split.
  - intros [H1 H2]. now rewrite (Rleb_true 40 a H1), (Rleb_true a 80 H2).
  - intros Ha [H1 H2].
    rewrite (Rleb_true 40 b H1), (Rleb_true b 80 H2).
    destruct (Rleb 40 a) eqn:E1; [|reflexivity].
    destruct (Rleb a 80) eqn:E2; [|reflexivity].
    apply Rleb_spec in E1, E2. exfalso. apply Ha. now split.
Qed.

(** A PRB mean that moves from 50 to 70, inside the band both times, is
    improved. *)
Lemma prb_band_verdicts_witness :
  _assess_kpi_improvement PRB (Fin 50) (Fin 70) = improved.
Proof.
  assert (Hb : 50 <> 0) by lra.
  assert (Hp : 5 <= Rabs ((70 - 50) / 50 * 100)).
  { replace ((70 - 50) / 50 * 100) with 40 by lra. real_order. }
  destruct (prb_band_verdicts 50 70 Hb Hp) as [Hin _].
  apply Hin. lra.
Defined.

(** X9. When the before-mean is NaN, as for a column without a value,
    RTWP and SINR are judged degraded whatever the after-mean is, and PRB
    is stable when the after-mean is NaN too. *)
Theorem nan_before_mean_verdicts (after_value : float) :
  _assess_kpi_improvement RTWP NaN after_value = degraded
  /\ _assess_kpi_improvement SINR NaN after_value = degraded
  /\ _assess_kpi_improvement PRB NaN NaN = stable.
Proof.
  unfold _assess_kpi_improvement, change_percent, ne, eq.
  cbn [negb]. rewrite sub_nan_r. cbn [div mul lift2 abs lt gt].
  rewrite lt_nan_r. repeat split; reflexivity.
Qed.

End MetricVerdicts.

(** ** The summary of a comparison *)

Section ComparisonSummaries.

Import Compare.





End ComparisonSummaries.

(** ** Deviation from a baseline *)

Section BaselineDeviation.

Import Baseline.

Lemma Rleb_gt (x y : R) : Rleb x y = false -> y < x.
Proof. unfold Rleb. destruct (Rle_dec x y); [discriminate | lra]. Qed.

Lemma filter_length_le {A : Type} (f : A -> bool) (l : list A) :
  (length (filter f l) <= length l)%nat.
Proof.
  induction l as [|a l IH]; simpl; [lia|].
  destruct (f a); simpl; lia.
Qed.

(** X11. The performance score against a baseline lies in [0, 100], and is
    100 without any deviation.  The overall status is excellent only from a
    score of 80 with low severity, good only from 60 with a severity that
    is not high, fair only from 40, and poor only below 40. *)
Theorem baseline_performance_range (deviations : list (metric * Deviation))
        (current_anomalies : Anomaly.Results) :
  let p := _assess_baseline_performance deviations current_anomalies in
  0 <= performance_score p <= 100
  /\ performance_score (_assess_baseline_performance [] current_anomalies) = 100
  /\ match overall_status p with
     | excellent =>
         80 <= performance_score p /\ anomaly_severity p = Anomaly.low
     | good =>
         60 <= performance_score p /\ anomaly_severity p <> Anomaly.high
     | fair => 40 <= performance_score p
     | poor => performance_score p < 40
     end.
Proof.
  cbv zeta. unfold _assess_baseline_performance.
  cbn [performance_score overall_status anomaly_severity].
  change (if (0 <? length (@nil (metric * Deviation)))%nat
          then INR (length (filter (fun e => acceptable (snd e)) []))
               / INR (length (@nil (metric * Deviation))) * 100
          else 100) with 100.
  set (total := length deviations).
  set (ok := length (filter (fun e => acceptable (snd e)) deviations)).
  assert (Hle : (ok <= total)%nat) by apply filter_length_le.
  set (score := if (0 <? total)%nat then INR ok / INR total * 100 else 100).
  assert (Hscore : 0 <= score <= 100).
  { unfold score. destruct (Nat.ltb_spec 0 total) as [Hpos|_]; [|lra].
    assert (Ht : 0 < INR total) by now apply lt_0_INR.
    assert (Hok : 0 <= INR ok) by apply pos_INR.
    assert (Hq : INR ok <= INR total) by now apply le_INR.
    assert (H0 : 0 <= INR ok / INR total).
    { unfold Rdiv. apply Rmult_le_pos; [assumption|].
      left. now apply Rinv_0_lt_compat. }
    assert (H1 : INR ok / INR total <= 1).
    { apply Rmult_le_reg_r with (INR total); [assumption|].
      unfold Rdiv. rewrite Rmult_assoc, Rinv_l by lra. lra. }
    lra. }
  split; [exact Hscore|]. split; [reflexivity|].
  set (sev := Anomaly.severity (Anomaly.summary current_anomalies)).
  destruct (Rleb 80 score) eqn:H80, (Rleb 60 score) eqn:H60,
    (Rleb 40 score) eqn:H40, sev eqn:Hsev;
    cbn [andb]; cbv iota;
    repeat match goal with
           | H : Rleb _ _ = true |- _ => apply Rleb_spec in H
           | H : Rleb _ _ = false |- _ => apply Rleb_gt in H
           end;
    repeat split; try lra; try discriminate.
Qed.

Lemma deviation_of_equal (m : metric) (x : R) :
  status (deviation_entry m (Fin x) (Fin x)) = within_normal_range.
Proof.
  unfold deviation_entry, _assess_deviation_status, ne, eq. cbn [status].
  destruct (Req_dec_T x 0) as [->|Hx].
  - rewrite (Reqb_true 0 0 eq_refl). cbn [negb abs lt].
    rewrite Rabs_R0. now rewrite Rltb_true by lra.
  - rewrite (Reqb_false x 0 Hx). cbn [negb sub div mul lift2 abs lt].
    replace ((x - x) / x * 100) with 0 by (unfold Rdiv; ring).
    rewrite Rabs_R0. now rewrite Rltb_true by lra.
Qed.

(** X12. Current means equal to the baseline means, all of them numbers:
    every deviation is within the normal range and the performance score is
    100. *)
Theorem equal_to_baseline (metrics : Metrics)
        (current_anomalies : Anomaly.Results) :
  (forall m v, metrics m = Some v -> v <> NaN) ->
  let deviations := _calculate_baseline_deviations metrics metrics in
  Forall (fun e => status (snd e) = within_normal_range) deviations
  /\ performance_score (_assess_baseline_performance deviations current_anomalies)
     = 100.
Proof.
  intros Hnum. cbv zeta.
  assert (Hall : Forall (fun e => status (snd e) = within_normal_range)
                        (_calculate_baseline_deviations metrics metrics)).
  { unfold _calculate_baseline_deviations.
    apply Forall_forall. intros [m d] Hin.
    apply in_flat_map in Hin as [m' [_ Hin]].
    destruct (metrics m') as [v|] eqn:Hv; [|contradiction].
    destruct Hin as [Heq|[]]. inversion Heq; subst. cbn [snd].
    destruct v as [x|]; [apply deviation_of_equal|].
    exfalso. eapply Hnum; [exact Hv | reflexivity]. }
  split; [exact Hall|].
  unfold _assess_baseline_performance. cbn [performance_score].
  set (devs := _calculate_baseline_deviations metrics metrics) in *.
  assert (Hok : filter (fun e => acceptable (snd e)) devs = devs).
  { clearbody devs. induction Hall as [|e l He _ IH]; [reflexivity|].
    cbn [filter]. unfold acceptable at 1. rewrite He. now rewrite IH. }
  rewrite Hok.
  destruct (Nat.ltb_spec 0 (length devs)) as [Hpos|_]; [|reflexivity].
  assert (Ht : 0 < INR (length devs)) by now apply lt_0_INR.
  field. lra.
Qed.

Lemma equal_to_baseline_witness :
  performance_score
    (_assess_baseline_performance
       (_calculate_baseline_deviations default_baseline default_baseline)
       (Anomaly.detect_anomalies Scenario.six_samples))
  = 100.
Proof.
  apply (equal_to_baseline default_baseline).
  intros m v. destruct m; intros H; inversion H; discriminate.
Defined.

(** X13. A baseline value of exactly 0 puts the metric within the normal
    range whatever the current value is, NaN included: the guard against a
    zero divisor sets the percent deviation to 0. *)
Theorem zero_baseline_within_range (m : metric) (current_val : float) :
  deviation_percent (deviation_entry m (Fin 0) current_val) = Fin 0
  /\ status (deviation_entry m (Fin 0) current_val) = within_normal_range.
Proof.
  unfold deviation_entry, _assess_deviation_status, ne, eq.
  cbn [deviation_percent status].
  rewrite (Reqb_true 0 0 eq_refl). cbn [negb abs lt].
  rewrite Rabs_R0. now rewrite Rltb_true by lra.
Qed.



End BaselineDeviation.

(** ** The confidence score *)

Section Confidence.

Import PrimFloat.

(** X15. On binary64 floats the confidence score lies between 0.5 and
    0.9500000000000001 for every record count and severity, missing keys
    included, so the final clamp to [0, 1] never changes it; with more than
    1000 records and low severity it is 0.8 + 0.1 + 0.05, which rounds to
    0.9500000000000001, above 0.95. *)
#[warnings="-inexact-float"] Theorem confidence_score_range
        (total_records : option nat)
        (anomaly_severity : option Anomaly.severity_level) :
  let c := AISummary._calculate_confidence_score total_records anomaly_severity in
  (0.5 <=? c)%float = true
  /\ (c <=? 0.9500000000000001)%float = true
  /\ AISummary._calculate_confidence_score (Some 1001%nat) (Some Anomaly.low)
     = 0.9500000000000001%float
  /\ (0.95 <? 0.9500000000000001)%float = true.
Proof.
  cbv zeta. unfold AISummary._calculate_confidence_score.
  set (n := match total_records with Some n => n | None => 0%nat end).
  set (sev := match anomaly_severity with
              | Some s => s
              | None => Anomaly.low
              end).
  destruct (1000 <? n)%nat, (n <? 100)%nat, sev;
    repeat split; vm_compute; reflexivity.
Qed.

End Confidence.

(** ** The pairwise coefficients *)

Section Coefficients.

Import Correlation.

Lemma cauchy_schwarz (mx my : R) (p : list (R * R)) :
  let A := Rsum (map (fun q => (fst q - mx) * (fst q - mx)) p) in
  let B := Rsum (map (fun q => (snd q - my) * (snd q - my)) p) in
  let C := Rsum (map (fun q => (fst q - mx) * (snd q - my)) p) in
  C * C <= A * B /\ 0 <= A /\ 0 <= B.
Proof.
  cbv zeta. induction p as [|q p [IH [HA HB]]].
  - simpl. lra.
  - set (a := fst q - mx). set (b := snd q - my).
    change (Rsum (map (fun q => (fst q - mx) * (fst q - mx)) (q :: p)))
      with (a * a + Rsum (map (fun q => (fst q - mx) * (fst q - mx)) p)).
    change (Rsum (map (fun q => (snd q - my) * (snd q - my)) (q :: p)))
      with (b * b + Rsum (map (fun q => (snd q - my) * (snd q - my)) p)).
    change (Rsum (map (fun q => (fst q - mx) * (snd q - my)) (q :: p)))
      with (a * b + Rsum (map (fun q => (fst q - mx) * (snd q - my)) p)).
    set (A := Rsum (map (fun q => (fst q - mx) * (fst q - mx)) p)) in *.
    set (B := Rsum (map (fun q => (snd q - my) * (snd q - my)) p)) in *.
    set (C := Rsum (map (fun q => (fst q - mx) * (snd q - my)) p)) in *.
    pose proof (Rle_0_sqr a) as Ha. pose proof (Rle_0_sqr b) as Hb.
    unfold Rsqr in Ha, Hb.
    set (X := a * a * B + b * b * A).
    set (Y := 2 * (a * b) * C).
    assert (HX : 0 <= X).
    { unfold X. apply Rplus_le_le_0_compat; now apply Rmult_le_pos. }
    assert (Hsq : 0 <= (a * a * B - b * b * A) * (a * a * B - b * b * A))
      by apply Rle_0_sqr.
    assert (Hab : 0 <= (a * b) * (a * b)) by apply Rle_0_sqr.
    assert (Hgap : 0 <= (a * b) * (a * b) * (A * B - C * C))
      by (apply Rmult_le_pos; lra).
    assert (HXY : Y * Y <= X * X).
    { replace (X * X - Y * Y)
        with ((a * a * B - b * b * A) * (a * a * B - b * b * A)
              + 4 * ((a * b) * (a * b) * (A * B - C * C)))
        in * by (unfold X, Y; ring).
      assert (Hid : X * X - Y * Y
                    = (a * a * B - b * b * A) * (a * a * B - b * b * A)
                      + 4 * ((a * b) * (a * b) * (A * B - C * C)))
        by (unfold X, Y; ring).
      lra. }
    assert (HY : Y <= X).
    { destruct (Rle_lt_dec Y X) as [H|H]; [exact H|].
      exfalso. assert (X * X < Y * Y) by nra. lra. }
    repeat split; [|lra|lra].
    replace ((a * b + C) * (a * b + C))
      with ((a * b) * (a * b) + Y + C * C) by (unfold Y; ring).
    replace ((a * a + A) * (b * b + B))
      with ((a * b) * (a * b) + X + A * B) by (unfold X; ring).
    lra.
Qed.

(** Pearson's coefficient is a number of [-1, 1] whenever it is one. *)
Lemma corr_range (a b : Series) (r : R) :
  corr a b = Fin r -> -1 <= r <= 1.
Proof.
  unfold corr.
  destruct (length (valid_pairs a b) <? 2)%nat; [discriminate|].
  set (p := valid_pairs a b).
  set (d := ssd (map fst p) * ssd (map snd p)).
  destruct (Req_dec_T d 0) as [Hd|Hd].
  { rewrite (Reqb_true d 0 Hd). discriminate. }
  rewrite (Reqb_false d 0 Hd). intros H. inversion H. clear H.
  destruct (cauchy_schwarz (Rmean (map fst p)) (Rmean (map snd p)) p)
    as [Hcs [HA HB]].
  assert (HdA : ssd (map fst p)
                = Rsum (map (fun q => (fst q - Rmean (map fst p))
                                      * (fst q - Rmean (map fst p))) p))
    by (unfold ssd; now rewrite map_map).
  assert (HdB : ssd (map snd p)
                = Rsum (map (fun q => (snd q - Rmean (map snd p))
                                      * (snd q - Rmean (map snd p))) p))
    by (unfold ssd; now rewrite map_map).
  change (Rsum (map (fun q => (fst q - Rmean (map fst p))
                               * (snd q - Rmean (map snd p))) p))
    with (sxy p) in Hcs.
  rewrite <- HdA in Hcs, HA. rewrite <- HdB in Hcs, HB. fold d in Hcs.
  assert (Hdpos : 0 < d).
  { assert (0 <= d) by (unfold d; now apply Rmult_le_pos). lra. }
  assert (Hs : 0 < sqrt d) by now apply sqrt_lt_R0.
  assert (Hss : sqrt d * sqrt d = d) by (apply sqrt_sqrt; lra).
  assert (Hbound : - sqrt d <= sxy p <= sqrt d) by (split; nra).
  split.
  - apply Rmult_le_reg_r with (sqrt d); [exact Hs|].
    unfold Rdiv. rewrite Rmult_assoc, Rinv_l by lra. lra.
  - apply Rmult_le_reg_r with (sqrt d); [exact Hs|].
    unfold Rdiv. rewrite Rmult_assoc, Rinv_l by lra. lra.
Qed.

(** X16. Every coefficient the pairwise analysis reports is a number of
    [-1, 1]; a coefficient that could not be computed is reported as 0 with
    the strength no_correlation. *)
Theorem pairwise_correlation_range (scipy : option exact_test) (df : DataFrame) :
  Forall
    (fun ce =>
       exists r,
         correlation (snd ce) = Fin r /\ -1 <= r <= 1
         /\ (corr (col df (fst (fst ce))) (col df (snd (fst ce))) = NaN ->
             r = 0 /\ pair_strength (snd ce) = no_correlation))
    (_calculate_pairwise_correlations scipy df).
Proof.
  unfold _calculate_pairwise_correlations.
  apply Forall_forall. intros [c e] Hin.
  apply in_map_iff in Hin as [c' [Heq _]]. inversion Heq; subst. clear Heq.
  cbn [fst snd]. unfold pair_entry. cbn [correlation pair_strength].
  destruct (corr (col df (fst c)) (col df (snd c))) as [r|] eqn:Hc.
  - exists r. cbn [is_nan negb]. repeat split.
    + now apply (corr_range _ _ r Hc).
    + now apply (corr_range _ _ r Hc).
    + discriminate.
    + discriminate.
  - exists 0. cbn [is_nan negb]. repeat split; lra.
Qed.

(** X17. Without scipy no pair is ever reported significant, whatever the
    data. *)
Theorem approximation_never_significant (df : DataFrame) :
  Forall (fun ce => significance (snd ce) = not_significant)
         (_calculate_pairwise_correlations None df).
Proof.
  unfold _calculate_pairwise_correlations.
  apply Forall_forall. intros [c e] Hin.
  apply in_map_iff in Hin as [c' [Heq _]]. inversion Heq; subst.
  cbn [snd]. unfold pair_entry, pair_p_value. cbn [significance].
  destruct (abs _ >? Fin 0.3)%fl; cbn [lt]; now rewrite Rltb_false by lra.
Qed.

End Coefficients.

(** ** The best lag *)

Section BestLag.

Import Correlation.

Lemma collect_lags_numbers (df : DataFrame) (lags : list Z) :
  Forall (fun lc => exists c, snd lc = Fin c) (collect_lags df lags).
Proof.
  induction lags as [|lag lags IH]; [constructor|].
  simpl. destruct (lag =? 0)%Z; [exact IH|].
  destruct (lag_corr df lag) as [c|] eqn:Hc; cbn [is_nan negb]; [|exact IH].
  constructor; [now exists c | exact IH].
Qed.

Lemma max_by_abs_largest (l : list (Z * float)) : forall best mb,
  snd best = Fin mb ->
  Forall (fun lc => exists c, snd lc = Fin c) l ->
  exists mc,
    snd (max_by_abs best l) = Fin mc
    /\ In (max_by_abs best l) (best :: l)
    /\ Rabs mb <= Rabs mc
    /\ Forall (fun lc => exists c, snd lc = Fin c /\ Rabs c <= Rabs mc) l.
Proof.
  induction l as [|e l IH]; intros best mb Hb Hall.
  - exists mb. simpl. repeat split; [assumption | now left | lra | constructor].
  - inversion Hall as [|? ? [c Hc] Hrest]; subst.
    simpl. rewrite Hc, Hb. cbn [abs gt lt].
    destruct (Rltb (Rabs mb) (Rabs c)) eqn:Hcmp.
    + apply Rltb_lt in Hcmp.
      destruct (IH e c Hc Hrest) as [mc [Hmc [Hin [Hle Hfor]]]].
      exists mc. repeat split; [assumption | | lra |].
      * destruct Hin as [Hin|Hin]; [right; now left | right; now right].
      * constructor; [exists c; now split | assumption].
    + assert (Hle' : Rabs c <= Rabs mb).
      { unfold Rltb in Hcmp. destruct (Rlt_dec (Rabs mb) (Rabs c));
          [discriminate | lra]. }
      destruct (IH best mb Hb Hrest) as [mc [Hmc [Hin [Hle Hfor]]]].
      exists mc. repeat split; [assumption | | assumption |].
      * destruct Hin as [Hin|Hin]; [now left | right; now right].
      * constructor; [exists c; split; [assumption | lra] | assumption].
Qed.

(** X18. When the cross-correlation has an entry, its best lag is one of the
    recorded lags, [max_correlation] is the coefficient recorded for it, and
    no recorded coefficient is larger in absolute value. *)
Theorem best_lag_is_largest (df : DataFrame) :
  match _calculate_cross_correlations df with
  | None => True
  | Some e =>
      In (best_lag e, max_correlation e) (lags e)
      /\ exists mc,
           max_correlation e = Fin mc
           /\ Forall (fun lc => exists c, snd lc = Fin c /\ Rabs c <= Rabs mc)
                     (lags e)
  end.
Proof.
  unfold _calculate_cross_correlations.
  destruct (has_RTWP df && has_SINR df); [|exact I].
  pose proof (collect_lags_numbers df (lag_range (max_lag df))) as Hall.
  fold (rtwp_sinr_lags df) in Hall.
  destruct (rtwp_sinr_lags df) as [|first rest]; [exact I|].
  inversion Hall as [|? ? [c0 Hc0] Hrest]; subst.
  destruct (max_by_abs_largest rest first c0 Hc0 Hrest)
    as [mc [Hmc [Hin [Hle Hfor]]]].
  cbn [lags best_lag max_correlation]. split.
  - now rewrite <- surjective_pairing.
  - exists mc. split; [assumption|].
    constructor; [exists c0; now split | assumption].
Qed.

(** X19. A frame of fewer than 4 rows has no lag to try, and the
    cross-correlation result is the empty dictionary. *)
Theorem cross_correlation_needs_four_rows (df : DataFrame) :
  (len df < 4)%nat -> _calculate_cross_correlations df = None.
Proof.
  intros Hlen. unfold _calculate_cross_correlations, rtwp_sinr_lags, max_lag.
  rewrite (Nat.div_small (len df) 4 Hlen).
  destruct (has_RTWP df && has_SINR df); reflexivity.
Qed.

Lemma cross_correlation_needs_four_rows_witness :
  _calculate_cross_correlations Inputs.three_rows = None.
Proof.
  apply cross_correlation_needs_four_rows. vm_compute. lia.
Defined.

End BestLag.

(** ** Rolling analyses *)

Section RollingAnalyses.

Import Correlation.

(** X20. The three rolling analyses run exactly from 20 rows on: with fewer
    rows the stability analysis and the rolling-correlation summary return
    the error dictionary and the correlation-anomaly detector its
    insufficient-data report; from 20 rows on the first two return
    entries. *)
Theorem rolling_needs_twenty_rows (df : DataFrame) :
  (_analyze_correlation_stability df = None <-> (len df < 20)%nat)
  /\ (Rolling._calculate_rolling_correlations df = None <-> (len df < 20)%nat)
  /\ ((len df < 20)%nat ->
      Anomaly._detect_correlation_anomalies df = Anomaly.insufficient_correlation).
Proof.
  unfold _analyze_correlation_stability, Rolling._calculate_rolling_correlations,
    Anomaly._detect_correlation_anomalies, window_size, Anomaly.window_size.
  rewrite !window_below_five.
  destruct (Nat.ltb_spec (len df) 20) as [Hn|Hn].
  - repeat split; auto. intros _. now destruct (negb _).
  - repeat split; try discriminate; intros; lia.
Qed.

Lemma rolling_needs_twenty_rows_witness :
  _analyze_correlation_stability Scenario.six_samples = None
  /\ Anomaly._detect_correlation_anomalies Scenario.six_samples
     = Anomaly.insufficient_correlation.
Proof.
  destruct (rolling_needs_twenty_rows Scenario.six_samples) as [Hs [_ Ha]].
  split.
  - apply Hs. vm_compute. lia.
  - apply Ha. vm_compute. lia.
Defined.

Lemma fold_Rmin_spec (t : list R) : forall x,
  In (fold_left Rmin t x) (x :: t)
  /\ Forall (fun y => fold_left Rmin t x <= y) (x :: t).
Proof.
  induction t as [|h t IH]; intros x.
  - simpl. split; [now left | constructor; [lra | constructor]].
  - cbn [fold_left]. destruct (IH (Rmin x h)) as [Hin Hall].
    inversion Hall as [|? ? Hhd Htl]; subst.
    pose proof (Rmin_l x h). pose proof (Rmin_r x h).
    split.
    + destruct Hin as [Hin|Hin]; [|right; now right].
      rewrite <- Hin. unfold Rmin.
      destruct (Rle_dec x h); [now left | right; now left].
    + constructor; [lra|]. constructor; [lra | exact Htl].
Qed.

Lemma fold_Rmax_spec (t : list R) : forall x,
  In (fold_left Rmax t x) (x :: t)
  /\ Forall (fun y => y <= fold_left Rmax t x) (x :: t).
Proof.
  induction t as [|h t IH]; intros x.
  - simpl. split; [now left | constructor; [lra | constructor]].
  - cbn [fold_left]. destruct (IH (Rmax x h)) as [Hin Hall].
    inversion Hall as [|? ? Hhd Htl]; subst.
    pose proof (Rmax_l x h). pose proof (Rmax_r x h).
    split.
    + destruct Hin as [Hin|Hin]; [|right; now right].
      rewrite <- Hin. unfold Rmax.
      destruct (Rle_dec x h); [right; now left | now left].
    + constructor; [lra|]. constructor; [lra | exact Htl].
Qed.

Lemma Rmean_between (lo hi : R) (v : list R) :
  v <> [] -> Forall (fun y => lo <= y <= hi) v -> lo <= Rmean v <= hi.
Proof.
  intros Hne Hall.
  assert (Hsum : INR (length v) * lo <= Rsum v <= INR (length v) * hi).
  { clear Hne. induction Hall as [|y v Hy _ IH].
    - simpl. lra.
    - change (Rsum (y :: v)) with (y + Rsum v).
      change (length (y :: v)) with (S (length v)). rewrite S_INR. lra. }
  assert (Hn : 0 < INR (length v)).
  { apply lt_0_INR. destruct v; [contradiction | simpl; lia]. }
  unfold Rmean. split.
  - apply Rmult_le_reg_r with (INR (length v)); [exact Hn|].
    unfold Rdiv. rewrite Rmult_assoc, Rinv_l by lra. lra.
  - apply Rmult_le_reg_r with (INR (length v)); [exact Hn|].
    unfold Rdiv. rewrite Rmult_assoc, Rinv_l by lra. lra.
Qed.

Lemma dropna_In (s : Series) (x : R) : In x (dropna s) <-> In (Fin x) s.
Proof.
  induction s as [|v s IH]; [tauto|].
  destruct v as [y|]; simpl; rewrite IH; split.
  - intros [->|H]; [now left | now right].
  - intros [H|H]; [inversion H; now left | now right].
  - intros H. now right.
  - intros [H|H]; [discriminate | assumption].
Qed.

Lemma rolling_corr_values (w : nat) (a b : Series) :
  Forall (fun y => -1 <= y <= 1) (dropna (rolling_corr w a b)).
Proof.
  apply Forall_forall. intros y Hy. apply dropna_In in Hy.
  unfold rolling_corr in Hy. apply in_map_iff in Hy as [i [Hi _]].
  destruct (i + 1 <? w)%nat; [discriminate|].
  destruct (_ =? _)%nat; [|discriminate].
  now apply corr_range in Hi.
Qed.

(** X21. In every entry of the rolling-correlation summary the minimum, the
    mean and the maximum are either all NaN (no full window gave a
    coefficient) or numbers with -1 <= min <= mean <= max <= 1. *)
Theorem rolling_summary_ordered (df : DataFrame) :
  Forall
    (fun ce =>
       match Rolling.rolling_min (snd ce),
             Rolling.rolling_mean_value (snd ce),
             Rolling.rolling_max (snd ce) with
       | Fin lo, Fin mu, Fin hi => -1 <= lo /\ lo <= mu /\ mu <= hi /\ hi <= 1
       | NaN, NaN, NaN => True
       | _, _, _ => False
       end)
    (Inputs.entries (Rolling._calculate_rolling_correlations df)).
Proof.
  assert (Hentry : forall w a b,
             match Rolling.rolling_min (Rolling.rolling_entry (rolling_corr w a b)),
                   Rolling.rolling_mean_value
                     (Rolling.rolling_entry (rolling_corr w a b)),
                   Rolling.rolling_max (Rolling.rolling_entry (rolling_corr w a b))
             with
             | Fin lo, Fin mu, Fin hi =>
                 -1 <= lo /\ lo <= mu /\ mu <= hi /\ hi <= 1
             | NaN, NaN, NaN => True
             | _, _, _ => False
             end).
  { intros w a b. pose proof (rolling_corr_values w a b) as Hval.
    unfold Rolling.rolling_entry.
    cbn [Rolling.rolling_min Rolling.rolling_mean_value Rolling.rolling_max].
    destruct (rolling_corr w a b) as [|v s] eqn:Hs.
    - cbn [Rolling.is_empty negb]. repeat split; lra.
    - cbn [Rolling.is_empty negb]. rewrite <- Hs in *. clear Hs.
      unfold Rolling.smin, Rolling.smax, mean.
      destruct (dropna (rolling_corr w a b)) as [|x t] eqn:Hd; [exact I|].
      destruct (fold_Rmin_spec t x) as [Hmin_in Hmin].
      destruct (fold_Rmax_spec t x) as [Hmax_in Hmax].
      rewrite Forall_forall in Hval.
      pose proof (Hval _ Hmin_in) as Hlo. pose proof (Hval _ Hmax_in) as Hhi.
      assert (Hbetween : fold_left Rmin t x <= Rmean (x :: t)
                         <= fold_left Rmax t x).
      { apply Rmean_between; [discriminate|].
        rewrite Forall_forall in Hmin, Hmax.
        apply Forall_forall. intros y Hy. split; [now apply Hmin | now apply Hmax]. }
      lra. }
  unfold Rolling._calculate_rolling_correlations.
  destruct (_ <? 5)%nat; cbn [Inputs.entries]; [constructor|].
  rewrite !Forall_app. repeat split;
    match goal with
    | |- Forall _ (if ?c then _ else _) =>
        destruct c; constructor; [apply Hentry | constructor]
    end.
Qed.

(** A series with two values 0.5 and 0.7. *)
Lemma stability_score_bounds_witness :
  exists x,
    _calculate_correlation_stability Inputs.short_rolling = Fin x
    /\ 0 <= x <= 1.
Proof.
  assert (Hlen : (2 <= length (dropna Inputs.short_rolling))%nat)
    by (simpl; lia).
  destruct (stability_score_bounds Inputs.short_rolling Hlen)
    as [sd [m [_ [_ [_ Hx]]]]].
  exact Hx.
Defined.

End RollingAnalyses.

(** ** What the cleaning step keeps *)

Section Cleaning.

Import Parser.

Lemma raw_cell_set_cell_other (m m' : metric) (c : Cell) (r : RawRow) :
  m <> m' -> raw_cell m (set_cell m' c r) = raw_cell m r.
Proof. destruct m, m'; intros H; try reflexivity; contradiction. Qed.

Lemma raw_cell_set_cell_same (m : metric) (c : Cell) (r : RawRow) :
  raw_cell m (set_cell m c r) = c.
Proof. now destruct m. Qed.

Lemma numeric_cells (cells : list Cell) (s : Series) :
  numeric cells = Some s -> cells = map Num s.
Proof.
  revert s. induction cells as [|c cells IH]; intros s H; simpl in H.
  - now inversion H.
  - destruct c as [v|]; [|discriminate].
    destruct (numeric cells) as [s'|]; [|discriminate].
    inversion H. simpl. now rewrite (IH s' eq_refl).
Qed.

Lemma insert_sorted_length (x : R) (l : list R) :
  length (insert_sorted x l) = S (length l).
Proof.
  induction l as [|y l IH]; [reflexivity|].
  simpl. destruct (Rle_dec x y); simpl; now rewrite ?IH.
Qed.

Lemma sort_values_length (l : list R) : length (sort_values l) = length l.
Proof.
  induction l as [|x l IH]; [reflexivity|].
  simpl. now rewrite insert_sorted_length, IH.
Qed.

Lemma median_nan (s : Series) : median s = NaN -> dropna s = [].
Proof.
  unfold median. rewrite sort_values_length.
  destruct (dropna s) as [|x v]; [reflexivity|].
  cbn [length Nat.eqb]. destruct (Nat.even _); discriminate.
Qed.

Lemma dropna_nil (s : Series) : dropna s = [] -> Forall (fun v => v = NaN) s.
Proof.
  induction s as [|v s IH]; [constructor|].
  destruct v; [discriminate|]. simpl. intros H. constructor; auto.
Qed.

Lemma fillna_uniform (s : Series) :
  Forall (fun v => exists x, v = Fin x) (fillna (median s) s)
  \/ Forall (fun v => v = NaN) (fillna (median s) s).
Proof.
  destruct (median s) as [x|] eqn:Hmed.
  - left. unfold fillna. apply Forall_forall. intros v Hv.
    apply in_map_iff in Hv as [a [Ha _]].
    destruct a as [y|]; simpl in Ha; subst; eauto.
  - right. apply median_nan, dropna_nil in Hmed.
    unfold fillna. apply Forall_forall. intros v Hv.
    apply in_map_iff in Hv as [a [Ha Hin]].
    rewrite Forall_forall in Hmed. rewrite (Hmed a Hin) in Ha. now simpl in Ha.
Qed.

Lemma Forall_map_fst_filter {A B : Type} (P : A -> Prop) (f : A * B -> bool)
      (l : list (A * B)) :
  Forall (fun ab => P (fst ab)) l -> Forall P (map fst (filter f l)).
Proof.
  intros H. apply Forall_forall. intros a Ha.
  apply in_map_iff in Ha as [[a' b] [Heq Hin]]. simpl in Heq. subst a'.
  apply filter_In in Hin as [Hin _].
  rewrite Forall_forall in H. now apply (H (a, b)).
Qed.

(** The rows a column's turn produces, before the trim. *)
Lemma filled_rows (P : RawRow -> Prop) (m : metric) (df : RawFrame)
      (filled : Series) :
  (forall r v, In (r, v) (combine df filled) -> P (set_cell m (Num v) r)) ->
  Forall P (map (fun rv => set_cell m (Num (snd rv)) (fst rv))
                (combine df filled)).
Proof.
  intros H. apply Forall_forall. intros r Hr.
  apply in_map_iff in Hr as [[r0 v] [Heq Hin]]. subst r. now apply H.
Qed.

Lemma clean_column_rows (P : RawRow -> Prop) (m : metric) (df out : RawFrame) :
  clean_column m df = Some out ->
  (forall s r v,
      numeric (map (raw_cell m) df) = Some s ->
      In (r, v) (combine df (fillna (median s) s)) ->
      P (set_cell m (Num v) r)) ->
  Forall P out.
Proof.
  unfold clean_column. intros Hc H.
  destruct (numeric (map (raw_cell m) df)) as [s|] eqn:Hs; [|discriminate].
  assert (Hrows : Forall P (map (fun rv => set_cell m (Num (snd rv)) (fst rv))
                                (combine df (fillna (median s) s)))).
  { apply filled_rows. intros r v Hin. now apply (H s r v eq_refl). }
  destruct (_ >? _)%fl; inversion Hc; subst; [|exact Hrows].
  apply Forall_map_fst_filter.
  apply Forall_forall. intros [r v] Hin. cbn [fst].
  apply in_combine_l in Hin. rewrite Forall_forall in Hrows. now apply Hrows.
Qed.

Lemma clean_column_uniform (m : metric) (df out : RawFrame) :
  clean_column m df = Some out ->
  Metadata.col_all (fun v => exists x, v = Fin x) m out
  \/ Metadata.col_all (fun v => v = NaN) m out.
Proof.
  intros Hc. unfold Metadata.col_all.
  assert (Hs : exists s, numeric (map (raw_cell m) df) = Some s).
  { unfold clean_column in Hc.
    destruct (numeric (map (raw_cell m) df)) as [s|]; [eauto | discriminate]. }
  destruct Hs as [s Hs].
  destruct (fillna_uniform s) as [Hfin|Hnan]; [left | right].
  - apply (clean_column_rows _ m df out Hc). intros s' r v Hs' Hin.
    rewrite Hs in Hs'. inversion Hs'; subst s'.
    rewrite raw_cell_set_cell_same. exists v. split; [reflexivity|].
    apply in_combine_r in Hin. rewrite Forall_forall in Hfin. now apply Hfin.
  - apply (clean_column_rows _ m df out Hc). intros s' r v Hs' Hin.
    rewrite Hs in Hs'. inversion Hs'; subst s'.
    rewrite raw_cell_set_cell_same. exists v. split; [reflexivity|].
    apply in_combine_r in Hin. rewrite Forall_forall in Hnan. now apply Hnan.
Qed.

Lemma clean_column_preserves (R : float -> Prop) (m m' : metric)
      (df out : RawFrame) :
  m <> m' -> clean_column m' df = Some out ->
  Metadata.col_all R m df -> Metadata.col_all R m out.
Proof.
  intros Hne Hc Hall. unfold Metadata.col_all in *.
  apply (clean_column_rows _ m' df out Hc). intros s r v _ Hin.
  rewrite (raw_cell_set_cell_other m m' _ r Hne).
  apply in_combine_l in Hin. rewrite Forall_forall in Hall. now apply Hall.
Qed.

Lemma to_numeric_preserves (R : float -> Prop) (m m' : metric) (df : RawFrame) :
  Metadata.col_all R m df -> Metadata.col_all R m (to_numeric m' df).
Proof.
  unfold Metadata.col_all, to_numeric. intros Hall.
  apply Forall_forall. intros r Hr.
  apply in_map_iff in Hr as [r0 [Heq Hin]].
  rewrite Forall_forall in Hall. destruct (Hall r0 Hin) as [v [Hv HR]].
  destruct (raw_cell m' r0) as [w|w] eqn:Hw; subst r; [now exists v|].
  destruct m, m'; try (exists v; split; [exact Hv | exact HR]);
    rewrite Hv in Hw; discriminate.
Qed.

Lemma insert_by_time_Forall (P : RawRow -> Prop) (r : RawRow) (l : RawFrame) :
  P r -> Forall P l -> Forall P (insert_by_time r l).
Proof.
  intros Hr Hl. induction Hl as [|h t Hh Ht IH]; simpl.
  - now constructor.
  - destruct (time_le (TIME r) (TIME h)); repeat constructor; assumption.
Qed.

Lemma sort_values_TIME_Forall (P : RawRow -> Prop) (df : RawFrame) :
  Forall P df -> Forall P (sort_values_TIME df).
Proof.
  unfold sort_values_TIME. induction 1 as [|r df Hr _ IH]; simpl.
  - constructor.
  - now apply insert_by_time_Forall.
Qed.

Lemma finish_preserves (R : float -> Prop) (m : metric) (df : RawFrame) :
  Metadata.col_all R m df ->
  Metadata.col_all R m
          (sort_values_TIME
             (to_numeric PRB (to_numeric SINR (to_numeric RTWP df)))).
Proof.
  intros H. unfold Metadata.col_all. apply sort_values_TIME_Forall.
  now apply to_numeric_preserves, to_numeric_preserves, to_numeric_preserves.
Qed.

(** In a cleaned frame each required column is all numbers or all
    missing. *)
Lemma clean_data_uniform (df out : RawFrame) (m : metric) :
  _clean_data df = Some out ->
  Metadata.col_all (fun v => exists x, v = Fin x) m out
  \/ Metadata.col_all (fun v => v = NaN) m out.
Proof.
  unfold _clean_data, bind.
  destruct (clean_column RTWP _) as [df1|] eqn:H1; [|discriminate].
  destruct (clean_column SINR df1) as [df2|] eqn:H2; [|discriminate].
  destruct (clean_column PRB df2) as [df3|] eqn:H3; [|discriminate].
  intros H. inversion H. clear H.
  assert (Hne1 : RTWP <> SINR) by discriminate.
  assert (Hne2 : RTWP <> PRB) by discriminate.
  assert (Hne3 : SINR <> PRB) by discriminate.
  destruct m.
  - destruct (clean_column_uniform RTWP _ _ H1) as [U|U]; [left | right];
      apply finish_preserves;
      apply (clean_column_preserves _ RTWP PRB df2 df3 Hne2 H3);
      apply (clean_column_preserves _ RTWP SINR df1 df2 Hne1 H2); exact U.
  - destruct (clean_column_uniform SINR _ _ H2) as [U|U]; [left | right];
      apply finish_preserves;
      apply (clean_column_preserves _ SINR PRB df2 df3 Hne3 H3); exact U.
  - destruct (clean_column_uniform PRB _ _ H3) as [U|U]; [left | right];
      apply finish_preserves; exact U.
Qed.

Lemma col_all_present (m : metric) (df : RawFrame) :
  Metadata.col_all (fun v => exists x, v = Fin x) m df -> Metadata.all_present m df.
Proof.
  unfold Metadata.col_all, Metadata.all_present. apply Forall_impl.
  intros r [v [Hv [x Hx]]]. exists x. now rewrite Hv, Hx.
Qed.

Lemma col_all_missing (m : metric) (df : RawFrame) :
  Metadata.col_all (fun v => v = NaN) m df -> Metadata.all_missing m df.
Proof.
  unfold Metadata.col_all, Metadata.all_missing. apply Forall_impl.
  intros r [v [Hv Hx]]. now rewrite Hv, Hx.
Qed.

(** X23. In every frame the cleaning step returns, each required column is
    either complete (every cell a number) or entirely missing; no string
    cell is left and no column is partly filled. *)
Theorem cleaned_columns_uniform (df : RawFrame) (m : metric) :
  match _clean_data df with
  | Some out => Metadata.all_present m out \/ Metadata.all_missing m out
  | None => True
  end.
Proof.
  destruct (_clean_data df) as [out|] eqn:H; [|exact I].
  destruct (clean_data_uniform df out m H) as [U|U];
    [left; now apply col_all_present | right; now apply col_all_missing].
Qed.

(** X24. The missing-value count that the metadata reports for a required
    column of a cleaned frame is 0 or the number of records. *)
Theorem metadata_missing_all_or_none (df : RawFrame) (m : metric) :
  match _clean_data df with
  | Some out =>
      Metadata.missing m out = 0%nat
      \/ Metadata.missing m out = Metadata.total_records out
  | None => True
  end.
Proof.
  destruct (_clean_data df) as [out|] eqn:H; [|exact I].
  unfold Metadata.missing, Metadata.total_records.
  destruct (clean_data_uniform df out m H) as [U|U]; [left | right];
    clear H; unfold Metadata.col_all in U;
    induction U as [|r l [v [Hv Hx]] _ IH];
    try reflexivity; cbn [filter]; rewrite Hv.
  - destruct Hx as [x ->]. cbn [isna]. exact IH.
  - rewrite Hx. cbn [isna length]. now rewrite IH.
Qed.

(** X25. The timestamps of every frame the cleaning step returns do not
    decrease, rows without a timestamp coming last. *)
Theorem cleaned_timestamps_ordered (df : RawFrame) :
  match _clean_data df with
  | Some out => Terms.time_ordered out
  | None => True
  end.
Proof.
  unfold _clean_data, bind.
  destruct (clean_column RTWP _) as [df1|]; [|exact I].
  destruct (clean_column SINR _) as [df2|]; [|exact I].
  destruct (clean_column PRB _) as [df3|]; [|exact I].
  apply sort_values_TIME_sorted.
Qed.

End Cleaning.

(** ** Rows and rejections of the cleaning step *)

Section CleaningRows.

Import Parser.

Lemma clean_column_length (m : metric) (df out : RawFrame) :
  clean_column m df = Some out -> (length out <= length df)%nat.
Proof.
  unfold clean_column.
  destruct (numeric (map (raw_cell m) df)) as [s|]; [|discriminate].
  set (filled := fillna (median s) s).
  assert (Hrows : (length (map (fun rv => set_cell m (Num (snd rv)) (fst rv))
                               (combine df filled)) <= length df)%nat).
  { rewrite length_map, length_combine. lia. }
  destruct (_ >? _)%fl; intros H; inversion H; subst; [|exact Hrows].
  rewrite length_map.
  etransitivity; [apply filter_length_le|].
  rewrite length_combine. lia.
Qed.

Lemma insert_by_time_length (r : RawRow) (l : RawFrame) :
  length (insert_by_time r l) = S (length l).
Proof.
  induction l as [|h t IH]; [reflexivity|].
  simpl. destruct (time_le (TIME r) (TIME h)); simpl; now rewrite ?IH.
Qed.

Lemma sort_values_TIME_length (df : RawFrame) :
  length (sort_values_TIME df) = length df.
Proof.
  unfold sort_values_TIME. induction df as [|r df IH]; [reflexivity|].
  simpl. now rewrite insert_by_time_length, IH.
Qed.

(** X26. The cleaning step never adds a row: what it returns has at most
    as many rows as it was given. *)
Theorem cleaning_adds_no_row (df : RawFrame) :
  match _clean_data df with
  | Some out => (length out <= length df)%nat
  | None => True
  end.
Proof.
  unfold _clean_data, bind.
  assert (H0 : (length (dropna_all df) <= length df)%nat)
    by apply filter_length_le.
  destruct (clean_column RTWP _) as [df1|] eqn:H1; [|exact I].
  destruct (clean_column SINR _) as [df2|] eqn:H2; [|exact I].
  destruct (clean_column PRB _) as [df3|] eqn:H3; [|exact I].
  apply clean_column_length in H1, H2, H3.
  rewrite sort_values_TIME_length. unfold to_numeric. rewrite !length_map. lia.
Qed.

(** X27. A frame whose RTWP column holds a string is rejected: the cleaning
    step raises before anything is filled or coerced. *)
Theorem string_rtwp_rejected (df : RawFrame) :
  existsb (fun r => match raw_rtwp r with Str _ => true | Num _ => false end) df
  = true ->
  _clean_data df = None.
Proof.
  intros H. unfold _clean_data.
  rewrite (clean_column_string RTWP (dropna_all df)); [reflexivity|].
  apply existsb_exists in H as [r [Hin Hstr]].
  apply existsb_exists. exists r. split; [|exact Hstr].
  unfold dropna_all. apply filter_In. split; [exact Hin|].
  destruct (raw_rtwp r); [discriminate|].
  cbn [isna]. now rewrite andb_false_r.
Qed.

Lemma string_rtwp_rejected_witness : _clean_data Inputs.text_rtwp = None.
Proof.
  apply string_rtwp_rejected. reflexivity.
Defined.

Lemma sorted_head_le (r : RawRow) (l : RawFrame) :
  TimeColumn.strictly_increasing (r :: l) ->
  insert_by_time r l = r :: l.
Proof.
  intros H. inversion H as [|? ? _ Hhd]; subst.
  destruct l as [|h t]; [reflexivity|].
  inversion Hhd as [|? ? Hlt]; subst. simpl.
  destruct (TIME r) as [x|], (TIME h) as [y|]; try contradiction.
  simpl. now rewrite (proj2 (Z.leb_le x y)) by lia.
Qed.

Lemma sort_strictly_increasing (df : RawFrame) :
  TimeColumn.strictly_increasing df -> sort_values_TIME df = df.
Proof.
  unfold sort_values_TIME. induction df as [|r df IH]; [reflexivity|].
  intros H. simpl.
  assert (Htail : TimeColumn.strictly_increasing df)
    by (inversion H; assumption).
  rewrite (IH Htail). now apply sorted_head_le.
Qed.

Lemma date_range_increasing (df : RawFrame) : forall start,
  TimeColumn.strictly_increasing
    (TimeColumn.assign_TIME
       (map (fun i => Some (900 * Z.of_nat i)%Z) (seq start (length df))) df).
Proof.
  unfold TimeColumn.strictly_increasing, TimeColumn.assign_TIME.
  induction df as [|r df IH]; intros start; [constructor|].
  cbn [length seq map combine fst snd]. constructor; [apply IH|].
  destruct df as [|r' df']; [constructor|].
  cbn [length seq map combine fst snd]. constructor. cbn [TIME]. lia.
Qed.

(** X28. Without a time column the timestamps are synthetic, 15 minutes
    apart in file order, and sorting by time leaves the rows in the order of
    the file. *)
Theorem synthetic_time_keeps_order (df : RawFrame) :
  let timed := TimeColumn._process_time_column None df in
  map TIME timed = TimeColumn.date_range (length df)
  /\ sort_values_TIME timed = timed.
Proof.
  cbv zeta. unfold TimeColumn._process_time_column, TimeColumn.date_range.
  split.
  - unfold TimeColumn.assign_TIME. rewrite map_map. cbn [TIME fst].
    generalize 0%nat as start.
    induction df as [|r df IH]; intros start; [reflexivity|].
    cbn [length seq map combine fst]. now rewrite IH.
  - apply sort_strictly_increasing, date_range_increasing.
Qed.

End CleaningRows.

(** ** Column names *)

Section ColumnNames.

Import Headers.
Open Scope string_scope.

Lemma renamed_cases (n : string) :
  renamed n = n
  \/ (renamed n = "RTWP" \/ renamed n = "SINR" \/ renamed n = "PRB"
      \/ renamed n = "TIME").
Proof.
  unfold renamed, column_mapping. cbn [find fst snd].
  repeat match goal with
         | |- context [String.eqb ?k n] =>
             destruct (String.eqb_spec k n) as [<-|?]; [right; tauto|]
         end.
  now left.
Qed.

Lemma renamed_canonical (n : string) :
  In n ["RTWP"; "SINR"; "PRB"; "TIME"] -> renamed n = n.
Proof.
  intros [<-|[<-|[<-|[<-|[]]]]]; reflexivity.
Qed.

(** X29. Renaming the columns by the synonym table is idempotent, and no
    renamed column is called TIMESTAMP, DATE or DATETIME: after
    [_clean_headers] the time column that is found, if any, is TIME. *)
Theorem renamed_headers (normalise : string -> string) (columns : list string) :
  map renamed (map renamed columns) = map renamed columns
  /\ (find_time_column (_clean_headers normalise columns) = None
      \/ find_time_column (_clean_headers normalise columns) = Some "TIME").
Proof.
  assert (Hidem : forall n, renamed (renamed n) = renamed n).
  { intros n. destruct (renamed_cases n) as [H|H].
    - now rewrite H.
    - apply renamed_canonical. simpl.
      destruct H as [H|[H|[H|H]]]; rewrite H; tauto. }
  split.
  - rewrite map_map. apply map_ext. exact Hidem.
  - unfold _clean_headers. set (cols := map normalise columns).
    assert (Hnone : forall k,
               In k ["TIMESTAMP"; "DATE"; "DATETIME"] ->
               has_column k (map renamed cols) = false).
    { intros k Hk. unfold has_column.
      destruct (existsb (String.eqb k) (map renamed cols)) eqn:E; [|reflexivity].
      apply existsb_exists in E as [c [Hin Heq]].
      apply String.eqb_eq in Heq. subst c.
      apply in_map_iff in Hin as [n [Hn _]].
      assert (Hfix : renamed k = k) by (rewrite <- Hn; apply Hidem).
      exfalso. destruct Hk as [<-|[<-|[<-|[]]]]; discriminate Hfix. }
    unfold find_time_column, time_columns. cbn [find].
    destruct (has_column "TIME" (map renamed cols)); [now right|].
    rewrite !Hnone by (simpl; tauto). now left.
Qed.

(** X30. A header that holds a required column under one of its synonyms
    passes the validation for that column, and the validation reports
    nothing exactly when the three required names are all there. *)
Theorem synonyms_validate (normalise : string -> string) (columns : list string) :
  (forall k t,
      In (k, t) column_mapping -> In k (map normalise columns) ->
      ~ In t (_validate_columns (_clean_headers normalise columns)))
  /\ (_validate_columns columns = []
      <-> In "RTWP" columns /\ In "SINR" columns /\ In "PRB" columns).
Proof.
  assert (Hhas : forall c l, has_column c l = true <-> In c l).
  { intros c l. unfold has_column. rewrite existsb_exists. split.
    - intros [x [Hin Heq]]. apply String.eqb_eq in Heq. now subst.
    - intros Hin. exists c. split; [assumption | apply String.eqb_refl]. }
  split.
  - intros k t Hkt Hk Hmiss.
    unfold _validate_columns in Hmiss. apply filter_In in Hmiss as [_ Hneg].
    apply negb_true_iff in Hneg.
    assert (Hin : In t (_clean_headers normalise columns)).
    { unfold _clean_headers. apply in_map_iff. exists k. split; [|exact Hk].
      unfold column_mapping in Hkt. simpl in Hkt.
      repeat destruct Hkt as [Hkt|Hkt]; try (inversion Hkt; reflexivity). }
    apply Hhas in Hin. congruence.
  - unfold _validate_columns, required_columns. cbn [filter].
    rewrite <- !Hhas.
    destruct (has_column "RTWP" columns), (has_column "SINR" columns),
      (has_column "PRB" columns); cbn [negb]; split;
      try discriminate; try tauto; intros [H1 [H2 H3]]; discriminate.
Qed.

(** A header with TIMESTAMP, RTWP, SINR_DB and PRB_UTIL: PRB is not
    reported missing. *)
Lemma synonyms_validate_witness :
  existsb (String.eqb "PRB")
          (_validate_columns
             (_clean_headers (fun n => n)
                             ["TIMESTAMP"; "RTWP"; "SINR_DB"; "PRB_UTIL"]))
  = false.
Proof.
  destruct (synonyms_validate (fun n => n)
                              ["TIMESTAMP"; "RTWP"; "SINR_DB"; "PRB_UTIL"])
    as [Hsyn _].
  destruct (existsb _ _) eqn:E; [exfalso | reflexivity].
  apply existsb_exists in E as [c [Hin Heq]].
  apply String.eqb_eq in Heq. subst c.
  apply (Hsyn "PRB_UTIL" "PRB"); [simpl; tauto | simpl; tauto | exact Hin].
Defined.

End ColumnNames.
